(** * Smart-AI-Resume-Analyzer: dashboard metrics and feedback statistics

    A shallow embedding of [dashboard/dashboard.py] (DashboardManager:
    get_resume_metrics, get_skill_distribution, get_weekly_trends) and of
    [feedback/feedback.py] (FeedbackManager: save_feedback,
    get_feedback_stats), with the parts of Python's [datetime] and of
    SQLite's query language that these functions rely on.

    Conventions.  The clock reading [datetime.now()] is an argument [now].
    A raised exception is the result [None].  A table is the list of its
    rows, NULL is [None], TEXT is a string compared character by
    character.  Scores and averages are exact rationals where SQLite and
    pandas compute with doubles.  The schema of resume_data and
    resume_analysis is not part of the sources read here: the rows carry
    the columns that the queries name, an integer id, created_at and skills
    as nullable text, the scores as nullable numbers. *)

From Stdlib Require Import ZArith QArith Qround List Bool Ascii String Lia Lqa.
From Stdlib Require Import Permutation Sorted.
Import ListNotations.
Open Scope Z_scope.

(** A Python dict with string keys, as an association list in insertion
    order; [dict_get key d] is [d.get(key)]. *)
Fixpoint dict_get {A : Type} (key : string) (d : list (string * A)) : option A :=
  match d with
  | [] => None
  | (k, v) :: d' => if String.eqb k key then Some v else dict_get key d'
  end.

(* ===================================================================== *)
(** ** Python's [datetime] (the proleptic Gregorian calendar)            *)
(* ===================================================================== *)

Module PyDatetime.

(** A naive [datetime.datetime] value. *)
Record datetime := mkDatetime {
  year : Z; month : Z; day : Z;
  hour : Z; minute : Z; second : Z; microsecond : Z
}.

Definition MINYEAR : Z := 1.
Definition MAXYEAR : Z := 9999.
(** [date(9999, 12, 31).toordinal()] *)
Definition MAXORDINAL : Z := 3652059.

(** year -> 1 if leap year, else 0 *)
Definition is_leap (y : Z) : bool :=
  (y mod 4 =? 0) && (negb (y mod 100 =? 0) || (y mod 400 =? 0)).

(** [_DAYS_IN_MONTH], indexed from 1 *)
Definition DAYS_IN_MONTH (m : Z) : Z :=
  match m with
  | 1 => 31 | 2 => 28 | 3 => 31 | 4 => 30 | 5 => 31 | 6 => 30
  | 7 => 31 | 8 => 31 | 9 => 30 | 10 => 31 | 11 => 30 | 12 => 31
  | _ => -1
  end.

(** [_DAYS_BEFORE_MONTH], the running sum of [_DAYS_IN_MONTH] *)
Definition DAYS_BEFORE_MONTH (m : Z) : Z :=
  match m with
  | 1 => 0 | 2 => 31 | 3 => 59 | 4 => 90 | 5 => 120 | 6 => 151
  | 7 => 181 | 8 => 212 | 9 => 243 | 10 => 273 | 11 => 304 | 12 => 334
  | _ => -1
  end.

(** year -> number of days before January 1st of year *)
Definition days_before_year (y : Z) : Z :=
  let y' := y - 1 in y' * 365 + y' / 4 - y' / 100 + y' / 400.

(** year, month -> number of days in that month in that year *)
Definition days_in_month (y m : Z) : Z :=
  if (m =? 2) && is_leap y then 29 else DAYS_IN_MONTH m.

(** year, month -> number of days in year preceding first day of month *)
Definition days_before_month (y m : Z) : Z :=
  DAYS_BEFORE_MONTH m + (if (2 <? m) && is_leap y then 1 else 0).

(** year, month, day -> ordinal, considering 01-Jan-0001 as day 1 *)
Definition ymd2ord (y m d : Z) : Z :=
  days_before_year y + days_before_month y m + d.

Definition DI400Y : Z := 146097.
Definition DI100Y : Z := 36524.
Definition DI4Y : Z := 1461.

(** ordinal -> (year, month, day), considering 01-Jan-0001 as day 1 *)
Definition ord2ymd (n : Z) : Z * Z * Z :=
  let n := n - 1 in
  let n400 := n / DI400Y in
  let n := n mod DI400Y in
  let y := n400 * 400 + 1 in
  let n100 := n / DI100Y in
  let n := n mod DI100Y in
  let n4 := n / DI4Y in
  let n := n mod DI4Y in
  let n1 := n / 365 in
  let n := n mod 365 in
  let y := y + n100 * 100 + n4 * 4 + n1 in
  if (n1 =? 4) || (n100 =? 4) then (y - 1, 12, 31)
  else
    let leapyear := (n1 =? 3) && (negb (n4 =? 24) || (n100 =? 3)) in
    let m := Z.shiftr (n + 50) 5 in
    let preceding := DAYS_BEFORE_MONTH m + (if (2 <? m) && leapyear then 1 else 0) in
    if n <? preceding then
      let m := m - 1 in
      let preceding :=
        preceding - (DAYS_IN_MONTH m + (if (m =? 2) && leapyear then 1 else 0)) in
      (y, m, n - preceding + 1)
    else (y, m, n - preceding + 1).

(** The calendar part of the constructor's argument check. *)
Definition valid_date (y m d : Z) : Prop :=
  MINYEAR <= y <= MAXYEAR /\ 1 <= m <= 12 /\ 1 <= d <= days_in_month y m.

Definition valid_dateb (y m d : Z) : bool :=
  (MINYEAR <=? y) && (y <=? MAXYEAR) && (1 <=? m) && (m <=? 12) &&
  (1 <=? d) && (d <=? days_in_month y m).

(** The values [datetime(...)] accepts. *)
Definition valid (t : datetime) : Prop :=
  valid_date (year t) (month t) (day t) /\
  0 <= hour t < 24 /\ 0 <= minute t < 60 /\ 0 <= second t < 60 /\
  0 <= microsecond t < 1000000.

Definition toordinal (t : datetime) : Z := ymd2ord (year t) (month t) (day t).

(** Monday == 0 ... Sunday == 6 *)
Definition weekday (t : datetime) : Z := (toordinal t + 6) mod 7.

(** [t - timedelta(days=x)]: the date moves by whole days through its
    ordinal, the time of day is carried over; a result outside
    [1 .. MAXORDINAL] raises OverflowError ([None]). *)
Definition sub_days (t : datetime) (x : Z) : option datetime :=
  let days := toordinal t - x in
  if (0 <? days) && (days <=? MAXORDINAL) then
    let '(y, m, d) := ord2ymd days in
    Some (mkDatetime y m d (hour t) (minute t) (second t) (microsecond t))
  else None.

(** [t.replace(hour=0, minute=0, second=0, microsecond=0)] *)
Definition replace_time_zero (t : datetime) : datetime :=
  mkDatetime (year t) (month t) (day t) 0 0 0 0.

(** [t.replace(day=1)] *)
Definition replace_day_1 (t : datetime) : datetime :=
  mkDatetime (year t) (month t) 1 (hour t) (minute t) (second t) (microsecond t).

(** A decimal digit as a character. *)
Definition digit (n : Z) : ascii := ascii_of_N (48 + Z.to_N (n mod 10)).

(** [%m], [%d], [%H], [%M], [%S]: two digits, zero padded *)
Definition pad2 (n : Z) : string :=
  String (digit (n / 10)) (String (digit n) EmptyString).

(** [%Y]: four digits, zero padded (what the C library does with a year
    below 1000 differs between platforms; no clock reading is that old) *)
Definition pad4 (n : Z) : string :=
  String (digit (n / 1000)) (String (digit (n / 100)) (pad2 n)).

(** [t.strftime('%Y-%m-%d')] *)
Definition strftime_date (t : datetime) : string :=
  (pad4 (year t) ++ "-" ++ pad2 (month t) ++ "-" ++ pad2 (day t))%string.

(** [t.strftime('%Y-%m-%d %H:%M:%S')] *)
Definition strftime_datetime (t : datetime) : string :=
  (strftime_date t ++ " " ++ pad2 (hour t) ++ ":" ++ pad2 (minute t) ++ ":"
     ++ pad2 (second t))%string.

End PyDatetime.

(* ===================================================================== *)
(** ** The SQLite functions and operators used by the queries            *)
(* ===================================================================== *)

Module Sqlite.

Import PyDatetime.

(** A nullable column value: [None] is NULL. *)
Definition nullable (A : Type) : Type := option A.

(** [X >= Y] on TEXT values (BINARY collation: byte-wise order); NULL when
    an operand is NULL. *)
Definition text_ge (x y : nullable string) : nullable bool :=
  match x, y with
  | Some a, Some b => Some (negb (String.ltb a b))
  | _, _ => None
  end.

(** [X = Y] on TEXT values; NULL when an operand is NULL. *)
Definition text_eq (x y : nullable string) : nullable bool :=
  match x, y with
  | Some a, Some b => Some (String.eqb a b)
  | _, _ => None
  end.

(** [X <> Y] on TEXT values; NULL when an operand is NULL. *)
Definition text_ne (x y : nullable string) : nullable bool :=
  option_map negb (text_eq x y).

(** A WHERE clause keeps a row only when its condition is true (neither
    false nor NULL). *)
Definition holds (c : nullable bool) : bool :=
  match c with Some true => true | _ => false end.

(** [X || Y]: concatenation, NULL when an operand is NULL. *)
Definition concat (x y : nullable string) : nullable string :=
  match x, y with
  | Some a, Some b => Some (a ++ b)%string
  | _, _ => None
  end.

Fixpoint instr_from (i : Z) (hay needle : string) : Z :=
  if String.prefix needle hay then i
  else match hay with
       | EmptyString => 0
       | String _ hay' => instr_from (i + 1) hay' needle
       end.

(** [instr(X, Y)]: 1 plus the number of characters before the first
    occurrence of Y in X, or 0 when Y does not occur in X. *)
Definition instr (hay needle : string) : Z := instr_from 1 hay needle.

Fixpoint skip (n : nat) (s : string) : string :=
  match n, s with
  | S n', String _ s' => skip n' s'
  | _, _ => s
  end.

Fixpoint take (n : nat) (s : string) : string :=
  match n, s with
  | S n', String c s' => String c (take n' s')
  | _, _ => EmptyString
  end.

(** [substr(X, Y, Z)] and [substr(X, Y)] ([len = None]: through the end of
    X), with the index arithmetic of SQLite's substrFunc: the leftmost
    character is number 1, a negative Y counts from the right, a negative Z
    takes the characters before Y, and position 0 stands before the first
    character, so [substr(X, 0, Z)] is the first [Z - 1] characters. *)
Definition substr (s : string) (start : Z) (len : option Z) : string :=
  let n := Z.of_nat (String.length s) in
  match len with
  | None =>
      let p1 :=
        if start <? 0 then Z.max 0 (start + n)
        else if 0 <? start then start - 1
        else start in
      skip (Z.to_nat p1) s
  | Some l =>
      let '(p2, negP2) := if l <? 0 then (- l, true) else (l, false) in
      let '(p1, p2) :=
        if start <? 0 then
          let p1 := start + n in
          if p1 <? 0 then (0, Z.max 0 (p2 + p1)) else (p1, p2)
        else if 0 <? start then (start - 1, p2)
        else if 0 <? p2 then (start, p2 - 1)
        else (start, p2) in
      let '(p1, p2) :=
        if negP2 then
          let p1 := p1 - p2 in
          if p1 <? 0 then (0, p2 + p1) else (p1, p2)
        else (p1, p2) in
      take (Z.to_nat p2) (skip (Z.to_nat p1) s)
  end.

Definition is_digit (c : ascii) : bool :=
  ((48 <=? N_of_ascii c) && (N_of_ascii c <=? 57))%N.

Definition digit_val (c : ascii) : Z := Z.of_N (N_of_ascii c) - 48.

(** Two decimal digits within [lo .. hi]. *)
Definition two_digits (a b : ascii) (lo hi : Z) : option Z :=
  if is_digit a && is_digit b then
    let v := 10 * digit_val a + digit_val b in
    if (lo <=? v) && (v <=? hi) then Some v else None
  else None.

(** The date part [YYYY-MM-DD] of a time string and what follows it. *)
Definition parse_ymd (s : string) : option (Z * Z * Z * string) :=
  match s with
  | String y1 (String y2 (String y3 (String y4 (String h1
      (String m1 (String m2 (String h2 (String d1 (String d2 rest))))))))) =>
      if (h1 =? "-")%char && (h2 =? "-")%char then
        match two_digits y1 y2 0 99, two_digits y3 y4 0 99,
              two_digits m1 m2 1 12, two_digits d1 d2 1 31 with
        | Some yh, Some yl, Some m, Some d => Some (100 * yh + yl, m, d, rest)
        | _, _, _, _ => None
        end
      else None
  | _ => None
  end.

Fixpoint all_digits (s : string) : bool :=
  match s with
  | EmptyString => true
  | String c s' => is_digit c && all_digits s'
  end.

(** The time part [HH:MM], [HH:MM:SS] or [HH:MM:SS.SSS] of a time string. *)
Definition parse_hms (s : string) : bool :=
  match s with
  | String a (String b (String c1 (String c (String d rest)))) =>
      (c1 =? ":")%char &&
      match two_digits a b 0 24, two_digits c d 0 59 with
      | Some _, Some _ =>
          match rest with
          | EmptyString => true
          | String c2 (String e (String f rest')) =>
              (c2 =? ":")%char &&
              match two_digits e f 0 59 with
              | Some _ =>
                  match rest' with
                  | EmptyString => true
                  | String dot (String g frac) =>
                      (dot =? ".")%char && is_digit g && all_digits frac
                  | _ => false
                  end
              | None => false
              end
          | _ => false
          end
      | _, _ => false
      end
  | _ => false
  end.

(** [date(X)] for a time string X: the ISO-8601 forms [YYYY-MM-DD],
    optionally followed by a blank or [T] and a time of day.  The result is
    the calendar date as text; a day number up to 31 past the end of its
    month runs over into the next month, as SQLite's day count does (the
    proleptic Gregorian day count of [PyDatetime]).  Any other text is not
    a time string here: NULL. *)
Definition date (x : nullable string) : nullable string :=
  match x with
  | None => None
  | Some s =>
      match parse_ymd s with
      | Some (y, m, d, rest) =>
          let ok :=
            match rest with
            | EmptyString => true
            | String sep t => ((sep =? " ")%char || (sep =? "T")%char) && parse_hms t
            end in
          if ok then
            let '(y', m', d') := ord2ymd (ymd2ord y m 1 + d - 1) in
            Some (pad4 y' ++ "-" ++ pad2 m' ++ "-" ++ pad2 d')%string
          else None
      | None => None
      end
  end.

Fixpoint non_null {A : Type} (l : list (nullable A)) : list A :=
  match l with
  | [] => []
  | Some a :: l' => a :: non_null l'
  | None :: l' => non_null l'
  end.

(** [COUNT( * )] *)
Definition count_rows {A : Type} (l : list A) : Z := Z.of_nat (List.length l).

(** [COUNT(DISTINCT X)]: the number of distinct non-NULL values. *)
Definition count_distinct (l : list (nullable Z)) : Z :=
  Z.of_nat (List.length (nodup Z.eq_dec (non_null l))).

Definition Qsum (l : list Q) : Q := fold_right Qplus 0%Q l.

(** [AVG(X)]: the mean of the non-NULL values, NULL when there is none.
    Numbers are exact rationals here. *)
Definition avg (l : list (nullable Q)) : nullable Q :=
  match non_null l with
  | [] => None
  | vs => Some (Qsum vs / inject_Z (Z.of_nat (List.length vs)))%Q
  end.

(** [ROUND(X, 1)]: to one decimal, halves away from zero; NULL for NULL. *)
Definition round1 (x : nullable Q) : nullable Q :=
  match x with
  | None => None
  | Some q =>
      if Qle_bool 0 q then Some (Qred (Qmake (Qfloor (q * 10 + (1 # 2))%Q) 10))
      else Some (Qred (- Qmake (Qfloor (- q * 10 + (1 # 2))%Q) 10)%Q)
  end.

End Sqlite.

(* ===================================================================== *)
(** ** dashboard/dashboard.py: DashboardManager                          *)
(* ===================================================================== *)

Module Dashboard.

Import PyDatetime.
Import Sqlite.

(** A row of [resume_data] (alias [rd]): the columns the queries read. *)
Record resume_data_row := mkResumeData {
  rd_id : Z;
  rd_created_at : nullable string;
  rd_skills : nullable string
}.

(** A row of [resume_analysis] (alias [ra]). *)
Record resume_analysis_row := mkResumeAnalysis {
  ra_resume_id : nullable Z;
  ra_ats_score : nullable Q;
  ra_keyword_match_score : nullable Q
}.

(** What [self.conn] gives access to. *)
Record database := mkDatabase {
  resume_data : list resume_data_row;
  resume_analysis : list resume_analysis_row
}.

(** *** get_resume_metrics *)

(** One value of the [metrics] dict. *)
Record period_metrics := mkMetrics {
  total : Z;
  ats_score : Q;
  keyword_score : Q;
  high_scoring : Z
}.

(** [ON rd.id = ra.resume_id] *)
Definition join_on (rd : resume_data_row) (ra : resume_analysis_row) : bool :=
  match ra_resume_id ra with
  | Some i => rd_id rd =? i
  | None => false
  end.

(** [resume_data rd LEFT JOIN resume_analysis ra ON rd.id = ra.resume_id]:
    a resume without analysis keeps one row, its [ra] columns NULL. *)
Definition left_join (db : database)
  : list (resume_data_row * option resume_analysis_row) :=
  flat_map
    (fun rd =>
       match filter (join_on rd) (resume_analysis db) with
       | [] => [(rd, None)]
       | matches => map (fun ra => (rd, Some ra)) matches
       end)
    (resume_data db).

(** A column of [ra] in a joined row. *)
Definition ra_col {A : Type} (col : resume_analysis_row -> nullable A)
  (j : resume_data_row * option resume_analysis_row) : nullable A :=
  match snd j with
  | Some ra => col ra
  | None => None
  end.

(** [CASE WHEN ra.ats_score >= 70 THEN rd.id END] *)
Definition case_high_scoring
  (j : resume_data_row * option resume_analysis_row) : nullable Z :=
  match ra_col ra_ats_score j with
  | Some s => if Qle_bool 70 s then Some (rd_id (fst j)) else None
  | None => None
  end.

(** [WHERE rd.created_at >= ?] *)
Definition in_window (start_date : string) (rd : resume_data_row) : bool :=
  holds (text_ge (rd_created_at rd) (Some start_date)).

(** The row fetched for one period: total_resumes, avg_ats_score,
    avg_keyword_score, high_scoring. *)
Definition metrics_query (db : database) (start_date : string)
  : Z * nullable Q * nullable Q * Z :=
  let rows := filter (fun j => in_window start_date (fst j)) (left_join db) in
  (count_distinct (map (fun j => Some (rd_id (fst j))) rows),
   round1 (avg (map (ra_col ra_ats_score) rows)),
   round1 (avg (map (ra_col ra_keyword_match_score) rows)),
   count_distinct (map case_high_scoring rows)).

(** Python's [x or 0] on an integer. *)
Definition int_or_0 (x : Z) : Z := if x =? 0 then 0 else x.

(** Python's [x or 0] on a number that may be [None]. *)
Definition num_or_0 (x : nullable Q) : Q :=
  match x with
  | None => 0%Q
  | Some q => if Qeq_bool q 0 then 0%Q else q
  end.

(** The body of the loop over the periods. *)
Definition period_entry (db : database) (start_date : datetime) : period_metrics :=
  let '(r0, r1, r2, r3) := metrics_query db (strftime_datetime start_date) in
  mkMetrics (int_or_0 r0) (num_or_0 r1) (num_or_0 r2) (int_or_0 r3).

Definition start_of_day (now : datetime) : datetime := replace_time_zero now.

Definition start_of_week (now : datetime) : option datetime :=
  sub_days now (weekday now).

Definition start_of_month (now : datetime) : datetime := replace_day_1 now.

(** [datetime(2000, 1, 1)] *)
Definition all_time_start : datetime := mkDatetime 2000 1 1 0 0 0 0.

(** [get_resume_metrics], the clock reading [now] made explicit; [None]
    stands for a raised exception.  The dict is an association list in
    insertion order. *)
Definition get_resume_metrics (db : database) (now : datetime)
  : option (list (string * period_metrics)) :=
  match start_of_week now with
  | None => None
  | Some sow =>
      Some (map (fun p => (fst p, period_entry db (snd p)))
              [("Today"%string, start_of_day now);
               ("This Week"%string, sow);
               ("This Month"%string, start_of_month now);
               ("All Time"%string, all_time_start)])
  end.

(** *** get_skill_distribution *)

(** A row of the recursive table [split(skill, rest)]. *)
Definition split_row : Type := string * nullable string.

(** [SELECT '', skills || ',' FROM resume_data] *)
Definition split_initial (db : database) : list split_row :=
  map (fun rd => (EmptyString, concat (rd_skills rd) (Some ","%string)))
      (resume_data db).

(** [SELECT substr(rest, 0, instr(rest, ',')),
            substr(rest, instr(rest, ',') + 1)
     FROM split WHERE rest <> ''], on a single row of [split]. *)
Definition split_recursive (r : split_row) : list split_row :=
  if holds (text_ne (snd r) (Some EmptyString)) then
    match snd r with
    | Some rest =>
        [(substr rest 0 (Some (instr rest ",")),
          Some (substr rest (instr rest "," + 1) None))]
    | None => []
    end
  else [].

(** SQLite's evaluation of [WITH RECURSIVE ... UNION ALL]: the rows of the
    initial SELECT go into a queue; a row is taken from the queue, added to
    the table, and the rows the recursive SELECT derives from it are put at
    the end of the queue, until the queue is empty.  [None]: out of fuel. *)
Fixpoint run_recursive (fuel : nat) (queue : list split_row)
  : option (list split_row) :=
  match queue with
  | [] => Some []
  | r :: q =>
      match fuel with
      | O => None
      | S fuel' =>
          option_map (cons r) (run_recursive fuel' (q ++ split_recursive r))
      end
  end.

(** Steps after which the queue that starts from [queue] is empty: every
    row is taken once, and so is each row derived from it, one per
    character of [rest] at most. *)
Definition split_fuel (queue : list split_row) : nat :=
  fold_right
    (fun r acc =>
       (S (match snd r with Some rest => String.length rest | None => O end) + acc)%nat)
    O queue.

(** The table [split]. *)
Definition split_table (db : database) : option (list split_row) :=
  run_recursive (split_fuel (split_initial db)) (split_initial db).

(** [FROM split WHERE skill <> ''], the column [skill]. *)
Definition nonempty_skills (table : list split_row) : list string :=
  filter (fun s => holds (text_ne (Some s) (Some EmptyString))) (map fst table).

(** [SELECT skill, COUNT( * ) ... GROUP BY skill]: one row per distinct
    skill, with the number of rows of its group. *)
Definition group_by_count (skills : list string) : list (string * Z) :=
  map (fun k => (k, Z.of_nat (count_occ string_dec skills k)))
      (nodup string_dec skills).

(** [ORDER BY count DESC]: the order the rows must respect. *)
Definition count_desc (a b : string * Z) : Prop := snd b <= snd a.

(** [ORDER BY count DESC LIMIT 10] over the groups: the first ten rows of
    the groups put in descending order of count.  SQL leaves the order of
    rows with equal counts open, so this is a relation: any such ordering
    may be the one returned. *)
Definition order_limit (groups result : list (string * Z)) : Prop :=
  exists ordered,
    Permutation ordered groups /\
    StronglySorted count_desc ordered /\
    result = firstn 10 ordered.

(** [get_skill_distribution]: the pairs (skills, counts) the method may
    return on a database. *)
Definition get_skill_distribution_spec (db : database)
  (result : list string * list Z) : Prop :=
  exists table rows,
    split_table db = Some table /\
    order_limit (group_by_count (nonempty_skills table)) rows /\
    result = (map fst rows, map snd rows).




(** *** get_weekly_trends *)

(** A list comprehension whose element expression may raise. *)
Fixpoint map_raise {A B : Type} (f : A -> option B) (l : list A) : option (list B) :=
  match l with
  | [] => Some []
  | a :: l' =>
      match f a with
      | None => None
      | Some b => option_map (cons b) (map_raise f l')
      end
  end.

(** Python's [s[-n:]] for [n > 0]: the last [n] characters, or all of [s]. *)
Definition py_suffix (n : nat) (s : string) : string :=
  skip (String.length s - n) s.

(** [SELECT COUNT( * ) FROM resume_data WHERE DATE(created_at) = DATE(?)] *)
Definition submissions_on (db : database) (d : string) : Z :=
  count_rows
    (filter (fun rd => holds (text_eq (date (rd_created_at rd)) (date (Some d))))
            (resume_data db)).

(** [get_weekly_trends], the clock reading [now] made explicit; [None]
    stands for a raised exception. *)
Definition get_weekly_trends (db : database) (now : datetime)
  : option (list string * list Z) :=
  match map_raise (fun x => option_map strftime_date (sub_days now x))
                  [6; 5; 4; 3; 2; 1; 0] with
  | None => None
  | Some dates =>
      Some (map (py_suffix 3) dates, map (submissions_on db) dates)
  end.

End Dashboard.

(* ===================================================================== *)
(** ** feedback/feedback.py: FeedbackManager                             *)
(* ===================================================================== *)

Module Feedback.

Import PyDatetime.

(** A row of the table [feedback]. *)
Record feedback_row := mkFeedbackRow {
  id : Z;
  rating : Z;
  usability_score : Z;
  feature_satisfaction : Z;
  missing_features : string;
  improvement_suggestions : string;
  user_experience : string;
  timestamp : datetime
}.

(** The dict [feedback_data] that the form builds, in key order. *)
Record feedback_data := mkFeedbackData {
  fd_rating : Z;
  fd_usability_score : Z;
  fd_feature_satisfaction : Z;
  fd_missing_features : string;
  fd_improvement_suggestions : string;
  fd_user_experience : string
}.

(** The feedback database: the rows of [feedback] and the largest id ever
    given out (SQLite keeps it for an AUTOINCREMENT column). *)
Record store := mkStore {
  rows : list feedback_row;
  last_id : Z
}.

Definition empty_store : store := mkStore [] 0.

(** [save_feedback]: INSERT one row; the values of [feedback_data] fill
    the columns in order, the timestamp is the clock reading [now]. *)
Definition save_feedback (s : store) (fd : feedback_data) (now : datetime) : store :=
  let new_id :=
    Z.max (last_id s) (fold_right Z.max 0 (map id (rows s))) + 1 in
  mkStore
    (rows s ++
     [mkFeedbackRow new_id (fd_rating fd) (fd_usability_score fd)
        (fd_feature_satisfaction fd) (fd_missing_features fd)
        (fd_improvement_suggestions fd) (fd_user_experience fd) now])
    new_id.

Definition Zsum (l : list Z) : Z := fold_right Z.add 0 l.

(** The mean of a non-empty integer column, as an exact rational in lowest
    terms. *)
Definition mean (col : list Z) : Q :=
  Qred (Qmake (Zsum col) (Pos.of_nat (List.length col))).

(** A column of the frame that [pd.read_sql_query] builds: an INTEGER
    column holds integers, a TEXT column and the timestamp hold strings. *)
Inductive column :=
| IntColumn (values : list Z)
| TextColumn (values : list string).

(** Six digits, zero padded: the microseconds of [isoformat]. *)
Definition pad6 (n : Z) : string :=
  (pad2 (n / 10000) ++ pad2 (n / 100) ++ pad2 n)%string.

(** The text that sqlite3 stores for a [datetime] parameter: its
    [isoformat(" ")], which has the microseconds when they are not 0. *)
Definition adapt_datetime (t : datetime) : string :=
  if microsecond t =? 0 then strftime_datetime t
  else (strftime_datetime t ++ "." ++ pad6 (microsecond t))%string.

(** [pd.read_sql_query("SELECT * FROM feedback", conn)]: the columns of the
    table by name, in the order of CREATE TABLE. *)
Definition read_sql_query (s : store) : list (string * column) :=
  [("id"%string, IntColumn (map id (rows s)));
   ("rating"%string, IntColumn (map rating (rows s)));
   ("usability_score"%string, IntColumn (map usability_score (rows s)));
   ("feature_satisfaction"%string, IntColumn (map feature_satisfaction (rows s)));
   ("missing_features"%string, TextColumn (map missing_features (rows s)));
   ("improvement_suggestions"%string,
    TextColumn (map improvement_suggestions (rows s)));
   ("user_experience"%string, TextColumn (map user_experience (rows s)));
   ("timestamp"%string,
    TextColumn (map (fun r => adapt_datetime (timestamp r)) (rows s)))].

Definition column_length (c : column) : nat :=
  match c with
  | IntColumn values => List.length values
  | TextColumn values => List.length values
  end.

(** [df.empty]: the frame has no column or no row. *)
Definition df_empty (df : list (string * column)) : bool :=
  match df with
  | [] => true
  | (_, c) :: _ => Nat.eqb (column_length c) 0
  end.

(** The mean of one column as [DataFrame.mean] takes it when called
    without [numeric_only], which is then False (pandas 2): the sum over
    the count for integers; for strings a TypeError ([None]), a string
    being no number.  (pandas 2.0 first joins the strings and raises
    unless the joined text reads as a number, which the text of a
    timestamp never does.) *)
Definition column_mean (c : column) : option Q :=
  match c with
  | IntColumn values => Some (mean values)
  | TextColumn _ => None
  end.

(** [df.mean().to_dict()]: the mean of every column by name; the exception
    of a column is the exception of the call. *)
Fixpoint df_mean (df : list (string * column)) : option (list (string * Q)) :=
  match df with
  | [] => Some []
  | (name, c) :: df' =>
      match column_mean c, df_mean df' with
      | Some m, Some means => Some ((name, m) :: means)
      | _, _ => None
      end
  end.

(** [get_feedback_stats]: [{}] is the empty list, [None] a raised
    exception. *)
Definition get_feedback_stats (s : store) : option (list (string * Q)) :=
  let df := read_sql_query s in
  if df_empty df then Some [] else df_mean df.

End Feedback.

(* ===================================================================== *)
(** ** The notions of the specification                                   *)
(* ===================================================================== *)

(** What the specification says the methods compute, written down
    directly on the tables, to compare the methods with. *)
Module Spec.

Import PyDatetime.
Import Sqlite.
Import Dashboard.

(** *** Windows of get_resume_metrics *)

(** First difference decides: the order of two sequences of numbers. *)
Fixpoint lex_compare (a b : list Z) : comparison :=
  match a, b with
  | x :: a', y :: b' =>
      match x ?= y with
      | Eq => lex_compare a' b'
      | c => c
      end
  | [], [] => Eq
  | [], _ :: _ => Lt
  | _ :: _, [] => Gt
  end.

(** The order of two timestamps in time, to the second. *)
Definition chrono_compare (a b : datetime) : comparison :=
  lex_compare [year a; month a; day a; hour a; minute a; second a]
              [year b; month b; day b; hour b; minute b; second b].

(** The distinct resumes created at or after the start of a window. *)
Definition resumes_in_window (db : database) (start_date : string) : list Z :=
  nodup Z.eq_dec (map rd_id (filter (in_window start_date) (resume_data db))).

(** A resume has an analysis whose ats_score is at least 70. *)
Definition has_high_score (db : database) (rd : resume_data_row) : bool :=
  existsb
    (fun ra =>
       join_on rd ra &&
       match ra_ats_score ra with Some s => Qle_bool 70 s | None => false end)
    (resume_analysis db).

(** The distinct resumes of a window whose ats_score is at least 70. *)
Definition high_scoring_in_window (db : database) (start_date : string) : list Z :=
  nodup Z.eq_dec
    (map rd_id
       (filter (fun rd => in_window start_date rd && has_high_score db rd)
               (resume_data db))).

(** Every score stored in resume_analysis lies in [0, 100]. *)
Definition scores_in_range (db : database) : Prop :=
  forall ra, In ra (resume_analysis db) ->
    (forall s, ra_ats_score ra = Some s -> 0 <= s <= 100)%Q /\
    (forall s, ra_keyword_match_score ra = Some s -> 0 <= s <= 100)%Q.

(** [metrics['All Time']['total']] *)
Definition all_time_total (db : database) (now : datetime) : option Z :=
  match get_resume_metrics db now with
  | Some metrics => option_map total (dict_get "All Time" metrics)
  | None => None
  end.

(** *** Days of get_weekly_trends *)

(** A record was created on a calendar day: the date of its created_at,
    the time of day left out, is that day. *)
Definition created_on (d : datetime) (rd : resume_data_row) : bool :=
  match date (rd_created_at rd) with
  | Some s => String.eqb s (strftime_date d)
  | None => false
  end.

(** The number of records created on a calendar day. *)
Definition records_created_on (db : database) (d : datetime) : Z :=
  Z.of_nat (List.length (filter (created_on d) (resume_data db))).

(** *** Tokens of get_skill_distribution *)

(** [s.split(',')]: the pieces of [s] between its commas. *)
Fixpoint split_comma (s : string) : list string :=
  match s with
  | EmptyString => [EmptyString]
  | String c s' =>
      if (c =? ",")%char then EmptyString :: split_comma s'
      else match split_comma s' with
           | t :: ts => String c t :: ts
           | [] => [String c EmptyString]
           end
  end.

(** The tokens of one skills field: split on commas, empty tokens dropped;
    a NULL field has none. *)
Definition record_tokens (skills : nullable string) : list string :=
  match skills with
  | Some s => filter (fun t => negb (String.eqb t EmptyString)) (split_comma s)
  | None => []
  end.

(** The tokens of all records. *)
Definition skill_tokens (db : database) : list string :=
  flat_map (fun rd => record_tokens (rd_skills rd)) (resume_data db).

(** *** Databases and a clock reading to evaluate the methods on *)

(** A database and a clock reading to evaluate the functions on: three
    resumes, two of them analysed; a Wednesday afternoon. *)
Definition example_db : database :=
  mkDatabase
    [mkResumeData 1 (Some "2024-01-01 09:00:00"%string) (Some "Python,SQL"%string);
     mkResumeData 2 (Some "2024-01-03 10:00:00"%string) (Some "Python,Go"%string);
     mkResumeData 3 (Some "1999-12-31 23:59:59"%string) (Some "SQL"%string)]
    [mkResumeAnalysis (Some 1) (Some (85 # 1)) (Some (60 # 1));
     mkResumeAnalysis (Some 2) (Some (65 # 1)) None].

Definition example_now : datetime := mkDatetime 2024 1 3 15 30 0 0.

(** The three records of the specification's example. *)
Definition python_sql_go : database :=
  mkDatabase
    [mkResumeData 1 None (Some "Python,SQL"%string);
     mkResumeData 2 None (Some "Python,Go"%string);
     mkResumeData 3 None (Some "SQL"%string)]
    [].


(** A feedback store after three submissions, with ratings 5, 3 and 4. *)
Definition ratings_5_3_4 : Feedback.store :=
  let now := mkDatetime 2024 1 3 15 30 0 0 in
  Feedback.save_feedback
    (Feedback.save_feedback
       (Feedback.save_feedback Feedback.empty_store
          (Feedback.mkFeedbackData 5 4 3 EmptyString "charts" "fine") now)
       (Feedback.mkFeedbackData 3 4 3 "export" EmptyString "slow") now)
    (Feedback.mkFeedbackData 4 4 4 EmptyString EmptyString "good") now.

(** The mean that each column of the feedback frame has by itself. *)
Definition column_means (s : Feedback.store) : list (string * option Q) :=
  map (fun c => (fst c, Feedback.column_mean (snd c))) (Feedback.read_sql_query s).

End Spec.

(* ===================================================================== *)
(** ** The windows and the counts of the specification                   *)
(* ===================================================================== *)

(** The four windows as the specification names them, and what it has
    get_resume_metrics count in a window, on the tables and the calendar
    alone: no query and no start computed by the method enters here. *)
Module MetricsSpec.

Import PyDatetime Sqlite Dashboard Spec.

(** The start of the day: midnight of today. *)
Definition start_of_today (now : datetime) : datetime :=
  mkDatetime (year now) (month now) (day now) 0 0 0 0.

(** The start of the week: midnight of its Monday, the last Monday that is
    not after today. *)
Definition monday_midnight (now : datetime) : datetime :=
  let '(y, m, d) := ord2ymd (toordinal now - weekday now) in
  mkDatetime y m d 0 0 0 0.

(** The start of the month: midnight of its first day. *)
Definition first_of_month_midnight (now : datetime) : datetime :=
  mkDatetime (year now) (month now) 1 0 0 0 0.

(** The start of all time. *)
Definition epoch_start : datetime := mkDatetime 2000 1 1 0 0 0 0.

(** A record was created at or after [start]: its created_at is the text
    of a time of the calendar that is not before [start]. *)
Definition created_since (start : datetime) (rd : resume_data_row) : Prop :=
  exists created,
    valid created /\ rd_created_at rd = Some (strftime_datetime created) /\
    chrono_compare created start <> Lt.

(** A resume has an ats_score of at least 70: a row of resume_analysis
    carries its id and such a score. *)
Definition scored_70 (db : database) (rd : resume_data_row) : Prop :=
  exists ra s,
    In ra (resume_analysis db) /\ ra_resume_id ra = Some (rd_id rd) /\
    ra_ats_score ra = Some s /\ (70 <= s)%Q.

(** [n] is the number of distinct resumes, by id, among the records with
    the property [P]. *)
Definition distinct_resumes (db : database) (P : resume_data_row -> Prop)
  (n : Z) : Prop :=
  exists ids,
    NoDup ids /\
    (forall i, In i ids <->
               exists rd, In rd (resume_data db) /\ rd_id rd = i /\ P rd) /\
    n = Z.of_nat (List.length ids).

(** The two counts of a window that starts at [start]: the distinct
    resumes created at or after [start], and those of them with an
    ats_score of at least 70. *)
Definition counts_of_window (db : database) (start : datetime)
  (m : period_metrics) : Prop :=
  distinct_resumes db (created_since start) (total m) /\
  distinct_resumes db (fun rd => created_since start rd /\ scored_70 db rd)
    (high_scoring m).

(** Every created_at is NULL or a time written as [%Y-%m-%d %H:%M:%S]. *)
Definition timestamps_written (db : database) : Prop :=
  forall rd, In rd (resume_data db) ->
    rd_created_at rd = None \/
    exists created,
      valid created /\ rd_created_at rd = Some (strftime_datetime created).

End MetricsSpec.

(* ===================================================================== *)
(** ** Definitions used by the proofs                                     *)
(* ===================================================================== *)

Module Checks.

Import PyDatetime.
Import Sqlite.
Import Dashboard.

(** *** One 400-year cycle of the calendar, checked by evaluation *)

(** A bounded universal check, decided by evaluation. *)
Fixpoint forall_from (f : Z -> bool) (start : Z) (count : nat) : bool :=
  match count with
  | O => true
  | S c => f start && forall_from f (start + 1) c
  end.

Definition forall_range (f : Z -> bool) (lo hi : Z) : bool :=
  forall_from f lo (Z.to_nat (hi + 1 - lo)).

Definition shift_year (k : Z) (ymd : Z * Z * Z) : Z * Z * Z :=
  let '(y, m, d) := ymd in (y + 400 * k, m, d).

(** One 400-year cycle, checked day by day: [ord2ymd] gives a valid date
    of the years 1 to 400 whose ordinal is the day it came from. *)
Definition cycle_day_ok (n : Z) : bool :=
  let '(y, m, d) := ord2ymd n in
  (1 <=? y) && (y <=? 400) && (1 <=? m) && (m <=? 12) &&
  (1 <=? d) && (d <=? days_in_month y m) && (ymd2ord y m d =? n) &&
  ((y <? 400) || (145731 <? n)).

(** The same cycle, checked date by date: the ordinal of a valid date of
    the years 1 to 400 lies in the cycle (before its last year for a date
    before the year 400) and [ord2ymd] gives the date back. *)
Definition cycle_date_ok (y m d : Z) : bool :=
  negb (d <=? days_in_month y m) ||
  (let n := ymd2ord y m d in
   (1 <=? n) && (n <=? 146097) && ((400 <=? y) || (n <=? 145731)) &&
   (let '(y', m', d') := ord2ymd n in (y' =? y) && (m' =? m) && (d' =? d))).

(** *** The steps of the recursive query *)

Fixpoint has_comma (s : string) : bool :=
  match s with
  | EmptyString => false
  | String c s' => (c =? ",")%char || has_comma s'
  end.

Fixpoint first_token (s : string) : string :=
  match s with
  | EmptyString => EmptyString
  | String c s' => if (c =? ",")%char then EmptyString else String c (first_token s')
  end.

Fixpoint after_first_comma (s : string) : string :=
  match s with
  | EmptyString => EmptyString
  | String c s' => if (c =? ",")%char then s' else after_first_comma s'
  end.

(** The tokens cut from [rest], one for each of its commas. *)
Fixpoint rest_tokens (rest : string) : list string :=
  match rest with
  | EmptyString => []
  | String c s' =>
      if (c =? ",")%char then EmptyString :: rest_tokens s'
      else match rest_tokens s' with
           | t :: ts => String c t :: ts
           | [] => []
           end
  end.

(** [rest] is empty or ends with a comma: the recursion keeps it so, and
    this is why it comes to an end. *)
Definition terminated (rest : string) : Prop :=
  rest = EmptyString \/ exists s, rest = (s ++ ",")%string.

Definition row_ok (r : split_row) : Prop :=
  forall rest, snd r = Some rest -> terminated rest.

(** The column [skill] of a row and of the rows derived from it. *)
Definition row_tokens (r : split_row) : list string :=
  fst r :: match snd r with
           | Some rest => rest_tokens rest
           | None => []
           end.

Definition rest_length (r : split_row) : nat :=
  match snd r with
  | Some rest => String.length rest
  | None => O
  end.

End Checks.

(* ===================================================================== *)
(** ** The quick stats of the dashboard page                             *)
(* ===================================================================== *)

Module DashboardPages.
Import PyDatetime Sqlite Dashboard.

(** What a quick-stat card interpolates: an integer count or a number. *)
Inductive card_value :=
| IntValue (z : Z)
| NumValue (q : Q).

(** The quick stats of [render_dashboard]: the label and the value of the
    four cards, from [metrics['All Time']]; [None] stands for a raised
    exception (from get_resume_metrics, or a KeyError). *)
Definition render_dashboard_cards (db : database) (now : datetime)
  : option (list (string * card_value)) :=
  match get_resume_metrics db now with
  | None => None
  | Some metrics =>
      match dict_get "All Time" metrics with
      | None => None
      | Some m =>
          Some [("Total Resumes"%string, IntValue (total m));
                ("Avg ATS Score"%string, NumValue (ats_score m));
                ("High Scoring"%string, IntValue (high_scoring m));
                ("Avg Keyword Score"%string, NumValue (keyword_score m))]
      end
  end.

End DashboardPages.

(* ===================================================================== *)
(** ** The feedback page                                                 *)
(* ===================================================================== *)

Module FeedbackPages.

Import PyDatetime Feedback.

(** [setup_database]: CREATE TABLE IF NOT EXISTS on the database file;
    [None] is a file without the table. *)
Definition setup_database (file : option store) : store :=
  match file with
  | Some s => s
  | None => empty_store
  end.

(** What the widgets of the form return in one run of the page: three
    sliders, three text areas and the button. *)
Record form_input := mkFormInput {
  overall_experience : Z;
  usability : Z;
  satisfaction : Z;
  missing : string;
  suggestions : string;
  experience : string;
  submit : bool
}.

(** [st.slider(label, 1, 5, 5)] returns a value between its bounds. *)
Definition slider_range (v : Z) : Prop := 1 <= v <= 5.

Definition sliders_in_range (inp : form_input) : Prop :=
  slider_range (overall_experience inp) /\ slider_range (usability inp) /\
  slider_range (satisfaction inp).

(** [render_feedback_form]: the dict is built from the widgets, and saved
    when the button was pressed. *)
Definition render_feedback_form (s : store) (inp : form_input) (now : datetime) : store :=
  let feedback_data :=
    mkFeedbackData (overall_experience inp) (usability inp) (satisfaction inp)
                   (missing inp) (suggestions inp) (experience inp) in
  if submit inp then save_feedback s feedback_data now else s.

(** [ResumeApp.render_feedback_page]: a new FeedbackManager, whose
    constructor runs [setup_database], then its form. *)
Definition render_feedback_page (file : option store) (inp : form_input)
  (now : datetime) : option store :=
  Some (render_feedback_form (setup_database file) inp now).

(** The feedback page shown again and again, each time with what the
    widgets return and the clock reading of that run. *)
Definition feedback_session (views : list (form_input * datetime))
  (file : option store) : option store :=
  fold_left (fun f v => render_feedback_page f (fst v) (snd v)) views file.

(** [stats.get(key, 0)] *)
Definition dict_get_or_0 (key : string) (d : list (string * Q)) : Q :=
  match dict_get key d with
  | Some v => v
  | None => 0%Q
  end.

(** What [render_feedback_stats] shows: the notice, or the three metrics
    (the numbers that are then written with one decimal). *)
Inductive stats_view :=
| NoFeedbackYet
| Overview (avg_rating usability satisfaction : Q).

(** [render_feedback_stats]; an exception of [get_feedback_stats] comes
    up before anything is shown ([None]). *)
Definition render_feedback_stats (s : store) : option stats_view :=
  match get_feedback_stats s with
  | None => None
  | Some [] => Some NoFeedbackYet
  | Some stats =>
      Some (Overview (dict_get_or_0 "rating" stats)
                     (dict_get_or_0 "usability_score" stats)
                     (dict_get_or_0 "feature_satisfaction" stats))
  end.

End FeedbackPages.

(* ===================================================================== *)
(** ** The application: pages and navigation                             *)
(* ===================================================================== *)

Module App.

(** A Python [str], the sequence of its code points. *)
Definition pystr := list N.

(** A literal of ASCII characters. *)
Definition str (s : string) : pystr := map N_of_ascii (list_ascii_of_string s).

Fixpoint str_eqb (a b : pystr) : bool :=
  match a, b with
  | [], [] => true
  | x :: a', y :: b' => N.eqb x y && str_eqb a' b'
  | _, _ => false
  end.

(** [str.lower] on the code points the page names are made of: a capital
    letter of ASCII goes to its small letter.  Code points beyond ASCII are
    left as they are, which is what [str.lower] does to the pictographs and
    to the variation selector of the page names; cased letters beyond ASCII
    are outside this model. *)
Definition lower_char (c : N) : N :=
  if (N.leb 65 c && N.leb c 90)%bool then (c + 32)%N else c.

Definition lower (s : pystr) : pystr := map lower_char s.

Fixpoint starts_with (old s : pystr) : bool :=
  match old, s with
  | [], _ => true
  | o :: old', c :: s' => N.eqb o c && starts_with old' s'
  | _ :: _, [] => false
  end.

(** The scan of [str.replace] for a pattern that is not empty: from left
    to right, an occurrence is replaced and the scan goes on behind it;
    [skipped] counts the code points of the occurrence still to be passed. *)
Fixpoint replace_from (old new : pystr) (skipped : nat) (s : pystr) : pystr :=
  match s with
  | [] => []
  | c :: s' =>
      match skipped with
      | S k => replace_from old new k s'
      | O =>
          if starts_with old s
          then new ++ replace_from old new (List.length old - 1) s'
          else c :: replace_from old new 0 s'
      end
  end.

(** [s.replace(old, new)]; an empty pattern matches before every code point
    and at the end. *)
Definition replace (old new s : pystr) : pystr :=
  match old with
  | [] => new ++ flat_map (fun c => c :: new) s
  | _ :: _ => replace_from old new 0 s
  end.

(** [str.isspace] of one code point *)
Definition isspace (c : N) : bool :=
  existsb (N.eqb c)
    [9; 10; 11; 12; 13; 28; 29; 30; 31; 32; 133; 160; 5760;
     8192; 8193; 8194; 8195; 8196; 8197; 8198; 8199; 8200; 8201; 8202;
     8232; 8233; 8239; 8287; 12288]%N.

Fixpoint lstrip (s : pystr) : pystr :=
  match s with
  | [] => []
  | c :: s' => if isspace c then lstrip s' else s
  end.

Definition rstrip (s : pystr) : pystr := rev (lstrip (rev s)).

Definition strip (s : pystr) : pystr := rstrip (lstrip s).

(** A Python dict keyed by strings, in insertion order. *)
Fixpoint lookup {A : Type} (key : pystr) (d : list (pystr * A)) : option A :=
  match d with
  | [] => None
  | (k, v) :: d' => if str_eqb k key then Some v else lookup key d'
  end.

(** [d[key] = v]: an existing key keeps its place. *)
Fixpoint store {A : Type} (key : pystr) (v : A) (d : list (pystr * A))
  : list (pystr * A) :=
  match d with
  | [] => [(key, v)]
  | (k, x) :: d' =>
      if str_eqb k key then (k, v) :: d' else (k, x) :: store key v d'
  end.

(** The Python values kept in the session state. *)
#[warnings="-register-all"] Inductive value :=
| VNone
| VBool (b : bool)
| VStr (s : pystr)
| VList (l : list value)
| VDict (d : list (pystr * value)).

(** [st.session_state], which lives from one run of the script to the
    next. *)
Definition session_state := list (pystr * value).

(** The methods that render a page. *)
Inductive page_func :=
| render_home | render_analyzer | render_builder
| render_dashboard | render_feedback_page | render_about.

(** The pictographs of the page names, by code point. *)
Definition HOUSE : pystr := [127968%N].
Definition MAGNIFYING_GLASS : pystr := [128269%N].
Definition MEMO : pystr := [128221%N].
Definition BAR_CHART : pystr := [128202%N].
Definition SPEECH_BALLOON : pystr := [128172%N].
Definition INFORMATION : pystr := [8505%N; 65039%N].

(** [self.pages] *)
Definition pages : list (pystr * page_func) :=
  [ (HOUSE ++ str " HOME", render_home);
    (MAGNIFYING_GLASS ++ str " RESUME ANALYZER", render_analyzer);
    (MEMO ++ str " RESUME BUILDER", render_builder);
    (BAR_CHART ++ str " DASHBOARD", render_dashboard);
    (SPEECH_BALLOON ++ str " FEEDBACK", render_feedback_page);
    (INFORMATION ++ str " ABOUT", render_about) ].

(** The key that [main] derives of a page name, for the button of the
    sidebar and for [page_mapping] alike. *)
Definition page_key (page_name : pystr) : pystr :=
  strip
    (replace INFORMATION []
      (replace SPEECH_BALLOON []
        (replace BAR_CHART []
          (replace MEMO []
            (replace MAGNIFYING_GLASS []
              (replace HOUSE []
                (replace (str " ") (str "_") (lower page_name)))))))).

(** The dict comprehension of [main]: a later name takes the place of an
    earlier one of the same key. *)
Definition page_mapping : list (pystr * pystr) :=
  fold_left (fun m name => store (page_key name) name m) (map fst pages) [].

(** [if key not in st.session_state: st.session_state.key = v] *)
Definition set_if_missing (key : pystr) (v : value) (st : session_state)
  : session_state :=
  match lookup key st with
  | Some _ => st
  | None => store key v st
  end.

Definition empty_form_data : value :=
  VDict
    [ (str "personal_info",
       VDict [ (str "full_name", VStr []); (str "email", VStr []);
               (str "phone", VStr []); (str "location", VStr []);
               (str "linkedin", VStr []); (str "portfolio", VStr []) ]);
      (str "summary", VStr []);
      (str "experiences", VList []);
      (str "education", VList []);
      (str "projects", VList []);
      (str "skills_categories",
       VDict [ (str "technical", VList []); (str "soft", VList []);
               (str "languages", VList []); (str "tools", VList []) ]) ].

(** [ResumeApp.__init__], as far as the session state goes.  The
    constructors of the managers, [init_database] and
    [apply_modern_styles] are taken to return and to leave the session
    state alone. *)
Definition init (st : session_state) : session_state :=
  set_if_missing (str "selected_role") VNone
    (set_if_missing (str "user_id") (VStr (str "default_user"))
      (set_if_missing (str "is_admin") (VBool false)
        (set_if_missing (str "page") (VStr (str "home"))
          (set_if_missing (str "form_data") empty_form_data st)))).

(** What the visitor did to start this run of the script. *)
Inductive event :=
| NoClick
| Click (label : pystr).

(** [st.button(label)] is true in the run that the click on it started. *)
Definition button (label : pystr) (ev : event) : bool :=
  match ev with
  | NoClick => false
  | Click l => str_eqb l label
  end.

(** How a run of the script ends: [st.rerun()] stops it and asks for
    another run; or a page was rendered; or an exception came up. *)
Inductive outcome :=
| Rerun (st : session_state)
| Rendered (f : page_func) (st : session_state)
| Raised.

(** [render_home] *)
Definition home (ev : event) (st : session_state) : outcome :=
  if button (str "Get Started") ev
  then Rerun (store (str "page") (VStr (str "resume_analyzer")) st)
  else Rendered render_home st.

(** A call of a page method.  Only [render_home] writes the session
    state; what the other pages draw is not modelled here. *)
Definition call (f : page_func) (ev : event) (st : session_state) : outcome :=
  match f with
  | render_home => home ev st
  | _ => Rendered f st
  end.

(** The buttons of the sidebar, in the order of [self.pages]: the page of
    the first one clicked, if any. *)
Fixpoint sidebar (ps : list (pystr * page_func)) (ev : event)
  : option pystr :=
  match ps with
  | [] => None
  | (page_name, _) :: ps' =>
      if button page_name ev then Some (page_key page_name)
      else sidebar ps' ev
  end.

(** The end of [main]: the page method for [current_page].  A list or a
    dict cannot be looked up in a dict (TypeError); a value that is no
    string is no key of [page_mapping]. *)
Definition route (current_page : value) : option page_func :=
  match current_page with
  | VList _ | VDict _ => None
  | VStr p =>
      match lookup p page_mapping with
      | Some name => lookup name pages
      | None => Some render_home
      end
  | VNone | VBool _ => Some render_home
  end.

(** [main] *)
Definition main (ev : event) (st : session_state) : outcome :=
  match sidebar pages ev with
  | Some key => Rerun (store (str "page") (VStr key) st)
  | None =>
      match lookup (str "initial_load") st with
      | None =>
          Rerun (store (str "page") (VStr (str "home"))
                   (store (str "initial_load") (VBool true) st))
      | Some _ =>
          let current_page :=
            match lookup (str "page") st with
            | Some v => v
            | None => VStr (str "home")
            end in
          match route current_page with
          | Some f => call f ev st
          | None => Raised
          end
      end
  end.

(** One run of the script: [app = ResumeApp(); app.main()]. *)
Definition script (ev : event) (st : session_state) : outcome :=
  main ev (init st).

(** A click and the reruns it leads to, up to the run that renders a
    page; a rerun starts with no button clicked. *)
Fixpoint run (fuel : nat) (ev : event) (st : session_state)
  : option (page_func * session_state) :=
  match fuel with
  | O => None
  | S k =>
      match script ev st with
      | Rerun st' => run k NoClick st'
      | Rendered f st' => Some (f, st')
      | Raised => None
      end
  end.

(** A visit: the first run of a new session, then the clicks one after
    the other. *)
Definition visit (evs : list event) : option (page_func * session_state) :=
  fold_left
    (fun shown ev =>
       match shown with
       | Some (_, st) => run 3 ev st
       | None => None
       end)
    evs (run 3 NoClick []).

End App.

(* ===================================================================== *)
(** ** Properties of the pages, in the words of their statements         *)
(* ===================================================================== *)

Module WindowSpec.
Import PyDatetime.

(** The day that a leap year has more. *)
Definition leap_day (y : Z) : Z := if is_leap y then 1 else 0.

(** A Monday that is the first of its month, in the afternoon. *)
Definition monday_the_first : datetime := mkDatetime 2024 1 1 15 30 0 0.

End WindowSpec.

Module SkillSpec.
Import Sqlite.




End SkillSpec.

Module FeedbackSpec.
Import PyDatetime Feedback FeedbackPages.

(** The rows that a list of submitted forms leaves in the table, numbered
    from [k + 1] on. *)
Fixpoint numbered_rows (k : Z) (subs : list (form_input * datetime))
  : list feedback_row :=
  match subs with
  | [] => []
  | (inp, now) :: subs' =>
      mkFeedbackRow (k + 1) (overall_experience inp) (usability inp)
        (satisfaction inp) (missing inp) (suggestions inp) (experience inp) now
      :: numbered_rows (k + 1) subs'
  end.

(** Two visits of the feedback page, the second one without pressing the
    button. *)
Definition two_visits : list (form_input * datetime) :=
  [(mkFormInput 4 5 3 "pdf export" "more charts" "good" true,
    mkDatetime 2024 1 3 15 30 0 0);
   (mkFormInput 5 5 5 "none" "none" "fine" false,
    mkDatetime 2024 1 3 15 31 0 0)].

(** The largest id ever given out is at least every id in the table. *)
Definition ids_below_last (s : store) : Prop :=
  forall r, In r (rows s) -> id r <= last_id s.

End FeedbackSpec.

Module AppSpec.
Import App.

(** The page that a click asks for, given the page shown: the page of the
    button of the sidebar that carries the label, else the page shown. *)
Definition clicked (shown : page_func) (ev : event) : page_func :=
  match ev with
  | NoClick => shown
  | Click label =>
      match lookup label pages with
      | Some f => f
      | None => shown
      end
  end.

(** The session state that the first visit leaves. *)
Definition home_session : session_state :=
  store (str "page") (VStr (str "home"))
    (store (str "initial_load") (VBool true) (init [])).

(** The keys that [__init__] provides. *)
Definition init_keys : list pystr :=
  [str "form_data"; str "page"; str "is_admin"; str "user_id"; str "selected_role"].

Definition initialised (st : session_state) : Prop :=
  forall key, In key init_keys -> lookup key st <> None.

(** The state of a session after its first run: the keys of [__init__] and
    [initial_load] are there, and the page stored is a string that leads
    to the page method [f]. *)
Definition showing (f : page_func) (st : session_state) : Prop :=
  initialised st /\
  lookup (str "initial_load") st <> None /\
  exists p, lookup (str "page") st = Some (VStr p) /\ route (VStr p) = Some f.

End AppSpec.

(** Closed comparisons of integers, by evaluation. *)
Ltac by_evaluation :=
  repeat split; vm_compute; first [reflexivity | discriminate].


(* ===================================================================== *)
(** ** Facts about the calendar                                           *)
(* ===================================================================== *)

Module CalendarFacts.

Import PyDatetime Checks.

Lemma forall_from_spec (f : Z -> bool) (count : nat) :
  forall start, forall_from f start count = true ->
  forall n, start <= n < start + Z.of_nat count -> f n = true.
Proof.
  induction count as [|c IH]; intros start H n Hn.
  - simpl in Hn. lia.
  - simpl in H. apply andb_prop in H. destruct H as [H0 H1].
    destruct (Z.eq_dec n start) as [->|Hne]; [exact H0|].
    apply (IH (start + 1) H1). lia.
Qed.

Lemma forall_range_spec (f : Z -> bool) (lo hi : Z) :
  forall_range f lo hi = true -> forall n, lo <= n <= hi -> f n = true.
Proof.
  unfold forall_range. intros H n Hn.
  apply (forall_from_spec _ _ _ H). lia.
Qed.

(** The calendar repeats every 400 years, that is every 146097 days. *)
Lemma days_before_year_shift (y k : Z) :
  days_before_year (y + 400 * k) = days_before_year y + DI400Y * k.
Proof.
  unfold days_before_year, DI400Y. cbv zeta.
  assert (H4 : (y + 400 * k - 1) / 4 = (y - 1) / 4 + k * 100)
    by (rewrite <- Z.div_add by lia; f_equal; lia).
  assert (H100 : (y + 400 * k - 1) / 100 = (y - 1) / 100 + k * 4)
    by (rewrite <- Z.div_add by lia; f_equal; lia).
  assert (H400 : (y + 400 * k - 1) / 400 = (y - 1) / 400 + k)
    by (rewrite <- Z.div_add by lia; f_equal; lia).
  rewrite H4, H100, H400. lia.
Qed.

Lemma is_leap_shift (y k : Z) : is_leap (y + 400 * k) = is_leap y.
Proof.
  unfold is_leap.
  replace ((y + 400 * k) mod 4) with (y mod 4)
    by (replace (y + 400 * k) with (y + (k * 100) * 4) by lia;
        now rewrite Z.mod_add by lia).
  replace ((y + 400 * k) mod 100) with (y mod 100)
    by (replace (y + 400 * k) with (y + (k * 4) * 100) by lia;
        now rewrite Z.mod_add by lia).
  replace ((y + 400 * k) mod 400) with (y mod 400)
    by (replace (y + 400 * k) with (y + k * 400) by lia;
        now rewrite Z.mod_add by lia).
  reflexivity.
Qed.

Lemma days_in_month_shift (y k m : Z) :
  days_in_month (y + 400 * k) m = days_in_month y m.
Proof. unfold days_in_month. now rewrite is_leap_shift. Qed.

Lemma ymd2ord_shift (y k m d : Z) :
  ymd2ord (y + 400 * k) m d = ymd2ord y m d + DI400Y * k.
Proof.
  unfold ymd2ord, days_before_month.
  rewrite days_before_year_shift, is_leap_shift. lia.
Qed.

Lemma ord2ymd_shift (n k : Z) :
  ord2ymd (n + DI400Y * k) = shift_year k (ord2ymd n).
Proof.
  unfold ord2ymd. cbv zeta.
  replace (n + DI400Y * k - 1) with (n - 1 + k * DI400Y) by lia.
  rewrite Z.div_add, Z.mod_add by (unfold DI400Y; lia).
  set (r := (n - 1) mod DI400Y).
  set (q := (n - 1) / DI400Y).
  destruct ((r mod DI100Y mod DI4Y / 365 =? 4) || (r / DI100Y =? 4)).
  - unfold shift_year. f_equal. f_equal. lia.
  - match goal with |- context [if ?c then _ else _] => destruct c end;
      unfold shift_year; f_equal; f_equal; lia.
Qed.

Lemma cycle_days_ok : forall_range cycle_day_ok 1 146097 = true.
Proof. vm_cast_no_check (eq_refl true). Qed.

Lemma cycle_dates_ok :
  forall_range
    (fun y => forall_range
       (fun m => forall_range (fun d => cycle_date_ok y m d) 1 31) 1 12)
    1 400 = true.
Proof. vm_cast_no_check (eq_refl true). Qed.

(** [ord2ymd] on a valid ordinal is a valid date with that ordinal. *)
Lemma ord2ymd_valid (n : Z) :
  1 <= n <= MAXORDINAL ->
  let '(y, m, d) := ord2ymd n in valid_date y m d /\ ymd2ord y m d = n.
Proof.
  intros Hn. unfold MAXORDINAL in Hn.
  set (k := (n - 1) / DI400Y).
  set (r := (n - 1) mod DI400Y).
  assert (Hdm : n - 1 = DI400Y * k + r) by (apply Z.div_mod; unfold DI400Y; lia).
  assert (Hr : 0 <= r < DI400Y) by (apply Z.mod_pos_bound; unfold DI400Y; lia).
  assert (Hk : 0 <= k <= 24).
  { unfold DI400Y in *. split.
    - apply Z.div_pos; lia.
    - apply Z.lt_succ_r. apply Z.div_lt_upper_bound; lia. }
  replace n with ((r + 1) + DI400Y * k) by lia.
  rewrite ord2ymd_shift.
  pose proof (forall_range_spec _ _ _ cycle_days_ok (r + 1)) as Hc.
  unfold DI400Y in *.
  specialize (Hc ltac:(lia)). unfold cycle_day_ok in Hc.
  destruct (ord2ymd (r + 1)) as [[y m] d]. unfold shift_year.
  repeat (apply andb_prop in Hc; destruct Hc as [Hc ?]).
  rewrite ymd2ord_shift. unfold valid_date. rewrite days_in_month_shift.
  unfold MINYEAR, MAXYEAR, DI400Y.
  assert (ymd2ord y m d = r + 1) by lia.
  assert (y < 400 \/ 145731 < r + 1)
    by (match goal with H : (_ || _) = true |- _ => apply orb_prop in H; destruct H end; lia).
  lia.
Qed.

(** The ordinal of a valid date is valid and [ord2ymd] gives the date back. *)
Lemma ymd2ord_valid (y m d : Z) :
  valid_date y m d ->
  1 <= ymd2ord y m d <= MAXORDINAL /\ ord2ymd (ymd2ord y m d) = (y, m, d).
Proof.
  intros (Hy & Hm & Hd). unfold MINYEAR, MAXYEAR in Hy.
  set (k := (y - 1) / 400).
  set (y0 := (y - 1) mod 400 + 1).
  assert (Hy0 : y = y0 + 400 * k)
    by (unfold y0, k; pose proof (Z.div_mod (y - 1) 400); lia).
  assert (Hr : 1 <= y0 <= 400)
    by (unfold y0; pose proof (Z.mod_pos_bound (y - 1) 400); lia).
  assert (Hk : 0 <= k <= 24).
  { unfold k. split.
    - apply Z.div_pos; lia.
    - apply Z.lt_succ_r. apply Z.div_lt_upper_bound; lia. }
  rewrite Hy0 in Hd |- *. rewrite days_in_month_shift in Hd.
  rewrite ymd2ord_shift, ord2ymd_shift.
  pose proof (forall_range_spec _ _ _ cycle_dates_ok y0 ltac:(lia)) as Hc.
  pose proof (forall_range_spec _ _ _ Hc m ltac:(lia)) as Hc1.
  assert (Hd31 : d <= 31).
  { unfold days_in_month, DAYS_IN_MONTH in Hd.
    destruct ((m =? 2) && is_leap y0); [lia|].
    destruct m as [|p|p]; try lia.
    do 4 (destruct p; try lia). }
  pose proof (forall_range_spec _ _ _ Hc1 d ltac:(lia)) as Hc2.
  unfold cycle_date_ok in Hc2.
  apply orb_prop in Hc2. destruct Hc2 as [Hc2|Hc2].
  { apply negb_true_iff in Hc2. lia. }
  destruct (ord2ymd (ymd2ord y0 m d)) as [[y' m'] d'].
  repeat (apply andb_prop in Hc2; destruct Hc2 as [Hc2 ?]).
  unfold shift_year, MAXORDINAL, DI400Y.
  assert (400 <= y0 \/ ymd2ord y0 m d <= 145731)
    by (match goal with H : (_ || _) = true |- _ => apply orb_prop in H; destruct H end; lia).
  split.
  - lia.
  - f_equal; [f_equal|]; lia.
Qed.

Lemma sub_days_spec (t : datetime) (x : Z) :
  valid t -> 0 < toordinal t - x <= MAXORDINAL ->
  exists t', sub_days t x = Some t' /\ valid t' /\
             toordinal t' = toordinal t - x /\
             hour t' = hour t /\ minute t' = minute t /\
             second t' = second t /\ microsecond t' = microsecond t.
Proof.
  intros Hv Hx. unfold sub_days.
  destruct (Z.ltb_spec 0 (toordinal t - x)); [|lia].
  destruct (Z.leb_spec (toordinal t - x) MAXORDINAL); [|lia].
  simpl. pose proof (ord2ymd_valid (toordinal t - x) ltac:(lia)) as Ho.
  destruct (ord2ymd (toordinal t - x)) as [[y m] d].
  destruct Ho as [Hd Ho].
  eexists. split; [reflexivity|].
  unfold valid, toordinal in *. simpl. tauto.
Qed.

Lemma toordinal_bounds (t : datetime) :
  valid t -> 1 <= toordinal t <= MAXORDINAL.
Proof. intros [Hd _]. apply (ymd2ord_valid _ _ _ Hd). Qed.

Lemma sub_days_0 (t : datetime) : valid t -> sub_days t 0 = Some t.
Proof.
  intros Hv. pose proof (toordinal_bounds t Hv) as Hb.
  unfold sub_days. rewrite Z.sub_0_r.
  destruct (Z.ltb_spec 0 (toordinal t)); [|lia].
  destruct (Z.leb_spec (toordinal t) MAXORDINAL); [|lia].
  simpl. destruct Hv as [Hd _]. unfold toordinal.
  destruct (ymd2ord_valid _ _ _ Hd) as [_ ->]. now destruct t.
Qed.

End CalendarFacts.

(* ===================================================================== *)
(** ** Facts about the text of dates                                      *)
(* ===================================================================== *)

Module FormatFacts.

Import PyDatetime Sqlite Dashboard Spec Checks CalendarFacts.

Lemma N_of_digit (n : Z) : N_of_ascii (digit n) = (48 + Z.to_N (n mod 10))%N.
Proof.
  unfold digit. apply N_ascii_embedding.
  pose proof (Z.mod_pos_bound n 10 ltac:(lia)). lia.
Qed.

Lemma is_digit_digit (n : Z) : is_digit (digit n) = true.
Proof.
  unfold is_digit. rewrite N_of_digit.
  pose proof (Z.mod_pos_bound n 10 ltac:(lia)).
  apply andb_true_intro. split; apply N.leb_le; lia.
Qed.

Lemma digit_val_digit (n : Z) : digit_val (digit n) = n mod 10.
Proof.
  unfold digit_val. rewrite N_of_digit.
  pose proof (Z.mod_pos_bound n 10 ltac:(lia)). lia.
Qed.

Lemma two_digits_digit (a b lo hi : Z) :
  lo <= 10 * (a mod 10) + b mod 10 <= hi ->
  two_digits (digit a) (digit b) lo hi = Some (10 * (a mod 10) + b mod 10).
Proof.
  intros H. unfold two_digits.
  rewrite !is_digit_digit, !digit_val_digit. cbn [andb].
  destruct H as [Hlo Hhi].
  apply Z.leb_le in Hlo. apply Z.leb_le in Hhi. now rewrite Hlo, Hhi.
Qed.

Lemma two_digits_pad2 (n lo hi : Z) :
  0 <= n < 100 -> lo <= n <= hi ->
  two_digits (digit (n / 10)) (digit n) lo hi = Some n.
Proof.
  intros Hn Hr.
  assert (E : 10 * ((n / 10) mod 10) + n mod 10 = n)
    by (Z.div_mod_to_equations; lia).
  rewrite two_digits_digit; rewrite E; auto.
Qed.

(** The date that [strftime] wrote is the date that [parse_ymd] reads. *)
Lemma parse_ymd_format (y m d : Z) (rest : string) :
  0 <= y <= 9999 -> 1 <= m <= 12 -> 1 <= d <= 31 ->
  parse_ymd (pad4 y ++ "-" ++ pad2 m ++ "-" ++ pad2 d ++ rest) = Some (y, m, d, rest).
Proof.
  intros Hy Hm Hd. unfold pad4, pad2. cbn [append]. unfold parse_ymd.
  cbn [Ascii.eqb Bool.eqb andb].
  assert (E1 : 10 * ((y / 1000) mod 10) + (y / 100) mod 10 = y / 100)
    by (Z.div_mod_to_equations; lia).
  assert (E2 : 10 * ((y / 10) mod 10) + y mod 10 = y mod 100)
    by (Z.div_mod_to_equations; lia).
  rewrite (two_digits_digit (y / 1000) (y / 100)) by (rewrite E1; Z.div_mod_to_equations; lia).
  rewrite (two_digits_digit (y / 10) y) by (rewrite E2; Z.div_mod_to_equations; lia).
  rewrite (two_digits_pad2 m), (two_digits_pad2 d) by lia.
  rewrite E1, E2. do 3 f_equal. f_equal. Z.div_mod_to_equations; lia.
Qed.

Lemma days_in_month_le_31 (y m : Z) : days_in_month y m <= 31.
Proof.
  unfold days_in_month, DAYS_IN_MONTH.
  destruct ((m =? 2) && is_leap y); [lia|].
  destruct m as [|p|p]; try lia.
  do 4 (destruct p; try lia).
Qed.

Lemma ymd2ord_day (y m d : Z) : ymd2ord y m 1 + d - 1 = ymd2ord y m d.
Proof. unfold ymd2ord. lia. Qed.

(** [DATE(?)] leaves the text of a calendar date as it is. *)
Lemma date_strftime_date (t : datetime) :
  valid t -> date (Some (strftime_date t)) = Some (strftime_date t).
Proof.
  intros [(Hy & Hm & Hd) _]. unfold MINYEAR, MAXYEAR in Hy.
  pose proof (days_in_month_le_31 (year t) (month t)).
  unfold date, strftime_date.
  replace (pad2 (day t)) with (pad2 (day t) ++ EmptyString)%string by (unfold pad2; reflexivity).
  rewrite parse_ymd_format by lia.
  rewrite ymd2ord_day.
  destruct (ymd2ord_valid (year t) (month t) (day t)) as [_ ->];
    [repeat split; unfold MINYEAR, MAXYEAR; lia|].
  reflexivity.
Qed.

Lemma parse_hms_format (h mi s : Z) :
  0 <= h < 24 -> 0 <= mi < 60 -> 0 <= s < 60 ->
  parse_hms (pad2 h ++ ":" ++ pad2 mi ++ ":" ++ pad2 s) = true.
Proof.
  intros Hh Hm Hs. unfold pad2. cbn [append]. unfold parse_hms.
  cbn [Ascii.eqb Bool.eqb andb].
  rewrite !two_digits_pad2 by lia. reflexivity.
Qed.

(** [DATE(created_at)] of a timestamp written as [%Y-%m-%d %H:%M:%S] is its
    calendar date: the time of day is dropped. *)
Lemma date_strftime_datetime (t : datetime) :
  valid t -> date (Some (strftime_datetime t)) = Some (strftime_date t).
Proof.
  intros [(Hy & Hm & Hd) (Hh & Hmi & Hs & _)]. unfold MINYEAR, MAXYEAR in Hy.
  pose proof (days_in_month_le_31 (year t) (month t)).
  unfold date.
  change (strftime_datetime t)
    with (pad4 (year t) ++ "-" ++ pad2 (month t) ++ "-" ++ pad2 (day t) ++
          (" " ++ pad2 (hour t) ++ ":" ++ pad2 (minute t) ++ ":" ++ pad2 (second t)))%string.
  rewrite parse_ymd_format by lia.
  cbn [append Ascii.eqb Bool.eqb andb orb].
  pose proof (parse_hms_format (hour t) (minute t) (second t) Hh Hmi Hs) as Hp.
  cbn [append] in Hp. rewrite Hp.
  rewrite ymd2ord_day.
  destruct (ymd2ord_valid (year t) (month t) (day t)) as [_ ->];
    [repeat split; unfold MINYEAR, MAXYEAR; lia|].
  reflexivity.
Qed.

(** [d[-3:]] of a date text is the hyphen and the two digits of the day. *)
Lemma py_suffix_strftime_date (t : datetime) :
  Dashboard.py_suffix 3 (strftime_date t) = ("-" ++ pad2 (day t))%string.
Proof. reflexivity. Qed.

Lemma strftime_date_inj (a b : datetime) :
  valid a -> valid b -> strftime_date a = strftime_date b ->
  (year a, month a, day a) = (year b, month b, day b).
Proof.
  intros Ha Hb E.
  assert (E' : date (Some (strftime_date a)) = date (Some (strftime_date b))) by now rewrite E.
  destruct Ha as [(Hy & Hm & Hd) _], Hb as [(Hy' & Hm' & Hd') _].
  unfold MINYEAR, MAXYEAR in *.
  pose proof (days_in_month_le_31 (year a) (month a)).
  pose proof (days_in_month_le_31 (year b) (month b)).
  assert (P : forall t, strftime_date t = (pad4 (year t) ++ "-" ++ pad2 (month t) ++ "-" ++ pad2 (day t) ++ EmptyString)%string)
    by (intros; reflexivity).
  assert (E2 : parse_ymd (strftime_date a) = parse_ymd (strftime_date b)) by now rewrite E.
  rewrite !P, !parse_ymd_format in E2 by lia.
  congruence.
Qed.

(** *** Text order and time order *)

Lemma compare_digit (p q : Z) (sa sb : string) :
  String.compare (String (digit p) sa) (String (digit q) sb) =
  match p mod 10 ?= q mod 10 with
  | Eq => String.compare sa sb
  | c => c
  end.
Proof.
  cbn [String.compare]. unfold Ascii.compare. rewrite !N_of_digit.
  pose proof (Z.mod_pos_bound p 10 ltac:(lia)).
  pose proof (Z.mod_pos_bound q 10 ltac:(lia)).
  replace ((48 + Z.to_N (p mod 10)) ?= (48 + Z.to_N (q mod 10)))%N
    with (p mod 10 ?= q mod 10); [reflexivity|].
  destruct (Z.compare_spec (p mod 10) (q mod 10));
    destruct (N.compare_spec (48 + Z.to_N (p mod 10)) (48 + Z.to_N (q mod 10)));
    try reflexivity; lia.
Qed.

Lemma compare_same_char (c : ascii) (sa sb : string) :
  String.compare (String c sa) (String c sb) = String.compare sa sb.
Proof.
  cbn [String.compare]. unfold Ascii.compare. now rewrite N.compare_refl.
Qed.

(** Two digits are ordered as the number they write. *)
Lemma compare_pad2 (a b : Z) (sa sb : string) :
  0 <= a < 100 -> 0 <= b < 100 ->
  String.compare (pad2 a ++ sa) (pad2 b ++ sb) =
  match a ?= b with
  | Eq => String.compare sa sb
  | c => c
  end.
Proof.
  intros Ha Hb. unfold pad2. cbn [append]. rewrite !compare_digit.
  destruct (Z.compare_spec ((a / 10) mod 10) ((b / 10) mod 10)) as [E1|L1|G1];
    [destruct (Z.compare_spec (a mod 10) (b mod 10)) as [E2|L2|G2]| |];
    destruct (Z.compare_spec a b) as [E|L|G]; try reflexivity; exfalso;
    Z.div_mod_to_equations; lia.
Qed.

(** Four digits are ordered as the number they write. *)
Lemma compare_pad4 (a b : Z) (sa sb : string) :
  0 <= a < 10000 -> 0 <= b < 10000 ->
  String.compare (pad4 a ++ sa) (pad4 b ++ sb) =
  match a ?= b with
  | Eq => String.compare sa sb
  | c => c
  end.
Proof.
  intros Ha Hb. unfold pad4, pad2. cbn [append]. rewrite !compare_digit.
  destruct (Z.compare_spec ((a / 1000) mod 10) ((b / 1000) mod 10)) as [E1|L1|G1];
    [destruct (Z.compare_spec ((a / 100) mod 10) ((b / 100) mod 10)) as [E2|L2|G2];
     [destruct (Z.compare_spec ((a / 10) mod 10) ((b / 10) mod 10)) as [E3|L3|G3];
      [destruct (Z.compare_spec (a mod 10) (b mod 10)) as [E4|L4|G4]| |]| |]| |];
    destruct (Z.compare_spec a b) as [E|L|G]; try reflexivity; exfalso;
    Z.div_mod_to_equations; lia.
Qed.

(** Timestamps written as [%Y-%m-%d %H:%M:%S] are ordered as text the way
    they are ordered in time. *)
Lemma compare_strftime_datetime (a b : datetime) :
  valid a -> valid b ->
  String.compare (strftime_datetime a) (strftime_datetime b) = chrono_compare a b.
Proof.
  intros [(Hya & Hma & Hda) (Hha & Hmia & Hsa & _)]
         [(Hyb & Hmb & Hdb) (Hhb & Hmib & Hsb & _)].
  unfold MINYEAR, MAXYEAR in *.
  pose proof (days_in_month_le_31 (year a) (month a)).
  pose proof (days_in_month_le_31 (year b) (month b)).
  assert (F : forall t, strftime_datetime t =
            (pad4 (year t) ++ String "-" (pad2 (month t) ++ String "-" (pad2 (day t) ++
             String " " (pad2 (hour t) ++ String ":" (pad2 (minute t) ++
             String ":" (pad2 (second t) ++ EmptyString))))))%string)
    by (intros; reflexivity).
  rewrite !F. unfold chrono_compare. cbn [lex_compare].
  rewrite compare_pad4 by lia. destruct (year a ?= year b); try reflexivity.
  rewrite compare_same_char, compare_pad2 by lia.
  destruct (month a ?= month b); try reflexivity.
  rewrite compare_same_char, compare_pad2 by lia.
  destruct (day a ?= day b); try reflexivity.
  rewrite compare_same_char, compare_pad2 by lia.
  destruct (hour a ?= hour b); try reflexivity.
  rewrite compare_same_char, compare_pad2 by lia.
  destruct (minute a ?= minute b); try reflexivity.
  rewrite compare_same_char, compare_pad2 by lia.
  destruct (second a ?= second b); reflexivity.
Qed.

(** [WHERE rd.created_at >= ?] on a row whose created_at was written as
    [%Y-%m-%d %H:%M:%S]: the row is kept when it was created at or after
    the start of the window. *)
Lemma in_window_chronological (start_date created : datetime) (rd : resume_data_row) :
  valid start_date -> valid created ->
  rd_created_at rd = Some (strftime_datetime created) ->
  in_window (strftime_datetime start_date) rd = true <->
  chrono_compare created start_date <> Lt.
Proof.
  intros Hs Hc E. unfold in_window. rewrite E. cbn [text_ge holds].
  unfold String.ltb. rewrite (compare_strftime_datetime created start_date Hc Hs).
  destruct (chrono_compare created start_date); cbn; split; congruence.
Qed.

End FormatFacts.

(* ===================================================================== *)
(** ** get_resume_metrics                                                 *)
(* ===================================================================== *)

Module MetricsFacts.

Import PyDatetime Sqlite Dashboard Spec Checks CalendarFacts.

(** *** The windows *)

Lemma weekday_range (t : datetime) : 0 <= weekday t < 7.
Proof. unfold weekday. apply Z.mod_pos_bound. lia. Qed.

(** Day 1 of the calendar is a Monday, so going back [weekday] days never
    leaves it: [start_of_week] raises nothing, falls on a Monday, and has
    the time of day of [now]. *)
Lemma start_of_week_spec (now : datetime) :
  valid now ->
  exists sow, start_of_week now = Some sow /\ valid sow /\
              weekday sow = 0 /\
              toordinal sow = toordinal now - weekday now /\
              hour sow = hour now /\ minute sow = minute now /\
              second sow = second now /\ microsecond sow = microsecond now.
Proof.
  intros Hv. pose proof (toordinal_bounds now Hv) as Hb.
  pose proof (weekday_range now) as Hw.
  assert (Hpos : 0 < toordinal now - weekday now <= MAXORDINAL).
  { unfold weekday, MAXORDINAL in *. Z.div_mod_to_equations. lia. }
  destruct (sub_days_spec now (weekday now) Hv Hpos) as (sow & Hs & Hvs & Ho & Ht).
  exists sow. unfold start_of_week.
  split; [exact Hs|]. split; [exact Hvs|]. split; [|split; [exact Ho|exact Ht]].
  unfold weekday at 1. rewrite Ho. unfold weekday.
  Z.div_mod_to_equations. lia.
Qed.

(** *** The join *)

Lemma in_left_join_fst db rd o :
  In (rd, o) (left_join db) -> In rd (resume_data db).
Proof.
  unfold left_join. rewrite in_flat_map. intros (rd' & Hin & H).
  destruct (filter (join_on rd') (resume_analysis db)) as [|ra ms].
  - destruct H as [H|[]]. now inversion H; subst.
  - apply in_map_iff in H. destruct H as (ra' & E & _). now inversion E; subst.
Qed.

Lemma in_left_join_some db rd ra :
  In (rd, Some ra) (left_join db) <->
  In rd (resume_data db) /\ In ra (resume_analysis db) /\ join_on rd ra = true.
Proof.
  unfold left_join. rewrite in_flat_map. split.
  - intros (rd' & Hin & H).
    destruct (filter (join_on rd') (resume_analysis db)) as [|ra0 ms] eqn:Ef.
    + destruct H as [H|[]]. discriminate.
    + apply in_map_iff in H. destruct H as (ra' & E & Hra). inversion E; subst.
      rewrite <- Ef in Hra. apply filter_In in Hra. tauto.
  - intros (Hrd & Hra & Hon). exists rd. split; [exact Hrd|].
    assert (Hf : In ra (filter (join_on rd) (resume_analysis db)))
      by (apply filter_In; tauto).
    destruct (filter (join_on rd) (resume_analysis db)) as [|ra0 ms]; [destruct Hf|].
    apply in_map_iff. now exists ra.
Qed.

(** Every resume keeps at least one row in the join. *)
Lemma in_left_join_any db rd :
  In rd (resume_data db) -> exists o, In (rd, o) (left_join db).
Proof.
  intros Hrd.
  destruct (filter (join_on rd) (resume_analysis db)) as [|ra0 ms] eqn:Ef.
  - exists None. unfold left_join. apply in_flat_map. exists rd. split; [exact Hrd|].
    rewrite Ef. now left.
  - exists (Some ra0). apply in_left_join_some.
    assert (Hf : In ra0 (filter (join_on rd) (resume_analysis db)))
      by (rewrite Ef; now left).
    apply filter_In in Hf. tauto.
Qed.

(** *** Counting distinct values *)

Lemma nodup_length_incl (l1 l2 : list Z) :
  incl l1 l2 ->
  (List.length (nodup Z.eq_dec l1) <= List.length (nodup Z.eq_dec l2))%nat.
Proof.
  intros H. apply NoDup_incl_length; [apply NoDup_nodup|].
  intros x Hx. apply nodup_In. apply H. now apply nodup_In in Hx.
Qed.

Lemma nodup_length_equiv (l1 l2 : list Z) :
  (forall x, In x l1 <-> In x l2) ->
  List.length (nodup Z.eq_dec l1) = List.length (nodup Z.eq_dec l2).
Proof.
  intros H. apply Nat.le_antisymm; apply nodup_length_incl;
    intros x Hx; now apply H.
Qed.

Lemma in_non_null {A : Type} (l : list (nullable A)) (a : A) :
  In a (non_null l) <-> In (Some a) l.
Proof.
  induction l as [|[b|] l IH]; simpl.
  - tauto.
  - rewrite IH. split; intros [H|H]; auto; left; congruence.
  - rewrite IH. split; [auto|]. intros [H|H]; [discriminate|auto].
Qed.

Lemma int_or_0_id (x : Z) : int_or_0 x = x.
Proof. unfold int_or_0. destruct (Z.eqb_spec x 0); congruence. Qed.

(** *** The counts of a window *)

Lemma period_entry_fields db start_date :
  period_entry db start_date =
  let rows := filter (fun j => in_window (strftime_datetime start_date) (fst j))
                     (left_join db) in
  mkMetrics
    (count_distinct (map (fun j => Some (rd_id (fst j))) rows))
    (num_or_0 (round1 (avg (map (ra_col ra_ats_score) rows))))
    (num_or_0 (round1 (avg (map (ra_col ra_keyword_match_score) rows))))
    (count_distinct (map case_high_scoring rows)).
Proof.
  unfold period_entry, metrics_query. cbv zeta. now rewrite !int_or_0_id.
Qed.

Lemma total_counts_window db start_date :
  total (period_entry db start_date) =
  Z.of_nat (List.length (resumes_in_window db (strftime_datetime start_date))).
Proof.
  rewrite period_entry_fields. cbv zeta. simpl total.
  unfold count_distinct, resumes_in_window. f_equal.
  apply nodup_length_equiv. intros i.
  rewrite in_non_null, !in_map_iff. split.
  - intros ([rd o] & E & Hin). inversion E; subst. simpl.
    apply filter_In in Hin. destruct Hin as [Hin Hw]. simpl in Hw.
    exists rd. split; [reflexivity|]. apply filter_In. split; [|exact Hw].
    eapply in_left_join_fst; eauto.
  - intros (rd & E & Hin). apply filter_In in Hin. destruct Hin as [Hin Hw].
    destruct (in_left_join_any db rd Hin) as [o Ho].
    exists (rd, o). split; [simpl; now subst|]. apply filter_In. now split.
Qed.

Lemma high_scoring_counts_window db start_date :
  high_scoring (period_entry db start_date) =
  Z.of_nat (List.length (high_scoring_in_window db (strftime_datetime start_date))).
Proof.
  rewrite period_entry_fields. cbv zeta. simpl high_scoring.
  unfold count_distinct, high_scoring_in_window. f_equal.
  apply nodup_length_equiv. intros i.
  rewrite in_non_null, !in_map_iff. split.
  - intros ([rd o] & E & Hin).
    apply filter_In in Hin. destruct Hin as [Hin Hw]. simpl in Hw.
    unfold case_high_scoring, ra_col in E. simpl in E.
    destruct o as [ra|]; [|discriminate].
    destruct (ra_ats_score ra) as [s|] eqn:Es; [|discriminate].
    destruct (Qle_bool 70 s) eqn:Ec; [|discriminate].
    inversion E; subst.
    apply in_left_join_some in Hin. destruct Hin as (Hrd & Hra & Hon).
    exists rd. split; [reflexivity|]. apply filter_In. split; [exact Hrd|].
    rewrite Hw. simpl. unfold has_high_score. apply existsb_exists.
    exists ra. split; [exact Hra|]. now rewrite Hon, Es.
  - intros (rd & E & Hin). apply filter_In in Hin. destruct Hin as [Hrd Hc].
    apply andb_prop in Hc. destruct Hc as [Hw Hh].
    unfold has_high_score in Hh. apply existsb_exists in Hh.
    destruct Hh as (ra & Hra & Hc). apply andb_prop in Hc. destruct Hc as [Hon Hs].
    destruct (ra_ats_score ra) as [s|] eqn:Es; [|discriminate].
    exists (rd, Some ra). split.
    + unfold case_high_scoring, ra_col. simpl. rewrite Es, Hs. now subst.
    + apply filter_In. split; [|exact Hw]. apply in_left_join_some. tauto.
Qed.

Lemma get_resume_metrics_unfold db now sow :
  start_of_week now = Some sow ->
  get_resume_metrics db now =
  Some [("Today"%string, period_entry db (start_of_day now));
        ("This Week"%string, period_entry db sow);
        ("This Month"%string, period_entry db (start_of_month now));
        ("All Time"%string, period_entry db all_time_start)].
Proof. intros H. unfold get_resume_metrics. now rewrite H. Qed.

Lemma days_in_month_ge_28 (y m : Z) : 1 <= m <= 12 -> 28 <= days_in_month y m.
Proof.
  intros Hm. unfold days_in_month, DAYS_IN_MONTH.
  destruct ((m =? 2) && is_leap y); [lia|].
  destruct m as [|p|p]; try lia.
  do 4 (destruct p; try lia).
Qed.

Lemma example_now_valid : valid example_now.
Proof. by_evaluation. Qed.

(** The starts of the four windows are dates of the calendar. *)
Lemma window_starts_valid (now sow : datetime) :
  valid now -> start_of_week now = Some sow ->
  valid (start_of_day now) /\ valid sow /\
  valid (start_of_month now) /\ valid all_time_start.
Proof.
  intros Hv Hs. destruct (start_of_week_spec now Hv) as (sow' & Hs' & Hvs & _).
  rewrite Hs in Hs'. injection Hs' as <-.
  destruct Hv as [(Hy & Hm & Hd) Ht].
  pose proof (days_in_month_ge_28 (year now) (month now) Hm).
  split; [|split; [exact Hvs|split]].
  - unfold valid, valid_date, start_of_day, replace_time_zero. cbn. lia.
  - unfold valid, valid_date, start_of_month, replace_day_1. cbn. lia.
  - by_evaluation.
Qed.

(** *** C1: the counts of the four windows *)

(** For records whose created_at is a written timestamp, the WHERE clause
    keeps the records created at or after the start. *)
Lemma in_window_created_since (db : database) (start : datetime)
  (rd : resume_data_row) :
  MetricsSpec.timestamps_written db -> valid start -> In rd (resume_data db) ->
  in_window (strftime_datetime start) rd = true <-> MetricsSpec.created_since start rd.
Proof.
  intros Hw Hv Hin. split.
  - intros H. destruct (Hw rd Hin) as [E|(created & Hc & E)].
    + unfold in_window in H. rewrite E in H. discriminate H.
    + exists created. split; [exact Hc|]. split; [exact E|].
      now apply (FormatFacts.in_window_chronological start created rd Hv Hc E).
  - intros (created & Hc & E & Ho).
    now apply (FormatFacts.in_window_chronological start created rd Hv Hc E).
Qed.

(** The join condition and the CASE of the query select the resumes with
    an ats_score of at least 70. *)
Lemma has_high_score_scored_70 (db : database) (rd : resume_data_row) :
  has_high_score db rd = true <-> MetricsSpec.scored_70 db rd.
Proof.
  unfold has_high_score, MetricsSpec.scored_70. rewrite existsb_exists. split.
  - intros (ra & Hra & H). apply andb_prop in H. destruct H as [Hon Hs].
    unfold join_on in Hon.
    destruct (ra_resume_id ra) as [i|] eqn:Ei; [|discriminate].
    destruct (ra_ats_score ra) as [s|] eqn:Es; [|discriminate].
    apply Z.eqb_eq in Hon. apply Qle_bool_iff in Hs.
    exists ra, s. split; [exact Hra|]. split; [congruence|].
    split; [exact Es|exact Hs].
  - intros (ra & s & Hra & Ei & Es & Hs). exists ra. split; [exact Hra|].
    unfold join_on. rewrite Ei, Es, Z.eqb_refl. cbn [andb].
    now apply Qle_bool_iff.
Qed.

Lemma distinct_resumes_total (db : database) (start : datetime) :
  MetricsSpec.timestamps_written db -> valid start ->
  MetricsSpec.distinct_resumes db (MetricsSpec.created_since start)
    (total (period_entry db start)).
Proof.
  intros Hw Hv. rewrite total_counts_window.
  exists (resumes_in_window db (strftime_datetime start)).
  split; [apply NoDup_nodup|]. split; [|reflexivity].
  intros i. unfold resumes_in_window. rewrite nodup_In, in_map_iff. split.
  - intros (rd & E & Hin). apply filter_In in Hin. destruct Hin as [Hin Hk].
    exists rd. split; [exact Hin|]. split; [exact E|].
    now apply (in_window_created_since db).
  - intros (rd & Hin & E & Hc). exists rd. split; [exact E|].
    apply filter_In. split; [exact Hin|]. now apply (in_window_created_since db).
Qed.

Lemma distinct_resumes_high_scoring (db : database) (start : datetime) :
  MetricsSpec.timestamps_written db -> valid start ->
  MetricsSpec.distinct_resumes db
    (fun rd => MetricsSpec.created_since start rd /\ MetricsSpec.scored_70 db rd)
    (high_scoring (period_entry db start)).
Proof.
  intros Hw Hv. rewrite high_scoring_counts_window.
  exists (high_scoring_in_window db (strftime_datetime start)).
  split; [apply NoDup_nodup|]. split; [|reflexivity].
  intros i. unfold high_scoring_in_window. rewrite nodup_In, in_map_iff. split.
  - intros (rd & E & Hin). apply filter_In in Hin. destruct Hin as [Hin Hk].
    apply andb_prop in Hk. destruct Hk as [Hk Hh].
    exists rd. split; [exact Hin|]. split; [exact E|]. split.
    + now apply (in_window_created_since db).
    + now apply has_high_score_scored_70.
  - intros (rd & Hin & E & Hc & Hh). exists rd. split; [exact E|].
    apply filter_In. split; [exact Hin|]. apply andb_true_intro. split.
    + now apply (in_window_created_since db).
    + now apply has_high_score_scored_70.
Qed.

Lemma counts_of_window_entry (db : database) (start : datetime) :
  MetricsSpec.timestamps_written db -> valid start ->
  MetricsSpec.counts_of_window db start (period_entry db start).
Proof.
  intros Hw Hv. split.
  - now apply distinct_resumes_total.
  - now apply distinct_resumes_high_scoring.
Qed.

(** The number of distinct resumes with a property is one number. *)
Lemma distinct_resumes_unique (db : database) (P : resume_data_row -> Prop)
  (n n' : Z) :
  MetricsSpec.distinct_resumes db P n -> MetricsSpec.distinct_resumes db P n' ->
  n = n'.
Proof.
  intros (ids & Hnd & Hin & ->) (ids' & Hnd' & Hin' & ->). f_equal.
  apply Nat.le_antisymm; apply NoDup_incl_length; try assumption;
    intros i Hi; [apply Hin', Hin, Hi|apply Hin, Hin', Hi].
Qed.

Lemma example_db_timestamps_written : MetricsSpec.timestamps_written example_db.
Proof.
  intros rd Hin. right. cbn in Hin.
  destruct Hin as [<- | [<- | [<- | []]]].
  - exists (mkDatetime 2024 1 1 9 0 0 0). split; [by_evaluation|reflexivity].
  - exists (mkDatetime 2024 1 3 10 0 0 0). split; [by_evaluation|reflexivity].
  - exists (mkDatetime 1999 12 31 23 59 59 0). split; [by_evaluation|reflexivity].
Qed.

(** C1. For every database whose created_at values are written timestamps
    and every reference time, get_resume_metrics returns the four windows,
    and the Today and the All Time window hold the two counts of the claim:
    the distinct resumes created at or after midnight of today (after
    2000-01-01), and those of them with an ats_score of at least 70.  This
    Week and This Month do not.  On Wednesday 2024-01-03 at 15:30 the week
    and the month of the claim start on Monday 2024-01-01 at midnight and
    two distinct resumes were created since, but the method returns a total
    of 1 for both windows: it starts them at 15:30 of that Monday and
    leaves out the resume created there at 09:00. *)
Theorem week_and_month_counts_miss_records :
  (forall db now,
     valid now -> MetricsSpec.timestamps_written db ->
     exists mt mw mm ma,
       get_resume_metrics db now =
         Some [("Today"%string, mt); ("This Week"%string, mw);
               ("This Month"%string, mm); ("All Time"%string, ma)] /\
       MetricsSpec.counts_of_window db (MetricsSpec.start_of_today now) mt /\
       MetricsSpec.counts_of_window db MetricsSpec.epoch_start ma) /\
  (valid example_now /\ MetricsSpec.timestamps_written example_db /\
   MetricsSpec.monday_midnight example_now = mkDatetime 2024 1 1 0 0 0 0 /\
   MetricsSpec.first_of_month_midnight example_now = mkDatetime 2024 1 1 0 0 0 0 /\
   MetricsSpec.distinct_resumes example_db
     (MetricsSpec.created_since (MetricsSpec.monday_midnight example_now)) 2 /\
   MetricsSpec.distinct_resumes example_db
     (MetricsSpec.created_since (MetricsSpec.first_of_month_midnight example_now)) 2 /\
   exists mt mw mm ma,
     get_resume_metrics example_db example_now =
       Some [("Today"%string, mt); ("This Week"%string, mw);
             ("This Month"%string, mm); ("All Time"%string, ma)] /\
     total mw = 1 /\ total mm = 1 /\
     ~ MetricsSpec.counts_of_window example_db
         (MetricsSpec.monday_midnight example_now) mw /\
     ~ MetricsSpec.counts_of_window example_db
         (MetricsSpec.first_of_month_midnight example_now) mm).
Proof.
  split.
  - intros db now Hv Hw. destruct (start_of_week_spec now Hv) as (sow & Hs & _).
    destruct (window_starts_valid now sow Hv Hs) as (Hd & _ & _ & Ha).
    exists (period_entry db (start_of_day now)), (period_entry db sow),
      (period_entry db (start_of_month now)), (period_entry db all_time_start).
    split; [now apply get_resume_metrics_unfold|]. split.
    + now apply (counts_of_window_entry db (start_of_day now)).
    + now apply (counts_of_window_entry db all_time_start).
  - assert (Hm : valid (mkDatetime 2024 1 1 0 0 0 0)) by by_evaluation.
    assert (H2 : MetricsSpec.distinct_resumes example_db
                   (MetricsSpec.created_since (mkDatetime 2024 1 1 0 0 0 0)) 2).
    { pose proof (distinct_resumes_total example_db (mkDatetime 2024 1 1 0 0 0 0)
                    example_db_timestamps_written Hm) as H.
      replace (total (period_entry example_db (mkDatetime 2024 1 1 0 0 0 0)))
        with 2 in H by (vm_compute; reflexivity).
      exact H. }
    assert (Ew : MetricsSpec.monday_midnight example_now = mkDatetime 2024 1 1 0 0 0 0)
      by (vm_compute; reflexivity).
    assert (Em : MetricsSpec.first_of_month_midnight example_now
                 = mkDatetime 2024 1 1 0 0 0 0) by reflexivity.
    split; [exact example_now_valid|]. split; [exact example_db_timestamps_written|].
    split; [exact Ew|]. split; [exact Em|]. rewrite Ew, Em.
    split; [exact H2|]. split; [exact H2|].
    exists (period_entry example_db (start_of_day example_now)),
      (period_entry example_db (mkDatetime 2024 1 1 15 30 0 0)),
      (period_entry example_db (start_of_month example_now)),
      (period_entry example_db all_time_start).
    split; [apply get_resume_metrics_unfold; vm_compute; reflexivity|].
    split; [vm_compute; reflexivity|]. split; [vm_compute; reflexivity|].
    split; intros [Ht _];
      pose proof (distinct_resumes_unique _ _ _ _ Ht H2) as E;
      vm_compute in E; discriminate E.
Qed.

(** *** C9: the high-scoring resumes are among the resumes of the window *)

Lemma high_scoring_le_total_entry db start_date :
  high_scoring (period_entry db start_date) <= total (period_entry db start_date).
Proof.
  rewrite total_counts_window, high_scoring_counts_window.
  apply inj_le. unfold high_scoring_in_window, resumes_in_window.
  apply nodup_length_incl. intros i Hi.
  apply in_map_iff in Hi. destruct Hi as (rd & E & Hin).
  apply filter_In in Hin. destruct Hin as [Hrd Hc].
  apply andb_prop in Hc. apply in_map_iff. exists rd. split; [exact E|].
  apply filter_In. tauto.
Qed.

Lemma in_get_resume_metrics db now result period m :
  get_resume_metrics db now = Some result -> In (period, m) result ->
  exists start_date, m = period_entry db start_date.
Proof.
  unfold get_resume_metrics. destruct (start_of_week now) as [sow|]; [|discriminate].
  intros E Hin. inversion E; subst. simpl in Hin.
  repeat (destruct Hin as [Hin|Hin]; [inversion Hin; eexists; reflexivity|]).
  destruct Hin.
Qed.

(** C9. In every window that get_resume_metrics returns, the high-scoring
    count is at most the total count of the window. *)
Theorem high_scoring_le_total (db : database) (now : datetime)
  (result : list (string * period_metrics)) (period : string) (m : period_metrics) :
  get_resume_metrics db now = Some result ->
  In (period, m) result ->
  high_scoring m <= total m.
Proof.
  intros E Hin. destruct (in_get_resume_metrics _ _ _ _ _ E Hin) as [s ->].
  apply high_scoring_le_total_entry.
Qed.

Lemma high_scoring_le_total_witness :
  high_scoring (period_entry example_db all_time_start)
  <= total (period_entry example_db all_time_start).
Proof.
  apply (high_scoring_le_total example_db example_now
           [("Today"%string, period_entry example_db (start_of_day example_now));
            ("This Week"%string, period_entry example_db (mkDatetime 2024 1 1 15 30 0 0));
            ("This Month"%string, period_entry example_db (start_of_month example_now));
            ("All Time"%string, period_entry example_db all_time_start)]
           "All Time"%string).
  - reflexivity.
  - simpl. tauto.
Defined.

(** *** C8: no exception, zeros for an empty window, averages in range *)

Lemma Qsum_bounds (l : list Q) :
  Forall (fun q => 0 <= q <= 100)%Q l ->
  (0 <= Qsum l <= 100 * inject_Z (Z.of_nat (List.length l)))%Q.
Proof.
  induction 1 as [|q l Hq _ IH]; simpl.
  - vm_compute. split; discriminate.
  - unfold Qsum in *. simpl fold_right.
    rewrite Zpos_P_of_succ_nat, <- Z.add_1_r, inject_Z_plus.
    change (inject_Z 1) with 1%Q. lra.
Qed.

Lemma avg_bounds (l : list (nullable Q)) (a : Q) :
  Forall (fun q => 0 <= q <= 100)%Q (non_null l) ->
  avg l = Some a -> (0 <= a <= 100)%Q.
Proof.
  unfold avg. intros HF E.
  destruct (non_null l) as [|v vs] eqn:Ev; [discriminate|].
  assert (Hlen : (0 < List.length (v :: vs))%nat) by (simpl; lia).
  remember (v :: vs) as w eqn:Ew. clear Ew Ev.
  injection E as <-.
  pose proof (Qsum_bounds _ HF) as [H0 H1].
  set (n := inject_Z (Z.of_nat (List.length w))) in *.
  assert (Hn : (0 < n)%Q).
  { unfold n. change 0%Q with (inject_Z 0). rewrite <- Zlt_Qlt. lia. }
  split.
  - apply Qle_shift_div_l; [exact Hn|]. lra.
  - apply Qle_shift_div_r; [exact Hn|]. lra.
Qed.

Lemma round_tenths_bounds (a : Q) :
  (0 <= a <= 100)%Q ->
  (0 <= Qred (Qmake (Qfloor (a * 10 + (1 # 2))) 10) <= 100)%Q.
Proof.
  intros [H0 H1].
  assert (Hlo : 0 <= Qfloor (a * 10 + (1 # 2))).
  { change 0 with (Qfloor 0). apply Qfloor_resp_le. lra. }
  assert (Hhi : Qfloor (a * 10 + (1 # 2)) <= 1000).
  { change 1000 with (Qfloor (1000 + (1 # 2))). apply Qfloor_resp_le. lra. }
  set (z := Qfloor (a * 10 + (1 # 2))) in *.
  assert (E : (Qred (Qmake z 10) == Qmake z 10)%Q) by apply Qred_correct.
  assert (B : (0 <= Qmake z 10 <= 100)%Q) by (unfold Qle; simpl; lia).
  rewrite E. exact B.
Qed.

Lemma round1_bounds (a r : Q) :
  (0 <= a <= 100)%Q -> round1 (Some a) = Some r -> (0 <= r <= 100)%Q.
Proof.
  intros Ha. unfold round1.
  assert (Hb : Qle_bool 0 a = true) by (apply Qle_bool_iff; tauto).
  rewrite Hb. intros E. injection E as <-.
  now apply round_tenths_bounds.
Qed.

Lemma num_or_0_bounds (x : nullable Q) :
  (forall q, x = Some q -> 0 <= q <= 100)%Q -> (0 <= num_or_0 x <= 100)%Q.
Proof.
  intros H. unfold num_or_0. destruct x as [q|]; [|lra].
  destruct (Qeq_bool q 0); [lra|]. now apply H.
Qed.

Lemma avg_column_bounds db (sel : resume_analysis_row -> nullable Q)
  (rows : list (resume_data_row * option resume_analysis_row)) :
  (forall ra s, In ra (resume_analysis db) -> sel ra = Some s -> 0 <= s <= 100)%Q ->
  incl rows (left_join db) ->
  (0 <= num_or_0 (round1 (avg (map (ra_col sel) rows))) <= 100)%Q.
Proof.
  intros Hsel Hincl. apply num_or_0_bounds. intros r Hr.
  destruct (avg (map (ra_col sel) rows)) as [a|] eqn:Ea; [|discriminate].
  apply (round1_bounds a r); [|exact Hr].
  refine (avg_bounds _ _ _ Ea).
  apply Forall_forall. intros q Hq.
  apply in_non_null, in_map_iff in Hq. destruct Hq as ([rd o] & E & Hin).
  unfold ra_col in E. simpl in E. destruct o as [ra|]; [|discriminate].
  apply Hincl, in_left_join_some in Hin. apply (Hsel ra q); tauto.
Qed.

Lemma averages_in_range db start_date :
  scores_in_range db ->
  (0 <= ats_score (period_entry db start_date) <= 100)%Q /\
  (0 <= keyword_score (period_entry db start_date) <= 100)%Q.
Proof.
  intros Hr. rewrite period_entry_fields. cbv zeta.
  simpl ats_score. simpl keyword_score.
  split; apply (avg_column_bounds db).
  - intros ra s Hra. now apply Hr.
  - intros j Hj. apply filter_In in Hj. tauto.
  - intros ra s Hra. now apply Hr.
  - intros j Hj. apply filter_In in Hj. tauto.
Qed.

Lemma empty_window_zero db start_date :
  filter (in_window (strftime_datetime start_date)) (resume_data db) = [] ->
  period_entry db start_date = mkMetrics 0 0 0 0.
Proof.
  intros He. rewrite period_entry_fields. cbv zeta.
  assert (Hj : filter (fun j => in_window (strftime_datetime start_date) (fst j))
                      (left_join db) = []).
  { destruct (filter _ (left_join db)) as [|[rd o] js] eqn:Ef; [reflexivity|].
    assert (Hin : In (rd, o) (filter (fun j => in_window (strftime_datetime start_date) (fst j))
                                     (left_join db)))
      by (rewrite Ef; now left).
    apply filter_In in Hin. destruct Hin as [Hin Hw].
    apply in_left_join_fst in Hin.
    assert (Hf : In rd (filter (in_window (strftime_datetime start_date)) (resume_data db)))
      by (apply filter_In; tauto).
    rewrite He in Hf. destruct Hf. }
  rewrite Hj. reflexivity.
Qed.

(** C8. get_resume_metrics raises nothing, whatever the database holds: it
    returns the four windows; a window without a qualifying resume has all
    four fields equal to 0; and when every stored score lies in [0, 100],
    so do both averages of every window. *)
Theorem get_resume_metrics_no_error (db : database) (now : datetime) :
  valid now ->
  exists sow,
    start_of_week now = Some sow /\
    get_resume_metrics db now =
      Some [("Today"%string, period_entry db (start_of_day now));
            ("This Week"%string, period_entry db sow);
            ("This Month"%string, period_entry db (start_of_month now));
            ("All Time"%string, period_entry db all_time_start)] /\
    forall start_date,
      (filter (in_window (strftime_datetime start_date)) (resume_data db) = [] ->
       period_entry db start_date = mkMetrics 0 0 0 0) /\
      (scores_in_range db ->
       (0 <= ats_score (period_entry db start_date) <= 100)%Q /\
       (0 <= keyword_score (period_entry db start_date) <= 100)%Q).
Proof.
  intros Hv. destruct (start_of_week_spec now Hv) as (sow & Hs & _).
  exists sow. split; [exact Hs|]. split; [now apply get_resume_metrics_unfold|].
  intros start_date. split.
  - apply empty_window_zero.
  - apply averages_in_range.
Qed.

Lemma get_resume_metrics_no_error_witness :
  exists sow,
    start_of_week example_now = Some sow /\
    get_resume_metrics example_db example_now =
      Some [("Today"%string, period_entry example_db (start_of_day example_now));
            ("This Week"%string, period_entry example_db sow);
            ("This Month"%string, period_entry example_db (start_of_month example_now));
            ("All Time"%string, period_entry example_db all_time_start)] /\
    forall start_date,
      (filter (in_window (strftime_datetime start_date)) (resume_data example_db) = [] ->
       period_entry example_db start_date = mkMetrics 0 0 0 0) /\
      (scores_in_range example_db ->
       (0 <= ats_score (period_entry example_db start_date) <= 100)%Q /\
       (0 <= keyword_score (period_entry example_db start_date) <= 100)%Q).
Proof.
  apply (get_resume_metrics_no_error example_db example_now).
  by_evaluation.
Defined.

(** *** C3: the All Time window *)

Lemma all_time_start_text :
  strftime_datetime all_time_start = "2000-01-01 00:00:00"%string.
Proof. reflexivity. Qed.

(** Unique ids stay unique among the rows a WHERE clause keeps. *)
Lemma unique_ids_where (keep : resume_data_row -> bool)
  (table : list resume_data_row) :
  NoDup (map rd_id table) -> NoDup (map rd_id (filter keep table)).
Proof.
  induction table as [|rd table IH]; cbn [map filter]; intros Hu; [constructor|].
  apply NoDup_cons_iff in Hu. destruct Hu as [Hfresh Hu].
  destruct (keep rd); cbn [map]; [|now apply IH].
  apply NoDup_cons; [|now apply IH].
  intros Hin. apply Hfresh. apply in_map_iff in Hin. destruct Hin as (x & E & Hx).
  apply in_map_iff. exists x. apply filter_In in Hx. tauto.
Qed.

(** C3, as the code has it. The All Time total is the number of distinct
    resumes whose created_at is at or after 2000-01-01 00:00:00; when ids
    are unique it is the number of such rows.  Older rows are not counted. *)
Theorem all_time_total_since_2000 (db : database) (now : datetime) :
  valid now ->
  all_time_total db now =
    Some (Z.of_nat (List.length (resumes_in_window db "2000-01-01 00:00:00"))) /\
  (NoDup (map rd_id (resume_data db)) ->
   all_time_total db now =
     Some (count_rows (filter (in_window "2000-01-01 00:00:00") (resume_data db)))).
Proof.
  intros Hv. destruct (start_of_week_spec now Hv) as (sow & Hs & _).
  assert (E : all_time_total db now =
              Some (Z.of_nat (List.length (resumes_in_window db "2000-01-01 00:00:00")))).
  { unfold all_time_total. rewrite (get_resume_metrics_unfold db now sow Hs).
    cbn [dict_get String.eqb Ascii.eqb Bool.eqb option_map].
    now rewrite total_counts_window, all_time_start_text. }
  split; [exact E|]. intros Hnd. rewrite E. unfold resumes_in_window, count_rows.
  rewrite nodup_fixed_point by now apply unique_ids_where.
  now rewrite length_map.
Qed.

Lemma all_time_total_since_2000_witness :
  all_time_total example_db example_now =
    Some (Z.of_nat (List.length (resumes_in_window example_db "2000-01-01 00:00:00"))) /\
  (NoDup (map rd_id (resume_data example_db)) ->
   all_time_total example_db example_now =
     Some (count_rows (filter (in_window "2000-01-01 00:00:00") (resume_data example_db)))).
Proof.
  apply (all_time_total_since_2000 example_db example_now).
  by_evaluation.
Defined.

(** C3, as the specification words it, fails: a stored resume created
    before the year 2000 is not counted by the All Time window. *)
Lemma all_time_total_misses_old_rows :
  ~ (forall db now, valid now ->
       all_time_total db now = Some (count_rows (resume_data db))).
Proof.
  intros H. specialize (H example_db example_now example_now_valid).
  vm_compute in H. discriminate H.
Qed.

(** *** C4: where the week and the month start *)

(** C4 on a Wednesday at 15:30. The day starts at midnight, but the week
    and the month start at 15:30 of the Monday and of the first of the
    month: the time of day of [now] is kept.  The resume stored on that
    Monday at 09:00 is therefore missing from This Week and This Month,
    which count one resume where a window from Monday midnight holds two. *)
Theorem week_and_month_start_keep_time_of_day :
  start_of_day example_now = mkDatetime 2024 1 3 0 0 0 0 /\
  start_of_week example_now = Some (mkDatetime 2024 1 1 15 30 0 0) /\
  start_of_month example_now = mkDatetime 2024 1 1 15 30 0 0 /\
  option_map (map (fun p => (fst p, total (snd p))))
             (get_resume_metrics example_db example_now) =
    Some [("Today"%string, 1); ("This Week"%string, 1);
          ("This Month"%string, 1); ("All Time"%string, 2)] /\
  List.length (resumes_in_window example_db "2024-01-01 00:00:00") = 2%nat.
Proof. vm_compute. repeat split; reflexivity. Qed.

End MetricsFacts.

(* ===================================================================== *)
(** ** get_weekly_trends                                                  *)
(* ===================================================================== *)

Module TrendFacts.

Import PyDatetime Sqlite Dashboard Spec Checks CalendarFacts FormatFacts.

Lemma submissions_on_day db (d : datetime) :
  valid d -> submissions_on db (strftime_date d) = records_created_on db d.
Proof.
  intros Hv. unfold submissions_on, records_created_on, count_rows.
  rewrite (date_strftime_date d Hv). do 2 f_equal.
  apply filter_ext. intros rd. unfold created_on.
  destruct (date (rd_created_at rd)) as [s|]; cbn [holds text_eq]; [|reflexivity].
  now destruct (String.eqb s (strftime_date d)).
Qed.

Lemma days_back (now : datetime) (x : Z) :
  valid now -> 6 < toordinal now -> 0 <= x <= 6 ->
  exists d, sub_days now x = Some d /\ valid d /\
            toordinal d = toordinal now - x.
Proof.
  intros Hv H6 Hx. pose proof (toordinal_bounds now Hv) as Hb.
  destruct (sub_days_spec now x Hv ltac:(lia)) as (d & Hs & Hvd & Ho & _).
  now exists d.
Qed.

(** The dates of one calendar day are one date. *)
Lemma toordinal_inj (a b : datetime) :
  valid a -> valid b -> toordinal a = toordinal b ->
  (year a, month a, day a) = (year b, month b, day b).
Proof.
  intros [Ha _] [Hb _] E. unfold toordinal in E.
  destruct (ymd2ord_valid _ _ _ Ha) as [_ Ea].
  destruct (ymd2ord_valid _ _ _ Hb) as [_ Eb].
  congruence.
Qed.

(** A record whose created_at was written as [%Y-%m-%d %H:%M:%S] was
    created on a day exactly when year, month and day agree. *)
Lemma created_on_same_day (d created : datetime) (rd : resume_data_row) :
  valid d -> valid created ->
  rd_created_at rd = Some (strftime_datetime created) ->
  created_on d rd = true <->
  (year created, month created, day created) = (year d, month d, day d).
Proof.
  intros Hd Hc E. unfold created_on. rewrite E, (date_strftime_datetime created Hc).
  rewrite String.eqb_eq. split.
  - now apply strftime_date_inj.
  - intros H. injection H as Hy Hm Hday. unfold strftime_date. now rewrite Hy, Hm, Hday.
Qed.

(** C5. For a reference time from the seventh day of the calendar on,
    get_weekly_trends returns seven labels and seven counts, one pair per
    calendar day: the days are consecutive and in ascending order, the
    last one is today; a label is the last three characters of the date
    text, the hyphen and the two digits of the day of the month; a count is
    the number of records whose created_at, without its time of day, is
    that day, and is not negative. *)
Theorem get_weekly_trends_seven_days (db : database) (now : datetime) :
  valid now -> 6 < toordinal now ->
  (exists days : list datetime,
      get_weekly_trends db now =
        Some (map (fun d => py_suffix 3 (strftime_date d)) days,
              map (records_created_on db) days) /\
      List.length days = 7%nat /\
      (forall i d, nth_error days i = Some d ->
         valid d /\ toordinal d = toordinal now - 6 + Z.of_nat i /\
         py_suffix 3 (strftime_date d) = ("-" ++ pad2 (day d))%string /\
         0 <= records_created_on db d) /\
      (forall d, nth_error days 6 = Some d ->
         (year d, month d, day d) = (year now, month now, day now))) /\
  (forall d created rd,
      valid d -> valid created ->
      rd_created_at rd = Some (strftime_datetime created) ->
      (created_on d rd = true <->
       (year created, month created, day created) = (year d, month d, day d))).
Proof.
  intros Hv H6. split; [|exact created_on_same_day].
  destruct (days_back now 6 Hv H6 ltac:(lia)) as (d6 & E6 & V6 & O6).
  destruct (days_back now 5 Hv H6 ltac:(lia)) as (d5 & E5 & V5 & O5).
  destruct (days_back now 4 Hv H6 ltac:(lia)) as (d4 & E4 & V4 & O4).
  destruct (days_back now 3 Hv H6 ltac:(lia)) as (d3 & E3 & V3 & O3).
  destruct (days_back now 2 Hv H6 ltac:(lia)) as (d2 & E2 & V2 & O2).
  destruct (days_back now 1 Hv H6 ltac:(lia)) as (d1 & E1 & V1 & O1).
  destruct (days_back now 0 Hv H6 ltac:(lia)) as (d0 & E0 & V0 & O0).
  exists [d6; d5; d4; d3; d2; d1; d0].
  split; [|split; [reflexivity|split]].
  - unfold get_weekly_trends. cbn [map_raise].
    rewrite E6, E5, E4, E3, E2, E1, E0. cbn [option_map map].
    now rewrite !submissions_on_day.
  - intros i d Hi.
    assert (Hp : py_suffix 3 (strftime_date d) = ("-" ++ pad2 (day d))%string)
      by apply py_suffix_strftime_date.
    assert (Hc : 0 <= records_created_on db d) by (unfold records_created_on; lia).
    do 7 (destruct i as [|i];
          [injection Hi as <-;
           split; [assumption|split; [cbn [Z.of_nat]; lia|split; assumption]]|]).
    destruct i; discriminate Hi.
  - intros d Hd. injection Hd as <-.
    apply toordinal_inj; auto. lia.
Qed.

Lemma get_weekly_trends_seven_days_witness :
  (exists days : list datetime,
      get_weekly_trends example_db example_now =
        Some (map (fun d => py_suffix 3 (strftime_date d)) days,
              map (records_created_on example_db) days) /\
      List.length days = 7%nat /\
      (forall i d, nth_error days i = Some d ->
         valid d /\ toordinal d = toordinal example_now - 6 + Z.of_nat i /\
         py_suffix 3 (strftime_date d) = ("-" ++ pad2 (day d))%string /\
         0 <= records_created_on example_db d) /\
      (forall d, nth_error days 6 = Some d ->
         (year d, month d, day d) =
         (year example_now, month example_now, day example_now))) /\
  (forall d created rd,
      valid d -> valid created ->
      rd_created_at rd = Some (strftime_datetime created) ->
      (created_on d rd = true <->
       (year created, month created, day created) = (year d, month d, day d))).
Proof.
  apply (get_weekly_trends_seven_days example_db example_now).
  - by_evaluation.
  - vm_compute. reflexivity.
Defined.

(** The trend of the example database on Wednesday 2024-01-03. *)
Example get_weekly_trends_example :
  get_weekly_trends example_db example_now =
  Some (["-28"; "-29"; "-30"; "-31"; "-01"; "-02"; "-03"]%string,
        [0; 0; 0; 0; 1; 0; 1]).
Proof. vm_compute. reflexivity. Qed.

(** In the first six days of the calendar the subtraction of six days
    raises OverflowError. *)
Example get_weekly_trends_overflow (db : database) :
  get_weekly_trends db (mkDatetime 1 1 6 12 0 0 0) = None.
Proof. reflexivity. Qed.

End TrendFacts.

(* ===================================================================== *)
(** ** get_skill_distribution                                             *)
(* ===================================================================== *)

Module SkillFacts.

Import Sqlite Dashboard Spec Checks.

(** *** The text up to the first comma and the text after it *)

Lemma prefix_comma (c : ascii) (s : string) :
  String.prefix "," (String c s) = (c =? ",")%char.
Proof.
  cbn [String.prefix]. destruct (Ascii.ascii_dec "," c) as [<-|Hne].
  - now destruct s.
  - symmetry. apply Ascii.eqb_neq. congruence.
Qed.

Lemma instr_from_comma (s : string) (i : Z) :
  has_comma s = true ->
  instr_from i s "," = i + Z.of_nat (String.length (first_token s)).
Proof.
  revert i. induction s as [|c s IH]; intros i H; [discriminate|].
  cbn [instr_from]. rewrite prefix_comma. cbn [has_comma first_token] in *.
  destruct (c =? ",")%char.
  - simpl. lia.
  - rewrite IH by exact H. cbn [String.length]. lia.
Qed.

Lemma take_first_token (s : string) :
  has_comma s = true -> take (String.length (first_token s)) s = first_token s.
Proof.
  induction s as [|c s IH]; intros H; [discriminate|].
  cbn [has_comma first_token] in *. destruct (c =? ",")%char; [reflexivity|].
  cbn [String.length take]. now rewrite IH.
Qed.

Lemma skip_first_token (s : string) :
  has_comma s = true ->
  skip (S (String.length (first_token s))) s = after_first_comma s.
Proof.
  induction s as [|c s IH]; intros H; [discriminate|].
  cbn [has_comma first_token after_first_comma] in *.
  destruct (c =? ",")%char.
  - cbn [String.length skip]. now destruct s.
  - cbn [String.length]. cbn [skip]. now apply IH.
Qed.

Lemma length_split (s : string) :
  has_comma s = true ->
  String.length s =
  (String.length (first_token s) + 1 + String.length (after_first_comma s))%nat.
Proof.
  induction s as [|c s IH]; intros H; [discriminate|].
  cbn [has_comma first_token after_first_comma] in *.
  destruct (c =? ",")%char; cbn [String.length]; [lia|].
  rewrite IH by exact H. lia.
Qed.

(** [substr(rest, 0, instr(rest, ','))] is the text before the first comma. *)
Lemma substr_before_comma (rest : string) :
  has_comma rest = true ->
  substr rest 0 (Some (instr rest ",")) = first_token rest.
Proof.
  intros H. unfold instr. rewrite instr_from_comma by exact H.
  unfold substr.
  set (k := Z.of_nat (String.length (first_token rest))).
  assert (Hk : 0 <= k) by (unfold k; lia).
  destruct (Z.ltb_spec (1 + k) 0); [lia|].
  cbn [Z.ltb Z.compare].
  destruct (Z.ltb_spec 0 (1 + k)); [|lia].
  replace (Z.to_nat (1 + k - 1)) with (String.length (first_token rest))
    by (unfold k; lia).
  cbn [Z.to_nat skip]. now apply take_first_token.
Qed.

(** [substr(rest, instr(rest, ',') + 1)] is the text after the first comma. *)
Lemma substr_after_comma (rest : string) :
  has_comma rest = true ->
  substr rest (instr rest "," + 1) None = after_first_comma rest.
Proof.
  intros H. unfold instr. rewrite instr_from_comma by exact H.
  unfold substr.
  set (k := Z.of_nat (String.length (first_token rest))).
  assert (Hk : 0 <= k) by (unfold k; lia).
  destruct (Z.ltb_spec (1 + k + 1) 0); [lia|].
  destruct (Z.ltb_spec 0 (1 + k + 1)); [|lia].
  replace (Z.to_nat (1 + k + 1 - 1)) with (S (String.length (first_token rest)))
    by (unfold k; lia).
  now apply skip_first_token.
Qed.

(** *** What the recursion derives from a row *)

Lemma has_comma_app_comma (s : string) : has_comma (s ++ ",") = true.
Proof.
  induction s as [|c s IH]; [reflexivity|].
  cbn [append has_comma]. rewrite IH. apply orb_true_r.
Qed.

Lemma terminated_has_comma (rest : string) :
  terminated rest -> rest <> EmptyString -> has_comma rest = true.
Proof.
  intros [->|[s ->]] Hne; [congruence|]. apply has_comma_app_comma.
Qed.

Lemma terminated_after (rest : string) :
  terminated rest -> terminated (after_first_comma rest).
Proof.
  intros [->|[s ->]]; [now left|].
  induction s as [|c s IH]; [now left|].
  cbn [append after_first_comma]. destruct (c =? ",")%char; [|exact IH].
  right. now exists s.
Qed.

Lemma rest_tokens_step (rest : string) :
  has_comma rest = true ->
  rest_tokens rest = first_token rest :: rest_tokens (after_first_comma rest).
Proof.
  induction rest as [|c s IH]; intros H; [discriminate|].
  cbn [has_comma rest_tokens first_token after_first_comma] in *.
  destruct (c =? ",")%char; [reflexivity|].
  now rewrite IH.
Qed.

Lemma split_comma_not_nil (s : string) : split_comma s <> [].
Proof.
  induction s as [|c s IH]; cbn [split_comma]; [discriminate|].
  destruct (c =? ",")%char; [discriminate|].
  destruct (split_comma s); discriminate.
Qed.

(** The tokens cut from [skills || ','] are the pieces of [skills]. *)
Lemma rest_tokens_split_comma (s : string) :
  rest_tokens (s ++ ",") = split_comma s.
Proof.
  induction s as [|c s IH]; [reflexivity|].
  cbn [append rest_tokens split_comma]. rewrite IH.
  destruct (c =? ",")%char; [reflexivity|].
  pose proof (split_comma_not_nil s).
  destruct (split_comma s); congruence.
Qed.

Lemma split_fuel_cons r q : split_fuel (r :: q) = (S (rest_length r) + split_fuel q)%nat.
Proof. reflexivity. Qed.

Lemma split_fuel_app q1 q2 :
  split_fuel (q1 ++ q2) = (split_fuel q1 + split_fuel q2)%nat.
Proof.
  induction q1 as [|r q1 IH]; [reflexivity|].
  cbn [app]. rewrite !split_fuel_cons, IH. lia.
Qed.

(** One step of the recursion, on a row whose [rest] is empty or ends with
    a comma: the derived rows carry the tokens of [rest], are of the same
    kind, and have less text left. *)
Lemma split_recursive_spec (r : split_row) :
  row_ok r ->
  flat_map row_tokens (split_recursive r) =
    match snd r with Some rest => rest_tokens rest | None => [] end /\
  Forall row_ok (split_recursive r) /\
  (split_fuel (split_recursive r) <= rest_length r)%nat.
Proof.
  intros Hok. destruct r as [skill [rest|]]; unfold split_recursive, rest_length;
    cbn [snd fst text_ne text_eq option_map holds].
  2: { repeat split; auto. }
  destruct (String.eqb_spec rest EmptyString) as [->|Hne]; cbn [negb].
  { repeat split; auto. }
  assert (Hc : has_comma rest = true)
    by (apply terminated_has_comma; [now apply Hok|exact Hne]).
  rewrite (substr_before_comma rest Hc), (substr_after_comma rest Hc).
  split; [|split].
  - cbn [flat_map row_tokens fst snd]. rewrite app_nil_r.
    symmetry. now apply rest_tokens_step.
  - constructor; [|constructor]. intros rest' E. cbn [snd] in E.
    injection E as <-. apply terminated_after. now apply Hok.
  - rewrite split_fuel_cons. unfold rest_length. cbn [snd split_fuel fold_right].
    rewrite (length_split rest Hc). lia.
Qed.

(** The recursion comes to an end within its fuel, and the column [skill]
    of the table is, in some order, what the rows of the queue carry. *)
Lemma run_recursive_tokens (fuel : nat) :
  forall queue,
    Forall row_ok queue -> (split_fuel queue <= fuel)%nat ->
    exists table,
      run_recursive fuel queue = Some table /\
      Permutation (map fst table) (flat_map row_tokens queue).
Proof.
  induction fuel as [|fuel IH]; intros queue Hok Hfuel.
  - destruct queue as [|r q]; [|rewrite split_fuel_cons in Hfuel; lia].
    exists []. split; [reflexivity|constructor].
  - destruct queue as [|r q].
    { exists []. split; [reflexivity|constructor]. }
    inversion Hok as [|? ? Hr Hq]; subst.
    destruct (split_recursive_spec r Hr) as (Htok & Hchild & Hlen).
    rewrite split_fuel_cons in Hfuel.
    destruct (IH (q ++ split_recursive r)) as (table & Hrun & Hperm).
    + apply Forall_app. now split.
    + rewrite split_fuel_app. lia.
    + exists (r :: table). split.
      * cbn [run_recursive]. now rewrite Hrun.
      * cbn [map flat_map]. unfold row_tokens at 1. cbn [app].
        apply perm_skip. rewrite Hperm, flat_map_app, Htok.
        apply Permutation_app_comm.
Qed.

Lemma Permutation_filter {A : Type} (p : A -> bool) (l l' : list A) :
  Permutation l l' -> Permutation (filter p l) (filter p l').
Proof.
  induction 1 as [|x l l' _ IH|x y l|l l' l'' _ IH1 _ IH2]; cbn [filter].
  - constructor.
  - destruct (p x); [now apply perm_skip|exact IH].
  - destruct (p x), (p y); try reflexivity. apply perm_swap.
  - now transitivity (filter p l').
Qed.

(** A WHERE clause on the skills of the rows works row by row. *)
Lemma filter_row_tokens (keep : string -> bool) (queue : list split_row) :
  filter keep (flat_map row_tokens queue) =
  flat_map (fun r => filter keep (row_tokens r)) queue.
Proof.
  induction queue as [|r queue IH]; [reflexivity|].
  cbn [flat_map]. now rewrite filter_app, IH.
Qed.

(** The table [split] is computed for every database, and its non-empty
    skills are, in some order, the tokens of all records. *)
Lemma split_table_tokens (db : database) :
  exists table,
    split_table db = Some table /\
    Permutation (nonempty_skills table) (skill_tokens db).
Proof.
  destruct (run_recursive_tokens (split_fuel (split_initial db)) (split_initial db))
    as (table & Hrun & Hperm).
  - unfold split_initial. apply Forall_forall. intros r Hr.
    apply in_map_iff in Hr. destruct Hr as (rd & <- & _).
    intros rest E. cbn [snd] in E. destruct (rd_skills rd) as [s|]; [|discriminate].
    injection E as <-. right. now exists s.
  - lia.
  - exists table. split; [exact Hrun|].
    unfold nonempty_skills.
    rewrite (Permutation_filter _ _ _ Hperm).
    unfold split_initial, skill_tokens.
    rewrite filter_row_tokens, flat_map_concat_map, map_map, <- flat_map_concat_map.
    apply Permutation_refl'. apply flat_map_ext. intros rd.
    unfold row_tokens, record_tokens. cbn [fst snd filter text_ne text_eq option_map holds].
    destruct (rd_skills rd) as [s|]; cbn [concat String.eqb negb]; [|reflexivity].
    rewrite rest_tokens_split_comma. apply filter_ext. intros t.
    now destruct (String.eqb t EmptyString).
Qed.

(** *** Grouping, ordering and the limit *)



Lemma group_by_count_perm (l l' : list string) :
  Permutation l l' -> Permutation (group_by_count l) (group_by_count l').
Proof.
  intros H. unfold group_by_count.
  assert (Hn : Permutation (nodup string_dec l) (nodup string_dec l')).
  { apply NoDup_Permutation; try apply NoDup_nodup.
    intros x. rewrite !nodup_In. split; apply Permutation_in; [|symmetry]; exact H. }
  rewrite (map_ext _ (fun k => (k, Z.of_nat (count_occ string_dec l' k)))).
  - now apply Permutation_map.
  - intros k. do 2 f_equal. revert k.
    now apply (Permutation_count_occ string_dec).
Qed.

Lemma order_limit_perm (g g' rows : list (string * Z)) :
  Permutation g g' -> order_limit g rows -> order_limit g' rows.
Proof.
  intros Hp (ordered & Ho & Hs & Hr). exists ordered.
  split; [now transitivity g|]. now split.
Qed.

(** What get_skill_distribution may return, in terms of the tokens of the
    records. *)
Lemma get_skill_distribution_spec_tokens (db : database) (skills : list string)
  (counts : list Z) :
  get_skill_distribution_spec db (skills, counts) <->
  exists rows,
    order_limit (group_by_count (skill_tokens db)) rows /\
    skills = map fst rows /\ counts = map snd rows.
Proof.
  destruct (split_table_tokens db) as (table & Ht & Hp).
  apply group_by_count_perm in Hp. split.
  - intros (table' & rows & Ht' & Ho & E). exists rows.
    rewrite Ht in Ht'. injection Ht' as <-. injection E as -> ->.
    split; [|now split]. now apply (order_limit_perm _ _ _ Hp).
  - intros (rows & Ho & -> & ->). exists table, rows.
    split; [exact Ht|]. split; [|reflexivity].
    apply (order_limit_perm (group_by_count (skill_tokens db))); [now symmetry|exact Ho].
Qed.





(** *** The ordering that get_skill_distribution picks *)





(** *** C2: the ten most frequent tokens *)






(** *** C10: tokens are taken as they stand *)






End SkillFacts.

(* ===================================================================== *)
(** ** save_feedback and get_feedback_stats                               *)
(* ===================================================================== *)

Module FeedbackFacts.

Import PyDatetime Feedback Spec.

(** [mean] is the arithmetic mean: the sum divided by the number of values. *)
Lemma mean_times_length (col : list Z) :
  col <> [] ->
  (mean col * inject_Z (Z.of_nat (List.length col)) == inject_Z (Zsum col))%Q.
Proof.
  intros Hne. unfold mean. rewrite Qred_correct.
  assert (Hn : List.length col <> O) by (destruct col; [congruence|discriminate]).
  unfold Qeq, Qmult, inject_Z. cbn [Qnum Qden].
  rewrite Pos.mul_1_r, Z.mul_1_r.
  rewrite <- (positive_nat_Z (Pos.of_nat (List.length col))), Nat2Pos.id by exact Hn.
  reflexivity.
Qed.

(** The mean of a single value is that value. *)
Lemma mean_singleton (z : Z) : mean [z] = inject_Z z.
Proof.
  unfold mean, Zsum. cbn [fold_right List.length Pos.of_nat].
  rewrite Z.add_0_r. unfold Qred, inject_Z.
  pose proof (Z.ggcd_gcd z 1) as Hg.
  pose proof (Z.ggcd_correct_divisors z 1) as Hd.
  destruct (Z.ggcd z 1) as [g [aa bb]]. cbn [fst snd] in *.
  rewrite Z.gcd_1_r in Hg. subst g. destruct Hd as [Ha Hb].
  f_equal; [lia|]. replace bb with 1 by lia. reflexivity.
Qed.

(** Without rows the frame is empty and the result is the empty dict. *)
Lemma get_feedback_stats_empty (s : store) :
  rows s = [] -> get_feedback_stats s = Some [].
Proof.
  intros E. unfold get_feedback_stats, read_sql_query, df_empty. now rewrite E.
Qed.

(** With a row the frame is not empty, and the mean of the frame stops at
    its text columns. *)
Lemma get_feedback_stats_raises (s : store) :
  rows s <> [] -> get_feedback_stats s = None.
Proof.
  intros Hne. unfold get_feedback_stats, read_sql_query.
  cbn [df_empty column_length df_mean column_mean].
  rewrite length_map.
  destruct (rows s) as [|r df]; [congruence|reflexivity].
Qed.

(** C6. With no stored record get_feedback_stats returns the empty dict,
    with no error.  With a stored record it returns no mean at all: the
    frame read by SELECT * has the three text columns and the timestamp
    beside the numeric columns, [df.mean()] is called without numeric_only
    and raises TypeError at them.  For stored ratings 5, 3 and 4 the mean
    of the rating column alone is 4, and the call raises. *)
Theorem get_feedback_stats_raises_on_records :
  (forall s, rows s = [] -> get_feedback_stats s = Some []) /\
  (forall s, rows s <> [] -> get_feedback_stats s = None) /\
  map rating (rows ratings_5_3_4) = [5; 3; 4] /\
  get_feedback_stats ratings_5_3_4 = None /\
  column_means ratings_5_3_4 =
    [("id"%string, Some (2 # 1)); ("rating"%string, Some (4 # 1));
     ("usability_score"%string, Some (4 # 1));
     ("feature_satisfaction"%string, Some (10 # 3));
     ("missing_features"%string, None); ("improvement_suggestions"%string, None);
     ("user_experience"%string, None); ("timestamp"%string, None)].
Proof.
  split; [exact get_feedback_stats_empty|].
  split; [exact get_feedback_stats_raises|].
  split; [reflexivity|]. split; [|vm_compute; reflexivity].
  apply get_feedback_stats_raises. discriminate.
Qed.

(** C7. A record saved into a store without records does not come back
    from get_feedback_stats: the call raises TypeError, for every record
    and every clock reading.  Column by column the single record would
    give its own id, rating, usability score and feature satisfaction; the
    text columns and the timestamp, which [df.mean()] is not told to leave
    out, have no mean. *)
Theorem save_then_stats_raises (k : Z) (fd : feedback_data) (now : datetime) :
  let s := save_feedback (mkStore [] k) fd now in
  get_feedback_stats s = None /\
  List.length (rows s) = 1%nat /\
  column_means s =
    [("id"%string, Some (inject_Z (Z.max k 0 + 1)));
     ("rating"%string, Some (inject_Z (fd_rating fd)));
     ("usability_score"%string, Some (inject_Z (fd_usability_score fd)));
     ("feature_satisfaction"%string, Some (inject_Z (fd_feature_satisfaction fd)));
     ("missing_features"%string, None); ("improvement_suggestions"%string, None);
     ("user_experience"%string, None); ("timestamp"%string, None)].
Proof.
  cbv zeta. split; [|split; [reflexivity|]].
  - apply get_feedback_stats_raises. unfold save_feedback. cbn [rows app].
    discriminate.
  - unfold column_means, read_sql_query, save_feedback.
    cbn [rows last_id app map fst snd column_mean id rating usability_score
         feature_satisfaction fold_right].
    now rewrite !mean_singleton.
Qed.

End FeedbackFacts.

(* ===================================================================== *)
(** ** The order of the calendar                                         *)
(* ===================================================================== *)

Module CalendarOrder.

Import PyDatetime Sqlite Dashboard Spec Checks WindowSpec CalendarFacts FormatFacts.

(** A year has 365 days, and one more when it is a leap year. *)
Lemma days_before_year_succ (y : Z) :
  days_before_year (y + 1) = days_before_year y + 365 + leap_day y.
Proof.
  unfold days_before_year, leap_day, is_leap. cbv zeta.
  replace (y + 1 - 1) with y by lia.
  destruct (Z.eqb_spec (y mod 4) 0) as [H4|H4];
    destruct (Z.eqb_spec (y mod 100) 0) as [H100|H100];
    destruct (Z.eqb_spec (y mod 400) 0) as [H400|H400];
    cbn [andb orb negb]; Z.div_mod_to_equations; lia.
Qed.

Lemma days_before_year_mono (y y' : Z) :
  y <= y' -> days_before_year y <= days_before_year y'.
Proof.
  intros H. unfold days_before_year. cbv zeta.
  Z.div_mod_to_equations. lia.
Qed.

Lemma month_cases (m : Z) :
  1 <= m <= 12 ->
  m = 1 \/ m = 2 \/ m = 3 \/ m = 4 \/ m = 5 \/ m = 6 \/
  m = 7 \/ m = 8 \/ m = 9 \/ m = 10 \/ m = 11 \/ m = 12.
Proof. lia. Qed.

(** The days before a month and the days of the month, in all: at most
    the days of the year. *)
Lemma days_before_month_end (y m : Z) :
  1 <= m <= 12 ->
  0 <= days_before_month y m /\
  days_before_month y m + days_in_month y m <= 365 + leap_day y.
Proof.
  intros Hm. unfold days_before_month, days_in_month, leap_day.
  destruct (is_leap y);
    destruct (month_cases m Hm) as [-> | [-> | [-> | [-> | [-> | [-> |
      [-> | [-> | [-> | [-> | [-> | ->]]]]]]]]]]]; cbn; lia.
Qed.

(** A later month of the same year starts after the earlier month ends. *)
Lemma days_before_month_step (y m m' : Z) :
  1 <= m -> m < m' -> m' <= 12 ->
  days_before_month y m + days_in_month y m <= days_before_month y m'.
Proof.
  intros H1 Hlt H12. unfold days_before_month, days_in_month.
  destruct (is_leap y);
    destruct (month_cases m ltac:(lia)) as [-> | [-> | [-> | [-> | [-> | [-> |
      [-> | [-> | [-> | [-> | [-> | ->]]]]]]]]]]];
    destruct (month_cases m' ltac:(lia)) as [-> | [-> | [-> | [-> | [-> | [-> |
      [-> | [-> | [-> | [-> | [-> | ->]]]]]]]]]]]; cbn; lia.
Qed.

(** The first day of a later month comes after the last day of an earlier
    month. *)
Lemma first_of_later_month (y m y' m' : Z) :
  1 <= m <= 12 -> 1 <= m' <= 12 ->
  y < y' \/ (y = y' /\ m < m') ->
  ymd2ord y m 1 + days_in_month y m <= ymd2ord y' m' 1.
Proof.
  intros Hm Hm' Hlt. unfold ymd2ord.
  destruct Hlt as [Hy|[<- Hmm]].
  - pose proof (days_before_month_end y m Hm) as [_ He].
    pose proof (days_before_month_end y' m' Hm') as [H0 _].
    pose proof (days_before_year_succ y) as Hs.
    pose proof (days_before_year_mono (y + 1) y' ltac:(lia)). lia.
  - pose proof (days_before_month_step y m m' ltac:(lia) Hmm ltac:(lia)). lia.
Qed.

(** Dates in the order of the calendar have ordinals in that order. *)
Lemma ymd2ord_lt (y m d y' m' d' : Z) :
  valid_date y m d -> valid_date y' m' d' ->
  lex_compare [y; m; d] [y'; m'; d'] = Lt ->
  ymd2ord y m d < ymd2ord y' m' d'.
Proof.
  intros (_ & Hm & Hd) (_ & Hm' & Hd') H. cbn [lex_compare] in H.
  assert (Hday : forall a b c, ymd2ord a b c = ymd2ord a b 1 + c - 1)
    by (intros; unfold ymd2ord; lia).
  rewrite (Hday y m d), (Hday y' m' d').
  destruct (Z.compare_spec y y') as [<-|Hy|Hy]; [|
    pose proof (first_of_later_month y m y' m' Hm Hm' (or_introl Hy)); lia|discriminate].
  destruct (Z.compare_spec m m') as [<-|Hmm|Hmm]; [|
    pose proof (first_of_later_month y m y m' Hm Hm' (or_intror (conj eq_refl Hmm))); lia|
    discriminate].
  destruct (Z.compare_spec d d'); try discriminate. lia.
Qed.

Lemma lex_compare_antisym (a b : list Z) :
  lex_compare a b = CompOpp (lex_compare b a).
Proof.
  revert b. induction a as [|x a IH]; destruct b as [|y b]; cbn [lex_compare]; auto.
  rewrite (Z.compare_antisym y x). destruct (y ?= x); cbn [CompOpp]; auto.
Qed.

(** The order of the ordinals of two dates is their order in the calendar. *)
Lemma toordinal_compare (a b : datetime) :
  valid a -> valid b ->
  (toordinal a ?= toordinal b) =
  lex_compare [year a; month a; day a] [year b; month b; day b].
Proof.
  intros [Ha _] [Hb _]. unfold toordinal.
  destruct (lex_compare [year a; month a; day a] [year b; month b; day b]) eqn:E.
  - cbn [lex_compare] in E.
    destruct (Z.compare_spec (year a) (year b)); try discriminate.
    destruct (Z.compare_spec (month a) (month b)); try discriminate.
    destruct (Z.compare_spec (day a) (day b)); try discriminate.
    apply Z.compare_eq_iff. congruence.
  - apply Z.compare_lt_iff. now apply ymd2ord_lt.
  - apply Z.compare_gt_iff. apply ymd2ord_lt; auto.
    rewrite lex_compare_antisym, E. reflexivity.
Qed.

End CalendarOrder.

(* ===================================================================== *)
(** ** The windows of get_resume_metrics and the quick stats             *)
(* ===================================================================== *)

Module WindowFacts.

Import PyDatetime Sqlite Dashboard DashboardPages Spec WindowSpec Checks.
Import CalendarFacts FormatFacts MetricsFacts CalendarOrder.

(** *** The order of texts *)

Lemma string_compare_lt_trans (a b c : string) :
  String.compare a b = Lt -> String.compare b c = Lt -> String.compare a c = Lt.
Proof.
  revert b c. induction a as [|x a IH]; intros [|y b] [|z c]; cbn [String.compare];
    try congruence.
  unfold Ascii.compare.
  destruct (N.compare_spec (N_of_ascii x) (N_of_ascii y)) as [E1|L1|G1];
    destruct (N.compare_spec (N_of_ascii y) (N_of_ascii z)) as [E2|L2|G2];
    destruct (N.compare_spec (N_of_ascii x) (N_of_ascii z)) as [E3|L3|G3];
    try congruence; try lia.
  apply IH.
Qed.

(** [s1 <= s2] and [s2 <= c] give [s1 <= c], for texts. *)
Lemma text_ge_trans (s1 s2 c : string) :
  String.ltb s2 s1 = false -> String.ltb c s2 = false -> String.ltb c s1 = false.
Proof.
  unfold String.ltb. intros H12 H2c.
  destruct (String.compare c s1) eqn:E; try reflexivity. exfalso.
  destruct (String.compare s2 s1) eqn:E21; try discriminate.
  - apply String.compare_eq_iff in E21. subst s2. now rewrite E in H2c.
  - assert (E12 : String.compare s1 s2 = Lt)
      by (rewrite String.compare_antisym, E21; reflexivity).
    now rewrite (string_compare_lt_trans c s1 s2 E E12) in H2c.
Qed.

(** A window that starts earlier keeps the rows of a window that starts
    later. *)
Lemma in_window_mono (s1 s2 : string) (rd : resume_data_row) :
  String.ltb s2 s1 = false ->
  in_window s2 rd = true -> in_window s1 rd = true.
Proof.
  unfold in_window. destruct (rd_created_at rd) as [c|]; cbn [text_ge holds]; auto.
  intros H12 H. destruct (String.ltb c s2) eqn:E2; [discriminate|].
  now rewrite (text_ge_trans s1 s2 c H12 E2).
Qed.

Lemma chrono_le_text (d1 d2 : datetime) :
  valid d1 -> valid d2 -> chrono_compare d1 d2 <> Gt ->
  String.ltb (strftime_datetime d2) (strftime_datetime d1) = false.
Proof.
  intros H1 H2 Hc. unfold String.ltb.
  rewrite (compare_strftime_datetime d2 d1 H2 H1).
  unfold chrono_compare in *. rewrite lex_compare_antisym.
  destruct (lex_compare _ _); cbn; congruence.
Qed.

Lemma window_mono_entry db (d1 d2 : datetime) :
  String.ltb (strftime_datetime d2) (strftime_datetime d1) = false ->
  total (period_entry db d2) <= total (period_entry db d1) /\
  high_scoring (period_entry db d2) <= high_scoring (period_entry db d1).
Proof.
  intros H. rewrite !total_counts_window, !high_scoring_counts_window.
  unfold resumes_in_window, high_scoring_in_window.
  split; apply inj_le; apply nodup_length_incl; intros i Hi;
    apply in_map_iff in Hi; destruct Hi as (rd & E & Hin);
    apply filter_In in Hin; destruct Hin as [Hrd Hw];
    apply in_map_iff; exists rd; (split; [exact E|]); apply filter_In;
    (split; [exact Hrd|]).
  - now apply (in_window_mono _ _ rd H).
  - apply andb_prop in Hw. destruct Hw as [Hw Hh].
    now rewrite (in_window_mono _ _ rd H Hw), Hh.
Qed.

(** X1. A window that starts earlier counts at least as much: for two
    starts in the order of time, the later one has the smaller or equal
    total and high-scoring count. *)
Theorem earlier_window_counts_more (db : database) (d1 d2 : datetime) :
  valid d1 -> valid d2 -> chrono_compare d1 d2 <> Gt ->
  total (period_entry db d2) <= total (period_entry db d1) /\
  high_scoring (period_entry db d2) <= high_scoring (period_entry db d1).
Proof.
  intros H1 H2 Hc. apply window_mono_entry. now apply chrono_le_text.
Qed.

Lemma earlier_window_counts_more_witness :
  total (period_entry example_db example_now)
    <= total (period_entry example_db all_time_start) /\
  high_scoring (period_entry example_db example_now)
    <= high_scoring (period_entry example_db all_time_start).
Proof.
  apply (earlier_window_counts_more example_db all_time_start example_now).
  - by_evaluation.
  - by_evaluation.
  - vm_compute. discriminate.
Defined.

Ltac compare_cases :=
  repeat match goal with
         | H : context [?a ?= ?b] |- _ => destruct (Z.compare_spec a b)
         | |- context [?a ?= ?b] => destruct (Z.compare_spec a b)
         end;
  try congruence; try lia.

(** A timestamp whose date is 2000-01-01 or later is not before the start
    of the All Time window. *)
Lemma all_time_start_first (d : datetime) :
  valid d ->
  lex_compare [2000; 1; 1] [year d; month d; day d] <> Gt ->
  chrono_compare all_time_start d <> Gt.
Proof.
  intros [(Hy & Hm & Hd) (Hh & Hmi & Hs & _)] H.
  unfold chrono_compare, all_time_start. cbn [lex_compare year month day hour minute second] in *.
  compare_cases.
Qed.

Lemma ordinal_since_2000 (d : datetime) :
  valid d -> toordinal all_time_start <= toordinal d ->
  lex_compare [2000; 1; 1] [year d; month d; day d] <> Gt.
Proof.
  intros Hv Ho.
  assert (Hva : valid all_time_start) by by_evaluation.
  change (lex_compare [2000; 1; 1] [year d; month d; day d])
    with (lex_compare [year all_time_start; month all_time_start; day all_time_start]
                      [year d; month d; day d]).
  rewrite <- (toordinal_compare all_time_start d Hva Hv).
  now apply Z.compare_le_iff.
Qed.

(** X2. From 2000-01-07 on, the All Time window holds the other three: its
    total and its high-scoring count are not below those of Today, This
    Week and This Month. *)
Theorem all_time_counts_most (db : database) (now : datetime) :
  valid now -> toordinal all_time_start + 6 <= toordinal now ->
  exists mt mw mm ma,
    get_resume_metrics db now =
      Some [("Today"%string, mt); ("This Week"%string, mw);
            ("This Month"%string, mm); ("All Time"%string, ma)] /\
    (total mt <= total ma /\ total mw <= total ma /\ total mm <= total ma) /\
    (high_scoring mt <= high_scoring ma /\ high_scoring mw <= high_scoring ma /\
     high_scoring mm <= high_scoring ma).
Proof.
  intros Hv H6.
  destruct (start_of_week_spec now Hv) as (sow & Hs & Hvs & _ & Ho & _).
  destruct (window_starts_valid now sow Hv Hs) as (Vd & _ & Vm & Va).
  pose proof (weekday_range now) as Hw.
  assert (Ld : chrono_compare all_time_start (start_of_day now) <> Gt).
  { apply all_time_start_first; [exact Vd|].
    apply (ordinal_since_2000 now Hv). lia. }
  assert (Lw : chrono_compare all_time_start sow <> Gt).
  { apply all_time_start_first; [exact Hvs|]. apply ordinal_since_2000; [exact Hvs|lia]. }
  assert (Lm : chrono_compare all_time_start (start_of_month now) <> Gt).
  { apply all_time_start_first; [exact Vm|].
    pose proof (ordinal_since_2000 now Hv ltac:(lia)) as Hn.
    destruct Hv as [(Hy & Hmo & Hd) _].
    unfold start_of_month, replace_day_1.
    cbn [lex_compare year month day] in *. compare_cases. }
  pose proof (window_mono_entry db all_time_start (start_of_day now)
                (chrono_le_text _ _ Va Vd Ld)) as [T1 G1].
  pose proof (window_mono_entry db all_time_start sow
                (chrono_le_text _ _ Va Hvs Lw)) as [T2 G2].
  pose proof (window_mono_entry db all_time_start (start_of_month now)
                (chrono_le_text _ _ Va Vm Lm)) as [T3 G3].
  do 4 eexists. split; [apply get_resume_metrics_unfold; exact Hs|].
  repeat split; assumption.
Qed.

Lemma all_time_counts_most_witness :
  exists mt mw mm ma,
    get_resume_metrics example_db example_now =
      Some [("Today"%string, mt); ("This Week"%string, mw);
            ("This Month"%string, mm); ("All Time"%string, ma)] /\
    (total mt <= total ma /\ total mw <= total ma /\ total mm <= total ma) /\
    (high_scoring mt <= high_scoring ma /\ high_scoring mw <= high_scoring ma /\
     high_scoring mm <= high_scoring ma).
Proof.
  apply (all_time_counts_most example_db example_now).
  - by_evaluation.
  - vm_compute. discriminate.
Defined.

(** X3. Today against This Week and This Month.  When [now] is not a Monday
    the resumes of Today are among those of This Week, and when it is not
    the first of the month they are among those of This Month.  On a Monday
    and on the first of the month it is the other way round: the week and
    the month start at the time of day of [now], after the start of the
    day. *)
Theorem today_against_week_and_month (db : database) (now : datetime) :
  valid now ->
  exists mt mw mm ma,
    get_resume_metrics db now =
      Some [("Today"%string, mt); ("This Week"%string, mw);
            ("This Month"%string, mm); ("All Time"%string, ma)] /\
    (weekday now <> 0 -> total mt <= total mw /\ high_scoring mt <= high_scoring mw) /\
    (weekday now = 0 -> total mw <= total mt /\ high_scoring mw <= high_scoring mt) /\
    (day now <> 1 -> total mt <= total mm /\ high_scoring mt <= high_scoring mm) /\
    (day now = 1 -> total mm <= total mt /\ high_scoring mm <= high_scoring mt).
Proof.
  intros Hv.
  destruct (start_of_week_spec now Hv) as (sow & Hs & Hvs & _ & Ho & Hh & Hmi & Hse & _).
  destruct (window_starts_valid now sow Hv Hs) as (Vd & _ & Vm & _).
  pose proof (weekday_range now) as Hw.
  pose proof (toordinal_compare sow now Hvs Hv) as Hcmp.
  pose proof Hv as [(Hy & Hmo & Hd) (Hh0 & Hmi0 & Hs0 & _)].
  do 4 eexists. split; [apply get_resume_metrics_unfold; exact Hs|].
  split; [|split; [|split]].
  - intros Hnz. apply window_mono_entry, chrono_le_text; auto.
    assert (Hlt : lex_compare [year sow; month sow; day sow]
                              [year now; month now; day now] = Lt)
      by (rewrite <- Hcmp; apply Z.compare_lt_iff; lia).
    unfold chrono_compare, start_of_day, replace_time_zero.
    cbn [lex_compare year month day hour minute second] in *. compare_cases.
  - intros Hz. apply window_mono_entry, chrono_le_text; auto.
    assert (Heq : lex_compare [year sow; month sow; day sow]
                              [year now; month now; day now] = Eq)
      by (rewrite <- Hcmp; apply Z.compare_eq_iff; lia).
    unfold chrono_compare, start_of_day, replace_time_zero.
    cbn [lex_compare year month day hour minute second] in *. compare_cases.
  - intros Hd1. apply window_mono_entry, chrono_le_text; auto.
    unfold chrono_compare, start_of_day, start_of_month, replace_time_zero, replace_day_1.
    cbn [lex_compare year month day hour minute second]. compare_cases.
  - intros Hd1. apply window_mono_entry, chrono_le_text; auto.
    unfold chrono_compare, start_of_day, start_of_month, replace_time_zero, replace_day_1.
    cbn [lex_compare year month day hour minute second]. compare_cases.
Qed.

Lemma today_against_week_and_month_witness :
  (exists mt mw mm ma,
      get_resume_metrics example_db example_now =
        Some [("Today"%string, mt); ("This Week"%string, mw);
              ("This Month"%string, mm); ("All Time"%string, ma)] /\
      (weekday example_now <> 0 ->
       total mt <= total mw /\ high_scoring mt <= high_scoring mw) /\
      (weekday example_now = 0 ->
       total mw <= total mt /\ high_scoring mw <= high_scoring mt) /\
      (day example_now <> 1 ->
       total mt <= total mm /\ high_scoring mt <= high_scoring mm) /\
      (day example_now = 1 ->
       total mm <= total mt /\ high_scoring mm <= high_scoring mt)) /\
  (exists mt mw mm ma,
      get_resume_metrics example_db monday_the_first =
        Some [("Today"%string, mt); ("This Week"%string, mw);
              ("This Month"%string, mm); ("All Time"%string, ma)] /\
      (weekday monday_the_first <> 0 ->
       total mt <= total mw /\ high_scoring mt <= high_scoring mw) /\
      (weekday monday_the_first = 0 ->
       total mw <= total mt /\ high_scoring mw <= high_scoring mt) /\
      (day monday_the_first <> 1 ->
       total mt <= total mm /\ high_scoring mt <= high_scoring mm) /\
      (day monday_the_first = 1 ->
       total mm <= total mt /\ high_scoring mm <= high_scoring mt)).
Proof.
  split.
  - apply (today_against_week_and_month example_db example_now). by_evaluation.
  - apply (today_against_week_and_month example_db monday_the_first). by_evaluation.
Defined.

(** X4. [start_of_week] for every clock reading: it is computed without
    error, falls on a Monday, lies no more than six days before [now], and
    has the time of day of [now], so that it is midnight only when [now]
    is. *)
Theorem start_of_week_is_monday_at_time_of_now (now : datetime) :
  valid now ->
  exists sow,
    start_of_week now = Some sow /\ valid sow /\ weekday sow = 0 /\
    0 <= toordinal now - toordinal sow <= 6 /\
    toordinal now - toordinal sow = weekday now /\
    (hour sow, minute sow, second sow, microsecond sow) =
    (hour now, minute now, second now, microsecond now).
Proof.
  intros Hv.
  destruct (start_of_week_spec now Hv) as (sow & Hs & Hvs & Hmon & Ho & Hh & Hmi & Hse & Hus).
  pose proof (weekday_range now) as Hw.
  exists sow. repeat (split; [assumption || lia|]). congruence.
Qed.

Lemma start_of_week_is_monday_at_time_of_now_witness :
  exists sow,
    start_of_week example_now = Some sow /\ valid sow /\ weekday sow = 0 /\
    0 <= toordinal example_now - toordinal sow <= 6 /\
    toordinal example_now - toordinal sow = weekday example_now /\
    (hour sow, minute sow, second sow, microsecond sow) =
    (hour example_now, minute example_now, second example_now,
     microsecond example_now).
Proof.
  apply (start_of_week_is_monday_at_time_of_now example_now).
  by_evaluation.
Defined.

(** *** Resumes without scores *)

Lemma avg_all_null (l : list (nullable Q)) :
  (forall x, In x l -> x = None) -> avg l = None.
Proof.
  intros H. unfold avg.
  assert (E : non_null l = []).
  { induction l as [|[q|] l IH]; cbn [non_null].
    - reflexivity.
    - specialize (H (Some q) (or_introl eq_refl)). discriminate.
    - apply IH. intros x Hx. apply H. now right. }
  now rewrite E.
Qed.

(** X5. Missing scores give zeros, not errors.  When no analysis row that
    joins a resume of the window has an ats_score, the average ATS score
    and the high-scoring count of the window are 0, and likewise the
    average keyword score when no keyword_match_score is stored, while the
    total still counts the resumes of the window; this covers an empty
    resume_analysis table. *)
Theorem missing_scores_give_zero (db : database) (start_date : datetime) :
  ((forall rd ra, In rd (resume_data db) -> In ra (resume_analysis db) ->
      in_window (strftime_datetime start_date) rd = true ->
      join_on rd ra = true -> ra_ats_score ra = None) ->
   ats_score (period_entry db start_date) = 0%Q /\
   high_scoring (period_entry db start_date) = 0) /\
  ((forall rd ra, In rd (resume_data db) -> In ra (resume_analysis db) ->
      in_window (strftime_datetime start_date) rd = true ->
      join_on rd ra = true -> ra_keyword_match_score ra = None) ->
   keyword_score (period_entry db start_date) = 0%Q) /\
  (resume_analysis db = [] ->
   period_entry db start_date =
     mkMetrics
       (Z.of_nat (List.length (resumes_in_window db (strftime_datetime start_date))))
       0 0 0).
Proof.
  assert (Hcol : forall (col : resume_analysis_row -> nullable Q),
    (forall rd ra, In rd (resume_data db) -> In ra (resume_analysis db) ->
       in_window (strftime_datetime start_date) rd = true ->
       join_on rd ra = true -> col ra = None) ->
    forall x,
      In x (map (ra_col col)
              (filter (fun j => in_window (strftime_datetime start_date) (fst j))
                      (left_join db))) -> x = None).
  { intros col H x Hx. apply in_map_iff in Hx. destruct Hx as ([rd o] & <- & Hin).
    apply filter_In in Hin. destruct Hin as [Hin Hw]. cbn [fst] in Hw.
    unfold ra_col. cbn [snd]. destruct o as [ra|]; [|reflexivity].
    apply in_left_join_some in Hin. destruct Hin as (Hrd & Hra & Hon).
    now apply (H rd ra). }
  assert (Hats : (forall rd ra, In rd (resume_data db) -> In ra (resume_analysis db) ->
      in_window (strftime_datetime start_date) rd = true ->
      join_on rd ra = true -> ra_ats_score ra = None) ->
   ats_score (period_entry db start_date) = 0%Q /\
   high_scoring (period_entry db start_date) = 0).
  { intros H. rewrite period_entry_fields. cbv zeta. cbn [ats_score high_scoring]. split.
    - now rewrite (avg_all_null _ (Hcol ra_ats_score H)).
    - unfold count_distinct.
      assert (E : non_null (map case_high_scoring
                 (filter (fun j => in_window (strftime_datetime start_date) (fst j))
                         (left_join db))) = []).
      { destruct (non_null _) as [|i l] eqn:En; [reflexivity|]. exfalso.
        assert (Hi : In i (i :: l)) by now left. rewrite <- En in Hi.
        apply in_non_null, in_map_iff in Hi. destruct Hi as (j & Ej & Hj).
        unfold case_high_scoring in Ej.
        rewrite (Hcol ra_ats_score H (ra_col ra_ats_score j)) in Ej; [discriminate|].
        apply in_map_iff. now exists j. }
      now rewrite E. }
  assert (Hkw : (forall rd ra, In rd (resume_data db) -> In ra (resume_analysis db) ->
      in_window (strftime_datetime start_date) rd = true ->
      join_on rd ra = true -> ra_keyword_match_score ra = None) ->
   keyword_score (period_entry db start_date) = 0%Q).
  { intros H. rewrite period_entry_fields. cbv zeta. cbn [keyword_score].
    now rewrite (avg_all_null _ (Hcol ra_keyword_match_score H)). }
  split; [exact Hats|]. split; [exact Hkw|].
  intros He.
  assert (Hno : forall (col : resume_analysis_row -> nullable Q) rd ra,
             In rd (resume_data db) -> In ra (resume_analysis db) ->
             in_window (strftime_datetime start_date) rd = true ->
             join_on rd ra = true -> col ra = None)
    by (intros col rd ra _ Hra; rewrite He in Hra; destruct Hra).
  destruct (Hats (Hno ra_ats_score)) as [Ea Eh].
  pose proof (Hkw (Hno ra_keyword_match_score)) as Ek.
  pose proof (total_counts_window db start_date) as Et.
  destruct (period_entry db start_date) as [t a k h]. cbn in *. now subst.
Qed.

Lemma missing_scores_give_zero_witness :
  period_entry (mkDatabase (resume_data example_db) []) all_time_start =
  mkMetrics
    (Z.of_nat (List.length (resumes_in_window (mkDatabase (resume_data example_db) [])
                              (strftime_datetime all_time_start))))
    0 0 0.
Proof.
  destruct (missing_scores_give_zero (mkDatabase (resume_data example_db) [])
              all_time_start) as (_ & _ & H).
  apply H. reflexivity.
Defined.

(** *** The quick stats of render_dashboard *)

(** X6. The four quick-stat cards of render_dashboard are computed without
    error for every clock reading and show, in the order Total Resumes,
    Avg ATS Score, High Scoring, Avg Keyword Score, the figures of the
    window that starts on 2000-01-01; they do not depend on the clock
    reading. *)
Theorem render_dashboard_cards_all_time (db : database) (now : datetime) :
  valid now ->
  render_dashboard_cards db now =
    Some [("Total Resumes"%string, IntValue (total (period_entry db all_time_start)));
          ("Avg ATS Score"%string, NumValue (ats_score (period_entry db all_time_start)));
          ("High Scoring"%string, IntValue (high_scoring (period_entry db all_time_start)));
          ("Avg Keyword Score"%string,
           NumValue (keyword_score (period_entry db all_time_start)))] /\
  (forall now', valid now' ->
     render_dashboard_cards db now' = render_dashboard_cards db now).
Proof.
  assert (H : forall t, valid t ->
    render_dashboard_cards db t =
    Some [("Total Resumes"%string, IntValue (total (period_entry db all_time_start)));
          ("Avg ATS Score"%string, NumValue (ats_score (period_entry db all_time_start)));
          ("High Scoring"%string, IntValue (high_scoring (period_entry db all_time_start)));
          ("Avg Keyword Score"%string,
           NumValue (keyword_score (period_entry db all_time_start)))]).
  { intros t Ht. destruct (start_of_week_spec t Ht) as (sow & Hs & _).
    unfold render_dashboard_cards.
    rewrite (get_resume_metrics_unfold db t sow Hs). reflexivity. }
  intros Hv. split; [now apply H|].
  intros now' Hv'. now rewrite (H now Hv), (H now' Hv').
Qed.

Lemma render_dashboard_cards_all_time_witness :
  render_dashboard_cards example_db example_now =
    Some [("Total Resumes"%string, IntValue 2);
          ("Avg ATS Score"%string, NumValue (75 # 1));
          ("High Scoring"%string, IntValue 1);
          ("Avg Keyword Score"%string, NumValue (60 # 1))].
Proof.
  destruct (render_dashboard_cards_all_time example_db example_now) as [H _].
  - by_evaluation.
  - rewrite H. reflexivity.
Defined.

End WindowFacts.

(* ===================================================================== *)
(** ** The seven days of get_weekly_trends                               *)
(* ===================================================================== *)

Module TrendOrder.

Import PyDatetime Sqlite Dashboard Spec Checks.
Import CalendarFacts FormatFacts MetricsFacts TrendFacts CalendarOrder.

(** The seven days of get_weekly_trends: valid dates with the ordinals
    [today - 6 .. today]. *)
Lemma weekly_days (db : database) (now : datetime) :
  valid now -> 6 < toordinal now ->
  exists days : list datetime,
    get_weekly_trends db now =
      Some (map (fun d => py_suffix 3 (strftime_date d)) days,
            map (records_created_on db) days) /\
    Forall valid days /\
    map toordinal days =
      map (fun x => toordinal now - x) [6; 5; 4; 3; 2; 1; 0].
Proof.
  intros Hv H6.
  destruct (days_back now 6 Hv H6 ltac:(lia)) as (d6 & E6 & V6 & O6).
  destruct (days_back now 5 Hv H6 ltac:(lia)) as (d5 & E5 & V5 & O5).
  destruct (days_back now 4 Hv H6 ltac:(lia)) as (d4 & E4 & V4 & O4).
  destruct (days_back now 3 Hv H6 ltac:(lia)) as (d3 & E3 & V3 & O3).
  destruct (days_back now 2 Hv H6 ltac:(lia)) as (d2 & E2 & V2 & O2).
  destruct (days_back now 1 Hv H6 ltac:(lia)) as (d1 & E1 & V1 & O1).
  destruct (days_back now 0 Hv H6 ltac:(lia)) as (d0 & E0 & V0 & O0).
  exists [d6; d5; d4; d3; d2; d1; d0]. split; [|split].
  - unfold get_weekly_trends. cbn [map_raise].
    rewrite E6, E5, E4, E3, E2, E1, E0. cbn [option_map map].
    now rewrite !submissions_on_day.
  - repeat (apply Forall_cons; [assumption|]). apply Forall_nil.
  - cbn [map]. now rewrite O6, O5, O4, O3, O2, O1, O0.
Qed.

(** Two dates less than four weeks apart differ in the day of the month. *)
Lemma nearby_days_differ (a b : datetime) :
  valid a -> valid b ->
  0 < toordinal b - toordinal a < 28 -> day a <> day b.
Proof.
  intros Va Vb Hd E.
  pose proof (toordinal_compare a b Va Vb) as Hc.
  assert (Hlt : (toordinal a ?= toordinal b) = Lt) by (apply Z.compare_lt_iff; lia).
  rewrite Hlt in Hc. symmetry in Hc. cbn [lex_compare] in Hc.
  destruct Va as [(_ & Hma & Hda) _], Vb as [(_ & Hmb & Hdb) _].
  assert (Hym : year a < year b \/ (year a = year b /\ month a < month b)).
  { destruct (Z.compare_spec (year a) (year b)); try discriminate; [|lia].
    destruct (Z.compare_spec (month a) (month b)); try discriminate; [|lia].
    rewrite E, Z.compare_refl in Hc. discriminate. }
  pose proof (first_of_later_month _ _ _ _ Hma Hmb Hym) as Hf.
  pose proof (days_in_month_ge_28 (year a) (month a) Hma).
  unfold toordinal, ymd2ord in *. lia.
Qed.

Lemma pad2_inj (a b : Z) :
  0 <= a < 100 -> 0 <= b < 100 -> pad2 a = pad2 b -> a = b.
Proof.
  intros Ha Hb E. unfold pad2 in E. injection E as E1 E2.
  pose proof (two_digits_pad2 a 0 99 Ha ltac:(lia)) as Pa.
  pose proof (two_digits_pad2 b 0 99 Hb ltac:(lia)) as Pb.
  rewrite E1, E2 in Pa. congruence.
Qed.

(** Days with different ordinals have different date texts. *)
Lemma strftime_date_differs (a b : datetime) :
  valid a -> valid b -> toordinal a <> toordinal b ->
  strftime_date a <> strftime_date b.
Proof.
  intros Va Vb Hne E. apply Hne.
  pose proof (strftime_date_inj a b Va Vb E) as H. injection H as Hy Hm Hd.
  unfold toordinal. now rewrite Hy, Hm, Hd.
Qed.

(** *** Counting rows under conditions that exclude one another *)

Lemma exclusive_counts {A : Type} (conds : list (A -> bool)) (l : list A) :
  (forall x, In x l ->
     (List.length (filter (fun c => c x) conds) <= 1)%nat) ->
  fold_right Z.add 0 (map (fun c => Z.of_nat (List.length (filter c l))) conds)
  <= Z.of_nat (List.length l).
Proof.
  induction l as [|x l IH]; intros H.
  - clear H. induction conds as [|c conds IHc];
      cbn [map fold_right filter List.length Z.of_nat] in *; lia.
  - assert (Hstep :
      fold_right Z.add 0 (map (fun c => Z.of_nat (List.length (filter c (x :: l)))) conds)
      = fold_right Z.add 0 (map (fun c => Z.of_nat (List.length (filter c l))) conds)
        + Z.of_nat (List.length (filter (fun c => c x) conds))).
    { clear. induction conds as [|c conds IHc]; [reflexivity|].
      cbn [map fold_right]. rewrite IHc. cbn [filter].
      destruct (c x); cbn [List.length]; lia. }
    rewrite Hstep.
    specialize (IH (fun y Hy => H y (or_intror Hy))).
    specialize (H x (or_introl eq_refl)). cbn [List.length]. lia.
Qed.

Lemma created_on_once (days : list datetime) (rd : resume_data_row) :
  NoDup (map strftime_date days) ->
  (List.length (filter (fun c => c rd) (map created_on days)) <= 1)%nat.
Proof.
  induction days as [|d days IH]; cbn [map filter]; intros Hnd; [cbn; lia|].
  apply NoDup_cons_iff in Hnd. destruct Hnd as [Hfresh Hnd].
  destruct (created_on d rd) eqn:Ed; [|now apply IH].
  assert (E : filter (fun c => c rd) (map created_on days) = []).
  { destruct (filter _ (map created_on days)) as [|c cs] eqn:Ef; [reflexivity|].
    exfalso. assert (Hc : In c (c :: cs)) by now left.
    rewrite <- Ef in Hc. apply filter_In in Hc. destruct Hc as [Hc Hcr].
    apply in_map_iff in Hc. destruct Hc as (d' & <- & Hd').
    apply Hfresh. apply in_map_iff. exists d'. split; [|exact Hd'].
    unfold created_on in *.
    destruct (date (rd_created_at rd)) as [s|]; [|discriminate].
    apply String.eqb_eq in Ed, Hcr. congruence. }
  rewrite E. cbn. lia.
Qed.

Lemma NoDup_map_ordinals (now : datetime) :
  NoDup (map (fun x => toordinal now - x) [6; 5; 4; 3; 2; 1; 0]).
Proof.
  cbn [map]. repeat (apply NoDup_cons; [cbn [In]; lia|]). constructor.
Qed.

Lemma weekly_days_texts (now : datetime) (days : list datetime) :
  Forall valid days ->
  map toordinal days = map (fun x => toordinal now - x) [6; 5; 4; 3; 2; 1; 0] ->
  NoDup (map strftime_date days) /\
  NoDup (map (fun d => py_suffix 3 (strftime_date d)) days).
Proof.
  intros Hv Ho.
  destruct days as [|d6 [|d5 [|d4 [|d3 [|d2 [|d1 [|d0 [|]]]]]]]]; try discriminate Ho.
  cbn [map] in Ho. injection Ho as O6 O5 O4 O3 O2 O1 O0.
  repeat match goal with H : Forall _ (_ :: _) |- _ => inversion H; clear H; subst end.
  split.
  - cbn [map].
    repeat (apply NoDup_cons;
            [cbn [In]; intros Hin;
             repeat (destruct Hin as [Hin|Hin];
                     [symmetry in Hin; revert Hin;
                      apply strftime_date_differs; auto; lia|]);
             exact Hin|]).
    constructor.
  - cbn [map]. rewrite !py_suffix_strftime_date.
    assert (Hday : forall a b, valid a -> valid b ->
              0 < toordinal b - toordinal a < 28 ->
              ("-" ++ pad2 (day a))%string <> ("-" ++ pad2 (day b))%string).
    { intros a b Va Vb Hd E. apply (f_equal (skip 1)) in E. cbn [append skip] in E.
      apply (nearby_days_differ a b Va Vb Hd).
      pose proof (days_in_month_le_31 (year a) (month a)).
      pose proof (days_in_month_le_31 (year b) (month b)).
      destruct Va as [(_ & _ & Hda) _], Vb as [(_ & _ & Hdb) _].
      apply pad2_inj; auto; lia. }
    repeat (apply NoDup_cons;
            [cbn [In]; intros Hin;
             repeat (destruct Hin as [Hin|Hin];
                     [symmetry in Hin; revert Hin; apply Hday; auto; lia|]);
             exact Hin|]).
    constructor.
Qed.

(** X7. get_weekly_trends never counts a record twice: the seven counts
    add up to no more than the number of rows of resume_data, since the
    seven days are different days. *)
Theorem weekly_trends_count_each_row_once (db : database) (now : datetime)
  (labels : list string) (counts : list Z) :
  valid now -> 6 < toordinal now ->
  get_weekly_trends db now = Some (labels, counts) ->
  fold_right Z.add 0 counts <= count_rows (resume_data db).
Proof.
  intros Hv H6 E.
  destruct (weekly_days db now Hv H6) as (days & Hg & Vd & Ho).
  rewrite Hg in E. injection E as <- <-.
  destruct (weekly_days_texts now days Vd Ho) as [Hnd _].
  unfold count_rows, records_created_on.
  rewrite <- (map_map created_on (fun c => Z.of_nat (List.length (filter c (resume_data db))))).
  apply exclusive_counts. intros rd _. now apply created_on_once.
Qed.

Lemma weekly_trends_count_each_row_once_witness :
  fold_right Z.add 0 [0; 0; 0; 0; 1; 0; 1] <= count_rows (resume_data example_db).
Proof.
  apply (weekly_trends_count_each_row_once example_db example_now
           ["-28"; "-29"; "-30"; "-31"; "-01"; "-02"; "-03"]%string).
  - by_evaluation.
  - vm_compute. reflexivity.
  - vm_compute. reflexivity.
Defined.

(** X8. The seven labels of get_weekly_trends are pairwise different: seven
    days in a row never repeat a day of the month. *)
Theorem weekly_trends_labels_distinct (db : database) (now : datetime)
  (labels : list string) (counts : list Z) :
  valid now -> 6 < toordinal now ->
  get_weekly_trends db now = Some (labels, counts) ->
  NoDup labels.
Proof.
  intros Hv H6 E.
  destruct (weekly_days db now Hv H6) as (days & Hg & Vd & Ho).
  rewrite Hg in E. injection E as <- <-.
  now destruct (weekly_days_texts now days Vd Ho) as [_ Hnd].
Qed.

Lemma weekly_trends_labels_distinct_witness :
  NoDup ["-28"; "-29"; "-30"; "-31"; "-01"; "-02"; "-03"]%string.
Proof.
  apply (weekly_trends_labels_distinct example_db example_now
           ["-28"; "-29"; "-30"; "-31"; "-01"; "-02"; "-03"]%string
           [0; 0; 0; 0; 1; 0; 1]).
  - by_evaluation.
  - vm_compute. reflexivity.
  - vm_compute. reflexivity.
Defined.

End TrendOrder.

(* ===================================================================== *)
(** ** The counts of get_skill_distribution                              *)
(* ===================================================================== *)

Module SkillOrder.

Import Sqlite Dashboard Spec SkillSpec Checks SkillFacts.

(** *** The result does not depend on the order of the records *)

Lemma skill_tokens_of_fields (db : database) :
  skill_tokens db = flat_map record_tokens (map rd_skills (resume_data db)).
Proof.
  unfold skill_tokens. rewrite !flat_map_concat_map, map_map. reflexivity.
Qed.

(** X9. get_skill_distribution reads the skills fields only, as a bag: two
    databases whose skills columns hold the same fields, in any order of
    the rows and whatever the other columns and tables hold, have the same
    possible results. *)
Theorem skill_distribution_ignores_row_order (db db' : database)
  (result : list string * list Z) :
  Permutation (map rd_skills (resume_data db)) (map rd_skills (resume_data db')) ->
  (get_skill_distribution_spec db result <-> get_skill_distribution_spec db' result).
Proof.
  intros Hp. destruct result as [skills counts].
  assert (Ht : Permutation (skill_tokens db) (skill_tokens db')).
  { rewrite !skill_tokens_of_fields. now apply Permutation_flat_map. }
  apply group_by_count_perm in Ht.
  rewrite !get_skill_distribution_spec_tokens.
  split; intros (rows & Ho & E); exists rows; (split; [|exact E]).
  - exact (order_limit_perm _ _ _ Ht Ho).
  - exact (order_limit_perm _ _ _ (Permutation_sym Ht) Ho).
Qed.

Lemma skill_distribution_ignores_row_order_witness :
  get_skill_distribution_spec example_db (["Python"; "SQL"; "Go"]%string, [2; 2; 1]) <->
  get_skill_distribution_spec python_sql_go (["Python"; "SQL"; "Go"]%string, [2; 2; 1]).
Proof.
  apply (skill_distribution_ignores_row_order example_db python_sql_go).
  reflexivity.
Defined.

(** *** When nothing is returned *)






(** *** The counts add up to the tokens *)







End SkillOrder.

(* ===================================================================== *)
(** ** Visits of the feedback page                                       *)
(* ===================================================================== *)

Module FeedbackSession.

Import PyDatetime Feedback FeedbackPages Spec FeedbackSpec FeedbackFacts.

(** *** Ids *)

Lemma max_ids_bound (l : list feedback_row) (k : Z) :
  (forall r, In r l -> id r <= k) -> 0 <= k ->
  Z.max k (fold_right Z.max 0 (map id l)) = k.
Proof.
  intros H Hk. induction l as [|r l IH]; cbn [map fold_right]; [lia|].
  pose proof (H r (or_introl eq_refl)).
  specialize (IH (fun x Hx => H x (or_intror Hx))). lia.
Qed.

Lemma session_rows (views : list (form_input * datetime)) :
  forall s, ids_below_last s -> 0 <= last_id s ->
  exists s',
    feedback_session views (Some s) = Some s' /\
    rows s' = rows s ++ numbered_rows (last_id s) (filter (fun v => submit (fst v)) views) /\
    last_id s' =
      last_id s + Z.of_nat (List.length (filter (fun v => submit (fst v)) views)).
Proof.
  induction views as [|[inp now] views IH]; intros s Hok H0.
  - exists s. cbn. rewrite app_nil_r. repeat split. lia.
  - cbn [feedback_session fold_left fst snd filter].
    unfold render_feedback_page at 2. cbn [setup_database].
    unfold render_feedback_form. destruct (submit inp) eqn:Es.
    + set (s1 := save_feedback s _ now).
      assert (Hl : last_id s1 = last_id s + 1).
      { unfold s1, save_feedback. cbn [last_id]. now rewrite max_ids_bound. }
      assert (Hr : rows s1 = rows s ++ numbered_rows (last_id s) [(inp, now)]).
      { unfold s1, save_feedback. cbn [rows numbered_rows]. now rewrite max_ids_bound. }
      destruct (IH s1) as (s' & Hs' & Hrows & Hlast).
      * intros r Hin. rewrite Hr in Hin. apply in_app_or in Hin.
        destruct Hin as [Hin|Hin]; [specialize (Hok r Hin); lia|].
        cbn [numbered_rows In] in Hin. destruct Hin as [<- | []]. cbn [id]. lia.
      * lia.
      * exists s'. split; [exact Hs'|]. split.
        -- rewrite Hrows, Hr, Hl, <- app_assoc. reflexivity.
        -- rewrite Hlast, Hl. cbn [List.length]. lia.
    + destruct (IH s Hok H0) as (s' & Hs' & Hrows & Hlast).
      exists s'. repeat split; assumption.
Qed.

(** X12. Through any number of visits of the feedback page, starting
    without a database, the table holds exactly the forms that were
    submitted, in the order of submission and with the ids 1, 2, 3, ...;
    a visit without a press of the button, and the CREATE TABLE IF NOT
    EXISTS of every visit, leave the table as it is. *)
Theorem feedback_session_keeps_submissions (views : list (form_input * datetime)) :
  views <> [] ->
  exists s,
    feedback_session views None = Some s /\
    rows s = numbered_rows 0 (filter (fun v => submit (fst v)) views) /\
    last_id s = Z.of_nat (List.length (rows s)) /\
    map id (rows s) = map Z.of_nat (seq 1 (List.length (rows s))).
Proof.
  intros Hne. destruct views as [|v views]; [congruence|].
  assert (E : feedback_session (v :: views) None
              = feedback_session (v :: views) (Some empty_store)) by reflexivity.
  destruct (session_rows (v :: views) empty_store) as (s & Hs & Hrows & Hlast).
  - intros r [].
  - cbn. lia.
  - exists s. rewrite E. split; [exact Hs|].
    cbn [rows last_id empty_store app] in Hrows, Hlast.
    set (subs := filter (fun v0 => submit (fst v0)) (v :: views)) in *.
    assert (Hlen : forall k l, List.length (numbered_rows k l) = List.length l).
    { intros k l. revert k. induction l as [|[i n] l IHl]; intros k; cbn; auto. }
    assert (Hids : forall l k,
               map id (numbered_rows k l)
               = map (fun i => k + Z.of_nat i) (seq 1 (List.length l))).
    { induction l as [|[i n] l IHl]; intros k; [reflexivity|].
      cbn [numbered_rows map List.length seq id]. f_equal; try lia.
      rewrite IHl, <- (seq_shift (List.length l) 1), map_map.
      apply map_ext. intros j. lia. }
    split; [exact Hrows|]. rewrite Hrows, Hlen. split; [lia|].
    rewrite Hids. apply map_ext. intros j. lia.
Qed.

Lemma feedback_session_keeps_submissions_witness :
  exists s,
    feedback_session two_visits None = Some s /\
    rows s = numbered_rows 0 (filter (fun v => submit (fst v)) two_visits) /\
    last_id s = Z.of_nat (List.length (rows s)) /\
    map id (rows s) = map Z.of_nat (seq 1 (List.length (rows s))).
Proof.
  apply (feedback_session_keeps_submissions two_visits). discriminate.
Defined.

(** *** The overview *)

(** X14. After any visits of the feedback page, render_feedback_stats
    shows "No feedback yet." exactly when no form was submitted.  Once a
    form was submitted it shows no overview: get_feedback_stats raises
    TypeError and render_feedback_stats with it, so the three means are
    never shown. *)
Theorem feedback_overview_raises_after_submission
  (views : list (form_input * datetime)) (s : store) :
  feedback_session views None = Some s ->
  (render_feedback_stats s = Some NoFeedbackYet <->
   forall v, In v views -> submit (fst v) = false) /\
  (render_feedback_stats s = None <->
   exists v, In v views /\ submit (fst v) = true) /\
  (forall r u f, render_feedback_stats s <> Some (Overview r u f)).
Proof.
  intros Hs.
  destruct views as [|v0 views0]; [discriminate Hs|].
  destruct (session_rows (v0 :: views0) empty_store) as (s' & Hs' & Hrows & _);
    [intros r []|cbn; lia|].
  change (feedback_session (v0 :: views0) None)
    with (feedback_session (v0 :: views0) (Some empty_store)) in Hs.
  rewrite Hs' in Hs. injection Hs as <-.
  cbn [rows last_id empty_store app] in Hrows.
  set (views := v0 :: views0) in *.
  set (subs := filter (fun v => submit (fst v)) views) in *.
  assert (Hnone : subs = [] <-> forall v, In v views -> submit (fst v) = false).
  { split.
    - intros E v Hv. destruct (submit (fst v)) eqn:Es; [|reflexivity].
      assert (Hin : In v subs) by (apply filter_In; now split).
      rewrite E in Hin. destruct Hin.
    - intros H. destruct subs as [|v l] eqn:Es; [reflexivity|].
      assert (Hin : In v (filter (fun v => submit (fst v)) views))
        by (fold subs; rewrite Es; now left).
      apply filter_In in Hin. destruct Hin as [Hin Hb].
      rewrite (H v Hin) in Hb. discriminate. }
  assert (Hsome : subs <> [] <-> exists v, In v views /\ submit (fst v) = true).
  { split.
    - intros Hne. destruct subs as [|v l] eqn:Es; [congruence|].
      assert (Hin : In v (filter (fun v => submit (fst v)) views))
        by (fold subs; rewrite Es; now left).
      apply filter_In in Hin. now exists v.
    - intros (v & Hv & Hb) E.
      assert (Hin : In v subs) by (apply filter_In; now split).
      rewrite E in Hin. destruct Hin. }
  assert (Hview : render_feedback_stats s' =
            match subs with [] => Some NoFeedbackYet | _ :: _ => None end).
  { unfold render_feedback_stats. destruct subs as [|[inp now] l] eqn:Es.
    - now rewrite get_feedback_stats_empty by (rewrite Hrows; reflexivity).
    - now rewrite get_feedback_stats_raises by (rewrite Hrows; discriminate). }
  rewrite Hview. split; [|split].
  - rewrite <- Hnone. destruct subs; split; congruence.
  - rewrite <- Hsome. destruct subs; split; congruence.
  - intros r u f. destruct subs; discriminate.
Qed.

Lemma feedback_overview_raises_after_submission_witness :
  exists s,
    feedback_session two_visits None = Some s /\
    (render_feedback_stats s = Some NoFeedbackYet <->
     forall v, In v two_visits -> submit (fst v) = false) /\
    (render_feedback_stats s = None <->
     exists v, In v two_visits /\ submit (fst v) = true) /\
    (forall r u f, render_feedback_stats s <> Some (Overview r u f)).
Proof.
  eexists. split; [reflexivity|].
  apply (feedback_overview_raises_after_submission two_visits).
  reflexivity.
Defined.

End FeedbackSession.


(* ===================================================================== *)
(** ** Navigation                                                        *)
(* ===================================================================== *)

Module AppFacts.
Import App AppSpec.

Lemma str_eqb_eq (a b : pystr) : str_eqb a b = true <-> a = b.
Proof.
  revert b. induction a as [|x a IH]; intros [|y b]; cbn [str_eqb];
    try (split; [discriminate|congruence]); [tauto|].
  rewrite andb_true_iff, N.eqb_eq, IH. split; [intros [-> ->]|intros [= -> ->]]; auto.
Qed.

Lemma str_eqb_refl (a : pystr) : str_eqb a a = true.
Proof. now apply str_eqb_eq. Qed.

Lemma str_eqb_neq (a b : pystr) : a <> b -> str_eqb a b = false.
Proof.
  intros H. destruct (str_eqb a b) eqn:E; [|reflexivity].
  apply str_eqb_eq in E. contradiction.
Qed.

Lemma lookup_store_same {A : Type} (key : pystr) (v : A) (d : list (pystr * A)) :
  lookup key (store key v d) = Some v.
Proof.
  induction d as [|[k x] d IH]; cbn [store lookup].
  - now rewrite str_eqb_refl.
  - destruct (str_eqb k key) eqn:E; cbn [lookup]; now rewrite E.
Qed.

Lemma lookup_store_other {A : Type} (key key' : pystr) (v : A)
  (d : list (pystr * A)) :
  str_eqb key' key = false -> lookup key (store key' v d) = lookup key d.
Proof.
  intros H. induction d as [|[k x] d IH]; cbn [store lookup].
  - now rewrite H.
  - destruct (str_eqb k key') eqn:E; cbn [lookup].
    + apply str_eqb_eq in E. subst k. now rewrite H.
    + now rewrite IH.
Qed.

Lemma set_if_missing_present (key : pystr) (v : value) (st : session_state) :
  lookup key st <> None -> set_if_missing key v st = st.
Proof. unfold set_if_missing. now destruct (lookup key st). Qed.

Lemma lookup_set_if_missing_same (key : pystr) (v : value) (st : session_state) :
  lookup key (set_if_missing key v st) <> None.
Proof.
  unfold set_if_missing. destruct (lookup key st) eqn:E.
  - now rewrite E.
  - now rewrite lookup_store_same.
Qed.

Lemma lookup_set_if_missing_other (key key' : pystr) (v : value)
  (st : session_state) :
  str_eqb key' key = false ->
  lookup key (set_if_missing key' v st) = lookup key st.
Proof.
  intros H. unfold set_if_missing. destruct (lookup key' st); [reflexivity|].
  now apply lookup_store_other.
Qed.

Lemma set_if_missing_keeps (key key' : pystr) (v : value) (st : session_state) :
  lookup key st <> None -> lookup key (set_if_missing key' v st) <> None.
Proof.
  intros H. unfold set_if_missing. destruct (lookup key' st) eqn:E; [exact H|].
  destruct (str_eqb key' key) eqn:Ek.
  - apply str_eqb_eq in Ek. subst key'. now rewrite lookup_store_same.
  - now rewrite lookup_store_other.
Qed.

Lemma init_initialised (st : session_state) : initialised (init st).
Proof.
  intros key Hk. unfold init.
  destruct Hk as [<- | [<- | [<- | [<- | [<- | []]]]]];
    repeat first [apply lookup_set_if_missing_same | apply set_if_missing_keeps].
Qed.

Lemma init_fixed (st : session_state) : initialised st -> init st = st.
Proof.
  intros H. unfold init.
  rewrite (set_if_missing_present (str "form_data")) by (apply H; cbn; tauto).
  rewrite (set_if_missing_present (str "page")) by (apply H; cbn; tauto).
  rewrite (set_if_missing_present (str "is_admin")) by (apply H; cbn; tauto).
  rewrite (set_if_missing_present (str "user_id")) by (apply H; cbn; tauto).
  apply set_if_missing_present, H. cbn. tauto.
Qed.

Lemma init_other (key : pystr) (st : session_state) :
  forallb (fun k => negb (str_eqb k key)) init_keys = true ->
  lookup key (init st) = lookup key st.
Proof.
  intros H. cbn [forallb init_keys] in H.
  rewrite !andb_true_iff, !negb_true_iff in H.
  destruct H as (H1 & H2 & H3 & H4 & H5 & _).
  unfold init. now rewrite !lookup_set_if_missing_other.
Qed.

Lemma store_initialised (key : pystr) (v : value) (st : session_state) :
  initialised st -> initialised (store key v st).
Proof.
  intros H k Hk. destruct (str_eqb key k) eqn:E.
  - apply str_eqb_eq in E. subst k. now rewrite lookup_store_same.
  - rewrite lookup_store_other by exact E. now apply H.
Qed.

Lemma sidebar_no_click : sidebar pages NoClick = None.
Proof. reflexivity. Qed.

Lemma sidebar_name (name : pystr) (f : page_func) :
  In (name, f) pages -> sidebar pages (Click name) = Some (page_key name).
Proof.
  intros H. cbn in H.
  destruct H as [[= <- <-] | [[= <- <-] | [[= <- <-] | [[= <- <-] | [[= <- <-] | [[= <- <-] | []]]]]]];
    reflexivity.
Qed.

Lemma route_name (name : pystr) (f : page_func) :
  In (name, f) pages -> route (VStr (page_key name)) = Some f.
Proof.
  intros H. cbn in H.
  destruct H as [[= <- <-] | [[= <- <-] | [[= <- <-] | [[= <- <-] | [[= <- <-] | [[= <- <-] | []]]]]]];
    reflexivity.
Qed.

Lemma lookup_none {A : Type} (key : pystr) (d : list (pystr * A)) :
  (forall k, In k (map fst d) -> k <> key) -> lookup key d = None.
Proof.
  induction d as [|[k x] d IH]; intros H; cbn [lookup]; [reflexivity|].
  rewrite str_eqb_neq by (apply H; now left).
  apply IH. intros k' Hk'. apply H. now right.
Qed.

Lemma page_mapping_keys : map fst page_mapping = map page_key (map fst pages).
Proof. reflexivity. Qed.

Lemma route_other (p : pystr) :
  (forall name, In name (map fst pages) -> p <> page_key name) ->
  route (VStr p) = Some render_home.
Proof.
  intros H. unfold route.
  rewrite lookup_none; [reflexivity|].
  intros k Hk. rewrite page_mapping_keys in Hk.
  apply in_map_iff in Hk. destruct Hk as (name & <- & Hn).
  intros E. now apply (H name Hn).
Qed.

Lemma str_eqb_sym (a b : pystr) : str_eqb a b = str_eqb b a.
Proof.
  destruct (str_eqb b a) eqn:E.
  - apply str_eqb_eq in E. subst. apply str_eqb_refl.
  - apply str_eqb_neq. intros ->. now rewrite str_eqb_refl in E.
Qed.

Lemma lookup_pair {A : Type} (key : pystr) (v : A) (d : list (pystr * A)) :
  lookup key d = Some v -> In (key, v) d.
Proof.
  induction d as [|[k x] d IH]; cbn [lookup]; [discriminate|].
  destruct (str_eqb k key) eqn:E.
  - intros [= ->]. apply str_eqb_eq in E. subst. now left.
  - intros H. right. now apply IH.
Qed.

Lemma sidebar_lookup (ps : list (pystr * page_func)) (label : pystr) :
  sidebar ps (Click label) =
  match lookup label ps with
  | Some _ => Some (page_key label)
  | None => None
  end.
Proof.
  induction ps as [|[name f] ps IH]; cbn [sidebar lookup button]; [reflexivity|].
  rewrite (str_eqb_sym name label). destruct (str_eqb label name) eqn:E.
  - apply str_eqb_eq in E. now subst.
  - exact IH.
Qed.

Lemma call_no_click (f : page_func) (st : session_state) :
  call f NoClick st = Rendered f st.
Proof. now destruct f. Qed.

Lemma main_showing (f : page_func) (ev : event) (st : session_state) :
  showing f st -> sidebar pages ev = None -> script ev st = call f ev st.
Proof.
  intros (Hi & Hl & p & Hp & Hr) Hs. unfold script. rewrite (init_fixed st Hi).
  unfold main. rewrite Hs. destruct (lookup (str "initial_load") st); [|congruence].
  now rewrite Hp, Hr.
Qed.

Lemma run_no_click (k : nat) (f : page_func) (st : session_state) :
  showing f st -> run (S k) NoClick st = Some (f, st).
Proof.
  intros H. cbn [run]. now rewrite (main_showing f NoClick st H), call_no_click.
Qed.

Lemma showing_store_page (f : page_func) (p : pystr) (st : session_state) :
  initialised st -> lookup (str "initial_load") st <> None ->
  route (VStr p) = Some f ->
  showing f (store (str "page") (VStr p) st).
Proof.
  intros Hi Hl Hr. split; [|split].
  - now apply store_initialised.
  - now rewrite lookup_store_other.
  - exists p. split; [apply lookup_store_same|exact Hr].
Qed.

Lemma script_sidebar (ev : event) (key : pystr) (st : session_state) :
  sidebar pages ev = Some key ->
  script ev st = Rerun (store (str "page") (VStr key) (init st)).
Proof. intros H. unfold script, main. now rewrite H. Qed.

Lemma script_first (ev : event) (st : session_state) :
  sidebar pages ev = None -> lookup (str "initial_load") st = None ->
  script ev st =
  Rerun (store (str "page") (VStr (str "home"))
           (store (str "initial_load") (VBool true) (init st))).
Proof.
  intros Hs Hl. unfold script, main.
  now rewrite Hs, init_other, Hl.
Qed.

Lemma showing_first (st : session_state) :
  initialised st ->
  showing render_home
    (store (str "page") (VStr (str "home"))
       (store (str "initial_load") (VBool true) st)).
Proof.
  intros Hi. apply (showing_store_page render_home).
  - now apply store_initialised.
  - now rewrite lookup_store_same.
  - reflexivity.
Qed.

Lemma run_rerun (k : nat) (ev : event) (st st' : session_state) :
  script ev st = Rerun st' -> run (S k) ev st = run k NoClick st'.
Proof. intros H. cbn [run]. now rewrite H. Qed.

(** The first runs of a session, whatever was clicked. *)
Lemma first_runs (ev : event) (st : session_state) :
  lookup (str "initial_load") st = None ->
  exists st',
    run 3 ev st = Some (render_home, st') /\ showing render_home st' /\
    lookup (str "page") st' = Some (VStr (str "home")) /\
    lookup (str "initial_load") st' = Some (VBool true).
Proof.
  intros Hl.
  assert (F : forall st0, initialised st0 ->
            let st' := store (str "page") (VStr (str "home"))
                         (store (str "initial_load") (VBool true) st0) in
            showing render_home st' /\
            lookup (str "page") st' = Some (VStr (str "home")) /\
            lookup (str "initial_load") st' = Some (VBool true)).
  { intros st0 H0. cbv zeta. split; [now apply showing_first|]. split.
    - apply lookup_store_same.
    - rewrite lookup_store_other by reflexivity. apply lookup_store_same. }
  destruct (sidebar pages ev) as [key|] eqn:Hs.
  - set (st1 := store (str "page") (VStr key) (init st)).
    assert (H1 : initialised st1) by apply store_initialised, init_initialised.
    assert (L1 : lookup (str "initial_load") st1 = None).
    { unfold st1. rewrite lookup_store_other by reflexivity.
      now rewrite init_other. }
    eexists. split; [|apply (F st1 H1)].
    rewrite (run_rerun 2 ev st st1 (script_sidebar ev key st Hs)).
    pose proof (script_first NoClick st1 sidebar_no_click L1) as E.
    rewrite (init_fixed st1 H1) in E. rewrite (run_rerun 1 _ _ _ E).
    apply run_no_click, showing_first, H1.
  - eexists. split; [|apply (F (init st) (init_initialised st))].
    rewrite (run_rerun 2 _ _ _ (script_first ev st Hs Hl)).
    apply run_no_click, showing_first, init_initialised.
Qed.

(** One click in a session that shows a page. *)
Lemma click_showing (f : page_func) (ev : event) (st : session_state) :
  showing f st ->
  exists st', run 3 ev st = Some (clicked f ev, st') /\ showing (clicked f ev) st'.
Proof.
  intros H. destruct ev as [|label]; cbn [clicked].
  - exists st. split; [now apply run_no_click|exact H].
  - pose proof (sidebar_lookup pages label) as Hs.
    destruct (lookup label pages) as [g|] eqn:Hg.
    + apply lookup_pair in Hg.
      destruct H as (Hi & Hl & _).
      assert (H1 : showing g (store (str "page") (VStr (page_key label)) st)).
      { apply (showing_store_page g); auto. now apply (route_name label). }
      eexists. split; [|exact H1].
      pose proof (script_sidebar _ _ st Hs) as E. rewrite (init_fixed st Hi) in E.
      rewrite (run_rerun 2 _ _ _ E). now apply run_no_click.
    + pose proof (main_showing f _ st H Hs) as E.
      assert (R : forall g, script (Click label) st = Rendered g st ->
                run 3 (Click label) st = Some (g, st))
        by (intros g Eg; cbn [run]; now rewrite Eg).
      destruct f; cbn [call] in E; try (exists st; split; [now apply R|exact H]).
      unfold home in E. destruct (button (str "Get Started") (Click label)).
      * destruct H as (Hi & Hl & _).
        assert (H1 : showing render_home
                       (store (str "page") (VStr (str "resume_analyzer")) st)).
        { apply (showing_store_page render_home); auto. }
        eexists. split; [|exact H1].
        rewrite (run_rerun 2 _ _ _ E). now apply run_no_click.
      * exists st. split; [now apply R|exact H].
Qed.

(** X15. The keys of the pages.  The key that [main] derives of a page name
    leads to the method of that page, and every such key begins with an
    underscore; a string that does not begin with an underscore, such as
    'home' or 'resume_analyzer', is no key and leads to [render_home].  No
    string raises. *)
Theorem route_follows_page_key :
  (forall name f, In (name, f) pages -> route (VStr (page_key name)) = Some f) /\
  (forall name, In name (map fst pages) ->
     exists rest, page_key name = str "_" ++ rest) /\
  (forall p, (forall rest, p <> str "_" ++ rest) ->
     route (VStr p) = Some render_home) /\
  (forall p, exists f, route (VStr p) = Some f).
Proof.
  assert (K : forall name, In name (map fst pages) ->
            exists rest, page_key name = str "_" ++ rest).
  { intros name H. cbn in H.
    destruct H as [<- | [<- | [<- | [<- | [<- | [<- | []]]]]]];
      eexists; vm_compute; reflexivity. }
  split; [exact route_name|]. split; [exact K|]. split.
  - intros p Hp. apply route_other. intros name Hn E.
    destruct (K name Hn) as (rest & Hrest). apply (Hp rest). congruence.
  - intros p. unfold route. destruct (lookup p page_mapping) as [name|] eqn:E.
    + apply lookup_pair in E.
      assert (Hn : In name (map snd page_mapping))
        by (apply in_map_iff; now exists (p, name)).
      cbn in Hn.
      destruct Hn as [<- | [<- | [<- | [<- | [<- | [<- | []]]]]]];
        eexists; reflexivity.
    + now exists render_home.
Qed.

(** X16. The first visit.  In a session where [initial_load] is not yet
    set, whatever was clicked, the script ends after at most two reruns
    with the home page, 'home' as the page stored and [initial_load]
    set. *)
Theorem first_run_shows_home (ev : event) (st : session_state) :
  lookup (str "initial_load") st = None ->
  exists st',
    run 3 ev st = Some (render_home, st') /\
    lookup (str "page") st' = Some (VStr (str "home")) /\
    lookup (str "initial_load") st' = Some (VBool true).
Proof.
  intros H. destruct (first_runs ev st H) as (st' & Hr & _ & Hp & Hl).
  now exists st'.
Qed.

Lemma first_run_shows_home_witness :
  exists st',
    run 3 (Click (BAR_CHART ++ str " DASHBOARD")) [] = Some (render_home, st') /\
    lookup (str "page") st' = Some (VStr (str "home")) /\
    lookup (str "initial_load") st' = Some (VBool true).
Proof.
  apply (first_run_shows_home (Click (BAR_CHART ++ str " DASHBOARD")) []).
  reflexivity.
Defined.

(** X17. A button of the sidebar.  Once [initial_load] is set, a click on
    the button of a page stores the key of the page and, after one rerun,
    the method of that page is called. *)
Theorem sidebar_click_opens_page (name : pystr) (f : page_func)
  (st : session_state) :
  In (name, f) pages ->
  lookup (str "initial_load") st <> None ->
  run 2 (Click name) st
  = Some (f, store (str "page") (VStr (page_key name)) (init st)).
Proof.
  intros Hn Hl.
  rewrite (run_rerun 1 _ _ _ (script_sidebar _ _ st (sidebar_name name f Hn))).
  apply run_no_click, (showing_store_page f).
  - apply init_initialised.
  - now rewrite init_other.
  - now apply (route_name name).
Qed.

Lemma sidebar_click_opens_page_witness :
  run 2 (Click (BAR_CHART ++ str " DASHBOARD")) home_session
  = Some (render_dashboard,
          store (str "page") (VStr (page_key (BAR_CHART ++ str " DASHBOARD")))
            (init home_session)).
Proof.
  apply (sidebar_click_opens_page (BAR_CHART ++ str " DASHBOARD") render_dashboard
           home_session).
  - cbn. tauto.
  - vm_compute. discriminate.
Defined.

(** X18. The button of the home page.  When the home page is shown, a click
    on "Get Started" stores 'resume_analyzer' as the page, and the rerun
    shows the home page again: 'resume_analyzer' is no key of
    [page_mapping], the key of the analyzer being '_resume_analyzer'. *)
Theorem get_started_stays_home (st : session_state) :
  run 1 NoClick st = Some (render_home, st) ->
  run 2 (Click (str "Get Started")) st
  = Some (render_home, store (str "page") (VStr (str "resume_analyzer")) st).
Proof.
  intros H. cbn [run] in H. unfold script, main in H.
  rewrite sidebar_no_click in H.
  destruct (lookup (str "initial_load") (init st)) as [l|] eqn:El; [|discriminate H].
  destruct (route _) as [f|] eqn:Er in H; [|discriminate H].
  rewrite call_no_click in H. injection H as -> Hst.
  rewrite Hst in El, Er.
  assert (Hi : initialised st) by (rewrite <- Hst; apply init_initialised).
  assert (E : script (Click (str "Get Started")) st
              = Rerun (store (str "page") (VStr (str "resume_analyzer")) st)).
  { unfold script, main. rewrite Hst.
    replace (sidebar pages (Click (str "Get Started"))) with (@None pystr)
      by reflexivity.
    rewrite El, Er. reflexivity. }
  rewrite (run_rerun 1 _ _ _ E).
  apply run_no_click, (showing_store_page render_home); auto.
  now rewrite El.
Qed.

Lemma get_started_stays_home_witness :
  run 2 (Click (str "Get Started")) home_session
  = Some (render_home,
          store (str "page") (VStr (str "resume_analyzer")) home_session).
Proof.
  apply (get_started_stays_home home_session). reflexivity.
Defined.

(** X19. A whole visit.  From a new session, whatever is clicked and in
    whatever order, no run of the script raises, every click is settled
    within two reruns, and the page shown in the end is the page of the
    last button of the sidebar that was clicked, the home page if there was
    none; "Get Started" never changes the page shown. *)
Theorem visit_shows_last_sidebar_click (evs : list event) :
  exists st, visit evs = Some (fold_left clicked evs render_home, st).
Proof.
  unfold visit.
  destruct (first_runs NoClick [] eq_refl) as (st0 & -> & H0 & _).
  revert H0. generalize render_home as f. revert st0.
  induction evs as [|ev evs IH]; intros st f H; cbn [fold_left].
  - now exists st.
  - destruct (click_showing f ev st H) as (st' & -> & H').
    now apply IH.
Qed.

End AppFacts.
